(** * YaMDb API: a shallow embedding of the resource controllers and serializers

    The embedded sources are [api/views.py], [api/serializers.py] and
    [reviews/models.py].  Handlers are functions in a state-and-exception
    monad over the relational store; the framework calls they make
    (field validation, [get_object_or_404], [Model.delete], [Avg]) are
    written out next to them. *)

From Stdlib Require Import ZArith List String Ascii Bool Lia QArith.
From Stdlib Require Import DecimalString Permutation Sorted.
Import ListNotations.

Set Warnings "-register-all".

Local Open Scope string_scope.
Local Open Scope list_scope.
Local Open Scope Z_scope.

(** ** JSON values and request bodies *)

Module Json.

(** Parsed JSON.  Numbers are integers: the API documents no fractional
    input, and the one fractional value the program computes (the average
    score) is turned into an integer before it is rendered. *)
Inductive JSON : Type :=
| JNull
| JBool (b : bool)
| JInt (z : Z)
| JStr (s : string)
| JList (l : list JSON)
| JObj (l : list (string * JSON)).

(** [request.data]: a dict from keys to JSON values. *)
Definition Data := list (string * JSON).

(** [d.get(k)] *)
Fixpoint get (k : string) (d : Data) : option JSON :=
  match d with
  | [] => None
  | (k', v) :: d' => if String.eqb k k' then Some v else get k d'
  end.

(** field of a rendered object, [None] when the value is not an object *)
Definition field (k : string) (j : JSON) : option JSON :=
  match j with JObj l => get k l | _ => None end.

End Json.
Export Json.

(** ** Python strings *)

Module Py.

(** A Python [str] is a sequence of Unicode characters; it is kept here
    as its UTF-8 bytes.  [chars] cuts the bytes into characters: every
    byte that is not a continuation byte ([10xxxxxx]) starts one. *)
Definition is_continuation (c : ascii) : bool :=
  let n := nat_of_ascii c in ((128 <=? n) && (n <? 192))%nat.

Definition starts_with_continuation (ch : string) : bool :=
  match ch with
  | String c _ => is_continuation c
  | EmptyString => false
  end.

Fixpoint chars (s : string) : list string :=
  match s with
  | EmptyString => []
  | String c s' =>
      match chars s' with
      | ch :: rest =>
          if starts_with_continuation ch then String c ch :: rest
          else String c EmptyString :: ch :: rest
      | [] => [String c EmptyString]
      end
  end.

(** [len(s)]: the number of characters. *)
Definition len (s : string) : Z := Z.of_nat (List.length (chars s)).

Definition utf8 (l : list nat) : string :=
  string_of_list_ascii (map ascii_of_nat l).

(** The characters [str.isspace] accepts: U+0009..U+000D, U+001C..U+0020,
    U+0085, U+00A0, U+1680, U+2000..U+200A, U+2028, U+2029, U+202F,
    U+205F and U+3000. *)
Definition whitespace : list string :=
  map (fun n => utf8 [n]) [9; 10; 11; 12; 13; 28; 29; 30; 31; 32]%nat
  ++ [utf8 [194; 133]; utf8 [194; 160]; utf8 [225; 154; 128]]%nat
  ++ map (fun n => utf8 [226; 128; n]%nat)
         [128; 129; 130; 131; 132; 133; 134; 135; 136; 137; 138;
          168; 169; 175]%nat
  ++ [utf8 [226; 129; 159]; utf8 [227; 128; 128]]%nat.

(** [ch.isspace()] for one character *)
Definition isspace (ch : string) : bool := existsb (String.eqb ch) whitespace.

Fixpoint lstrip_chars (l : list string) : list string :=
  match l with
  | [] => []
  | ch :: l' => if isspace ch then lstrip_chars l' else l
  end.

Definition rstrip_chars (l : list string) : list string :=
  rev (lstrip_chars (rev l)).

Definition join (l : list string) : string := String.concat "" l.

Definition lstrip (s : string) : string := join (lstrip_chars (chars s)).

Definition rstrip (s : string) : string := join (rstrip_chars (chars s)).

(** [s.strip()] *)
Definition strip (s : string) : string :=
  join (rstrip_chars (lstrip_chars (chars s))).

(** [str(z)] for an int *)
Definition str_of_int (z : Z) : string := NilZero.string_of_int (Z.to_int z).

(** The digits of an integer literal: single underscores may stand
    between two digits and are dropped.  [after_digit] tells whether an
    underscore or the end may come next. *)
Fixpoint ungroup (after_digit : bool) (s : string) : option string :=
  match s with
  | EmptyString => if after_digit then Some EmptyString else None
  | String "_" s' => if after_digit then ungroup false s' else None
  | String c s' => option_map (String c) (ungroup true s')
  end.

Definition digits (s : string) : option Z :=
  match ungroup false s with
  | Some d => option_map Z.of_uint (NilZero.uint_of_string d)
  | None => None
  end.

(** [s.isascii()] *)
Definition isascii (s : string) : bool :=
  forallb (fun c => (nat_of_ascii c <? 128)%nat) (list_ascii_of_string s).

(** [int(s)] on decimal notation in ASCII digits: surrounding white
    space, an optional sign, digits.  A value it yields is the value of
    [int(s)].  Python also reads the decimal digits of other scripts;
    they are left out here, so on text that is not ASCII a [None] does
    not tell that [int(s)] fails. *)
Definition int_of_str (s : string) : option Z :=
  match strip s with
  | String "+" rest => digits rest
  | String "-" rest => option_map Z.opp (digits rest)
  | t => digits t
  end.

(** The code point of a character that is a surrogate (U+D800..U+DFFF),
    which a JSON escape can spell; its three bytes are 237, then
    160..191, then a continuation byte. *)
Definition surrogate (ch : string) : option Z :=
  match ch with
  | String c1 (String c2 (String c3 EmptyString)) =>
      let n2 := Z.of_nat (nat_of_ascii c2) in
      let n3 := Z.of_nat (nat_of_ascii c3) in
      if (Z.of_nat (nat_of_ascii c1) =? 237) && (160 <=? n2) && (n2 <=? 191)
      then Some (53248 + (n2 - 128) * 64 + (n3 - 128))
      else None
  | _ => None
  end.

(** [format(z, "X")] for a number of four hexadecimal digits. *)
Definition hex_digit (d : Z) : string :=
  String.substring (Z.to_nat d) 1 "0123456789ABCDEF".

Definition hex4 (z : Z) : string :=
  (hex_digit (z / 4096) ++ hex_digit (z / 256 mod 16)
   ++ hex_digit (z / 16 mod 16) ++ hex_digit (z mod 16))%string.

(** The double quote, for messages that quote their input. *)
Definition dquote : string := String (ascii_of_nat 34) EmptyString.

(** ["\x00" in s] *)
Fixpoint has_nul (s : string) : bool :=
  match s with
  | EmptyString => false
  | String c s' => Ascii.eqb c zero || has_nul s'
  end.

(** [str(v)] for a scalar; containers are left out (their text never
    names a choice or a stored value). *)
Definition str_of_scalar (v : JSON) : option string :=
  match v with
  | JStr s => Some s
  | JInt z => Some (str_of_int z)
  | JBool true => Some "True"
  | JBool false => Some "False"
  | _ => None
  end.

End Py.

(** ** Responses, exceptions, and the handler monad *)

Module Http.

Record Response : Type := mkResponse { status_code : Z; data : JSON }.

Definition HTTP_200_OK : Z := 200.
Definition HTTP_201_CREATED : Z := 201.
Definition HTTP_204_NO_CONTENT : Z := 204.
Definition HTTP_400_BAD_REQUEST : Z := 400.
Definition HTTP_401_UNAUTHORIZED : Z := 401.
Definition HTTP_404_NOT_FOUND : Z := 404.
Definition HTTP_500_INTERNAL_SERVER_ERROR : Z := 500.

Inductive Exception : Type :=
| ValidationError (detail : JSON)
| Http404
| NotAuthenticated
| ProtectedError
| IntegrityError
| DoesNotExist
| MultipleObjectsReturned
| OverflowError.

Inductive Result (A : Type) : Type :=
| Ok (a : A)
| Raise (e : Exception).
Arguments Ok {A} a.
Arguments Raise {A} e.

(** [APIView.handle_exception] followed by the server's fallback: the
    API exceptions become their responses, anything else is re-raised
    and leaves the server as a 500. *)
Definition handle_exception (e : Exception) : Response :=
  match e with
  | ValidationError detail => mkResponse HTTP_400_BAD_REQUEST detail
  | Http404 =>
      mkResponse HTTP_404_NOT_FOUND (JObj [("detail", JStr "Not found.")])
  | NotAuthenticated =>
      mkResponse HTTP_401_UNAUTHORIZED
        (JObj [("detail",
                JStr "Authentication credentials were not provided.")])
  | _ => mkResponse HTTP_500_INTERNAL_SERVER_ERROR JNull
  end.

(** The response the client receives for a handler outcome. *)
Definition finalize (r : Result Response) : Response :=
  match r with
  | Ok resp => resp
  | Raise e => handle_exception e
  end.

End Http.
Export Http.

(** ** Schema: [reviews/models.py] and the external User entity *)

Module Models.

(** Modelled from the spec: the User entity of [users.models], which is
    not among the sources.  The spec lists its attributes (username,
    email, role, bio, confirmation_code); the serializers add first_name
    and last_name. *)
Record User : Type := mkUser {
  user_id : Z;
  username : string;
  email : string;
  role : string;
  first_name : string;
  last_name : string;
  bio : string;
  confirmation_code : string
}.

Record Category : Type := mkCategory {
  category_id : Z;
  category_name : string;
  category_slug : string
}.

Record Genre : Type := mkGenre {
  genre_id : Z;
  genre_slug : string;
  genre_name : string
}.

(** [category] is the nullable foreign key, [genre] the rows of the
    many-to-many table that belong to the title. *)
Record Title : Type := mkTitle {
  title_id : Z;
  category : option Z;
  description : string;
  genre : list Z;
  title_name : string;
  year : Z
}.

Record Review : Type := mkReview {
  review_id : Z;
  review_title : Z;
  score : Z;
  review_text : string;
  review_author : Z;
  review_pub_date : Z
}.

Record Comment : Type := mkComment {
  comment_id : Z;
  comment_text : string;
  comment_pub_date : Z;
  comment_author : Z;
  comment_review : Z
}.

(** A message handed to [send_mail]. *)
Record Mail : Type := mkMail {
  mail_subject : string;
  mail_message : string;
  mail_recipients : list JSON
}.

(** The relational store, the mail outbox, and the clock. *)
Record State : Type := mkState {
  users : list User;
  categories : list Category;
  genres : list Genre;
  titles : list Title;
  reviews : list Review;
  comments : list Comment;
  outbox : list Mail;
  now : Z
}.

Definition set_users (us : list User) (st : State) : State :=
  mkState us (categories st) (genres st) (titles st) (reviews st)
          (comments st) (outbox st) (now st).
Definition set_categories (cs : list Category) (st : State) : State :=
  mkState (users st) cs (genres st) (titles st) (reviews st)
          (comments st) (outbox st) (now st).
Definition set_genres (gs : list Genre) (st : State) : State :=
  mkState (users st) (categories st) gs (titles st) (reviews st)
          (comments st) (outbox st) (now st).
Definition set_titles (ts : list Title) (st : State) : State :=
  mkState (users st) (categories st) (genres st) ts (reviews st)
          (comments st) (outbox st) (now st).
Definition set_reviews (rs : list Review) (st : State) : State :=
  mkState (users st) (categories st) (genres st) (titles st) rs
          (comments st) (outbox st) (now st).
Definition set_outbox (ms : list Mail) (st : State) : State :=
  mkState (users st) (categories st) (genres st) (titles st) (reviews st)
          (comments st) ms (now st).

End Models.
Export Models.

(** ** The handler monad: state passing with exceptions.  A raised
    exception keeps the writes made before it (no transaction wraps a
    request). *)

Module Handler.

Definition M (A : Type) : Type := State -> Result A * State.

Definition ret {A} (a : A) : M A := fun st => (Ok a, st).

Definition raise {A} (e : Exception) : M A := fun st => (Raise e, st).

Definition bind {A B} (m : M A) (f : A -> M B) : M B :=
  fun st =>
    match m st with
    | (Ok a, st') => f a st'
    | (Raise e, st') => (Raise e, st')
    end.

Definition read {A} (f : State -> A) : M A := fun st => (Ok (f st), st).

Definition write (f : State -> State) : M unit := fun st => (Ok tt, f st).

Definition lift {A} (r : Result A) : M A := fun st => (r, st).

End Handler.
Export Handler.

Notation "x <- m ;; k" := (bind m (fun x => k))
  (at level 61, m at next level, right associativity).
Notation "m ;;; k" := (bind m (fun _ => k))
  (at level 61, right associativity).


(** ** Query sets and model methods *)

Module Orm.

(** [QuerySet.get()] on an already filtered query set. *)
Definition QuerySet_get {A} (qs : list A) : Result A :=
  match qs with
  | [] => Raise DoesNotExist
  | [x] => Ok x
  | _ :: _ :: _ => Raise MultipleObjectsReturned
  end.

(** [get_object_or_404]: only [DoesNotExist] is turned into a 404. *)
Definition get_object_or_404 {A} (qs : list A) : Result A :=
  match QuerySet_get qs with
  | Raise DoesNotExist => Raise Http404
  | r => r
  end.

(** The keys a lookup can hand to the database: signed 64-bit
    integers. *)
Definition in_int64 (k : Z) : bool := (- 2 ^ 63 <=? k) && (k <? 2 ^ 63).

(** [get_object_or_404] on the rows that a lookup by the integer key [k]
    selects.  A key beyond 64 bits is refused by the database driver
    with [OverflowError], which nothing on the way up catches.  No
    stored row carries such a key, so the refusal shows where no row is
    selected. *)
Definition get_by_key_or_404 {A} (rows : list A) (k : Z) : Result A :=
  match rows with
  | [] => if in_int64 k then Raise Http404 else Raise OverflowError
  | _ :: _ => get_object_or_404 rows
  end.

(** [Sum] and [Avg] aggregates over an integer column; an empty set of
    rows aggregates to [None].  The database hands the average back as a
    float; [Avg] is the exact quotient, which has the same integer part
    as that float while the scores are small (a sum below 2^53 is exact
    in a float).  The properties of the rating are stated for scores in
    1..10 for that reason. *)
Definition Sum (l : list Z) : Z := fold_right Z.add 0 l.

Definition Avg (l : list Z) : option Q :=
  match l with
  | [] => None
  | _ :: _ => Some (Qmake (Sum l) (Pos.of_nat (List.length l)))
  end.

(** The next value of an auto-incremented primary key. *)
Definition next_id (ids : list Z) : Z := 1 + fold_right Z.max 0 ids.

(** Reverse accessors: [title.reviews], [review.comments],
    [category.titles]. *)
Definition title_reviews (st : State) (pk : Z) : list Review :=
  filter (fun r => review_title r =? pk) (reviews st).

Definition review_comments (st : State) (pk : Z) : list Comment :=
  filter (fun c => comment_review c =? pk) (comments st).

Definition in_category (pk : Z) (t : Title) : bool :=
  match category t with
  | Some k => k =? pk
  | None => false
  end.

Definition category_titles (st : State) (pk : Z) : list Title :=
  filter (in_category pk) (titles st).

(** [Category.delete()]: [Title.category] is declared
    [on_delete=models.PROTECT], so the collector raises as soon as one
    title refers to the category; nothing is deleted then. *)
Definition Category_delete (c : Category) : M unit :=
  referring <- read (fun st => category_titles st (category_id c));;
  match referring with
  | _ :: _ => raise ProtectedError
  | [] =>
      write (fun st =>
        set_categories
          (filter (fun c' => negb (category_id c' =? category_id c))
                  (categories st)) st)
  end.

Definition unlink_genre (pk : Z) (t : Title) : Title :=
  mkTitle (title_id t) (category t) (description t)
          (filter (fun g => negb (g =? pk)) (genre t))
          (title_name t) (year t).

(** [Genre.delete()]: the rows of the many-to-many table go with the
    genre, the titles stay. *)
Definition Genre_delete (g : Genre) : M unit :=
  write (fun st =>
    set_titles (map (unlink_genre (genre_id g)) (titles st))
      (set_genres
         (filter (fun g' => negb (genre_id g' =? genre_id g)) (genres st))
         st)).

(** The [unique_title_author] constraint of [Review.Meta]. *)
Definition same_title_author (title author : Z) (r : Review) : bool :=
  (review_title r =? title) && (review_author r =? author).

(** [Review.objects.create(...)]: [pub_date] is [auto_now_add]; the
    store refuses a second row for the same (title, author). *)
Definition Review_objects_create
    (text : string) (sc : Z) (author : User) (title : Title) : M Review :=
  st <- read (fun st => st);;
  if existsb (same_title_author (title_id title) (user_id author))
             (reviews st)
  then raise IntegrityError
  else
    let r := mkReview (next_id (map review_id (reviews st)))
                      (title_id title) sc text (user_id author) (now st) in
    write (set_reviews (reviews st ++ [r]));;;
    ret r.

(** [Review.objects.filter(author=author, title=title_id).exists()]; a
    key beyond 64 bits, which no stored review refers to, is refused by
    the database driver. *)
Definition Review_exists (author : User) (title_pk : Z) : M bool :=
  st <- read (fun st => st);;
  if existsb (same_title_author title_pk (user_id author)) (reviews st)
  then ret true
  else if in_int64 title_pk then ret false
  else raise OverflowError.

(** The text a raw body value is compared with in a lookup on a text
    column: a missing or null value matches no row. *)
Definition lookup_text (v : option JSON) : option string :=
  match v with
  | Some j => Py.str_of_scalar j
  | None => None
  end.

(** [User.objects.filter(username=..., email=...)] with the raw values of
    the request body. *)
Definition User_filter (uname mail : option JSON) (st : State) : list User :=
  match lookup_text uname, lookup_text mail with
  | Some u, Some e =>
      filter (fun x => String.eqb (username x) u && String.eqb (email x) e)
             (users st)
  | _, _ => []
  end.

(** [User.objects.filter(username=...)] with the raw value of the body. *)
Definition User_by_username (uname : option JSON) (st : State) : list User :=
  match lookup_text uname with
  | Some u => filter (fun x => String.eqb (username x) u) (users st)
  | None => []
  end.

(** Another row already carries this username. *)
Definition username_taken (exclude : option User) (us : list User)
    (u : string) : bool :=
  existsb (fun x =>
    String.eqb (username x) u &&
    match exclude with
    | Some i => negb (user_id x =? user_id i)
    | None => true
    end) us.

Definition replace_user (u : User) (x : User) : User :=
  if user_id x =? user_id u then u else x.

(** [user.save()]: update the row with the instance's primary key, insert
    when there is none; the username is unique in the store. *)
Definition User_save (u : User) : M unit :=
  st <- read (fun st => st);;
  if username_taken (Some u) (users st) (username u)
  then raise IntegrityError
  else if existsb (fun x => user_id x =? user_id u) (users st)
  then write (set_users (map (replace_user u) (users st)))
  else write (set_users (users st ++ [u])).

(** [send_mail(subject, message, None, recipients)] *)
Definition send_mail (subject message : string) (recipients : list JSON)
    : M unit :=
  write (fun st =>
    set_outbox (outbox st ++ [mkMail subject message recipients]) st).

End Orm.
Export Orm.


(** ** Serializer fields *)

Module Fields.

(** The outcome of [Field.run_validation]: a value, [SkipField], or a
    [ValidationError] with its messages. *)
Inductive FieldResult (A : Type) : Type :=
| Valid (a : A)
| Skip
| Invalid (messages : list string).
Arguments Valid {A} a.
Arguments Skip {A}.
Arguments Invalid {A} messages.

(** A validator yields the messages of the error it raises, none when it
    accepts the value. *)
Definition Validator : Type := string -> list string.

(** [Field.run_validators]: every validator runs, the messages pile up. *)
Definition run_validators {A} (vs : list (A -> list string)) (v : A)
    : list string :=
  flat_map (fun f => f v) vs.

Definition checked {A} (vs : list (A -> list string)) (v : A)
    : FieldResult A :=
  match run_validators vs v with
  | [] => Valid v
  | m :: ms => Invalid (m :: ms)
  end.

(** [Field.validate_empty_values] for a field that is neither read-only
    nor nullable and has no default. *)
Definition validate_empty_values {A} (partial required : bool)
    (data : option JSON) (k : JSON -> FieldResult A) : FieldResult A :=
  match data with
  | None =>
      if partial then Skip
      else if required then Invalid ["This field is required."]
      else Skip
  | Some JNull => Invalid ["This field may not be null."]
  | Some d => k d
  end.

Definition MaxLengthValidator (n : Z) : Validator :=
  fun v =>
    if n <? Py.len v
    then ["Ensure this field has no more than " ++ Py.str_of_int n
          ++ " characters."]%string
    else [].

Definition ProhibitNullCharactersValidator : Validator :=
  fun v => if Py.has_nul v then ["Null characters are not allowed."] else [].

(** The first surrogate of the value is reported. *)
Definition ProhibitSurrogateCharactersValidator : Validator :=
  fun v =>
    match flat_map (fun ch => match Py.surrogate ch with
                              | Some cp => [cp]
                              | None => []
                              end) (Py.chars v) with
    | cp :: _ =>
        [("Surrogate characters are not allowed: U+" ++ Py.hex4 cp ++ ".")
         %string]
    | [] => []
    end.

Record CharField : Type := mkCharField {
  required : bool;
  allow_blank : bool;
  max_length : option Z;
  validators : list Validator
}.

(** The validators of a [CharField]: the ones given, then the length
    bound, then the checks for null characters and for surrogates. *)
Definition CharField_validators (f : CharField) : list Validator :=
  validators f
  ++ match max_length f with
     | Some n => [MaxLengthValidator n]
     | None => []
     end
  ++ [ProhibitNullCharactersValidator; ProhibitSurrogateCharactersValidator].

(** [CharField.to_internal_value]: strings and numbers are accepted and
    trimmed, booleans and containers are not. *)
Definition CharField_to_internal_value (data : JSON) : option string :=
  match data with
  | JStr s => Some (Py.strip s)
  | JInt z => Some (Py.strip (Py.str_of_int z))
  | _ => None
  end.

Definition is_blank (data : option JSON) : bool :=
  match data with
  | Some (JStr s) => String.eqb (Py.strip s) ""
  | _ => false
  end.

(** [CharField.run_validation] *)
Definition CharField_run_validation (partial : bool) (f : CharField)
    (data : option JSON) : FieldResult string :=
  if is_blank data then
    if allow_blank f then Valid ""
    else Invalid ["This field may not be blank."]
  else
    validate_empty_values partial (required f) data (fun d =>
      match CharField_to_internal_value d with
      | None => Invalid ["Not a valid string."]
      | Some v => checked (CharField_validators f) v
      end).

(** [ChoiceField.run_validation] with [allow_blank=False]. *)
Definition ChoiceField_run_validation (partial required : bool)
    (choices : list string) (data : option JSON) : FieldResult string :=
  validate_empty_values partial required data (fun d =>
    match Py.str_of_scalar d with
    | Some s =>
        if existsb (String.eqb s) choices then Valid s
        else Invalid [(Py.dquote ++ s ++ Py.dquote
                       ++ " is not a valid choice.")%string]
    | None => Invalid ["Not a valid choice."]
    end).

(** [re_decimal.sub('', s)] for the pattern [\.0*\s*$]: a dot, zeros and
    white space at the very end are dropped before the integer is
    parsed.  The characters are walked from the end. *)
Fixpoint drop_zeros (l : list string) : list string :=
  match l with
  | "0" :: l' => drop_zeros l'
  | _ => l
  end.

Definition re_decimal_sub (s : string) : string :=
  match drop_zeros (Py.lstrip_chars (rev (Py.chars s))) with
  | "." :: rest => Py.join (rev rest)
  | _ => s
  end.

(** [IntegerField.to_internal_value] *)
Definition IntegerField_to_internal_value (data : JSON)
    : FieldResult Z :=
  match data with
  | JInt z => Valid z
  | JStr s =>
      if 1000 <? Py.len s then Invalid ["String value too large."]
      else match Py.int_of_str (re_decimal_sub s) with
           | Some z => Valid z
           | None => Invalid ["A valid integer is required."]
           end
  | _ => Invalid ["A valid integer is required."]
  end.

Definition IntegerField_run_validation (partial required : bool)
    (data : option JSON) : FieldResult Z :=
  validate_empty_values partial required data IntegerField_to_internal_value.

(** [int(value)]: truncation toward zero. *)
Definition int_of_number (q : Q) : Z := Z.quot (Qnum q) (Zpos (Qden q)).

(** [IntegerField.to_representation] *)
Definition IntegerField_to_representation (value : Q) : JSON :=
  JInt (int_of_number value).

(** The key under which a primary key is looked up. *)
Definition pk_of_json (data : JSON) : option Z :=
  match data with
  | JInt z => Some z
  | JStr s => Py.int_of_str s
  | JBool b => Some (if b then 1 else 0)
  | _ => None
  end.

(** [SlugRelatedField(slug_field="id", queryset=Title.objects.all())]:
    an empty string counts as null, a key that is no integer is invalid,
    a key without a row does not exist. *)
Definition Title_by_id_run_validation (partial required : bool)
    (ts : list Title) (data : option JSON) : FieldResult Title :=
  let data' := match data with
               | Some (JStr "") => Some JNull
               | d => d
               end in
  validate_empty_values partial required data' (fun d =>
    match pk_of_json d with
    | None => Invalid ["Invalid value."]
    | Some pk =>
        match find (fun t => title_id t =? pk) ts with
        | Some t => Valid t
        | None =>
            Invalid [("Object with id="
                      ++ match Py.str_of_scalar d with Some s => s | None => "" end
                      ++ " does not exist.")%string]
        end
    end).

(** The lookup of that field is handed a key beyond 64 bits (which no
    stored title carries): the driver's [OverflowError] is none of the
    exceptions the field turns into a validation error. *)
Definition Title_by_id_overflows (ts : list Title) (data : option JSON)
    : bool :=
  match data with
  | None | Some JNull | Some (JStr "") => false
  | Some d =>
      match pk_of_json d with
      | Some pk =>
          negb (existsb (fun t => title_id t =? pk) ts) && negb (in_int64 pk)
      | None => false
      end
  end.

(** A body entry whose lookup as a key stays within the database's
    range: no entry, an integer within 64 bits, or ASCII text that does
    not spell an integer beyond 64 bits. *)
Definition key_entry_in_range (data : option JSON) : bool :=
  match data with
  | Some (JInt z) => in_int64 z
  | Some (JStr s) =>
      Py.isascii s
      && match Py.int_of_str s with
         | Some pk => in_int64 pk
         | None => true
         end
  | _ => true
  end.

(** The entry a failed field leaves in [serializer.errors]. *)
Definition field_errors {A} (name : string) (r : FieldResult A)
    : list (string * JSON) :=
  match r with
  | Invalid ms => [(name, JList (map JStr ms))]
  | _ => []
  end.

(** The value a field leaves in [validated_data], if any. *)
Definition field_value {A} (r : FieldResult A) : option A :=
  match r with
  | Valid a => Some a
  | _ => None
  end.

(** [validate_<field>]: runs on the value of a field that passed. *)
Definition and_then {A} (r : FieldResult A) (f : A -> FieldResult A)
    : FieldResult A :=
  match r with
  | Valid a => f a
  | other => other
  end.

End Fields.
Export Fields.


(** ** What the sources import from outside *)

(** The handlers call into [users.models], [api.utils] and the token
    library, none of which is among the sources.  What they call is taken
    as a parameter: [is_admin] is the User property of that name; the two
    validators are the format rules of the username and email columns;
    [default_role] and [default_confirmation_code] fill a freshly created
    account; [check_confirmation_code] is the helper of [api.utils];
    [AccessToken_for_user] is the bearer token issued for a user. *)
Record Externals : Type := mkExternals {
  is_admin : User -> bool;
  username_validator : Validator;
  email_validator : Validator;
  default_role : string;
  default_confirmation_code : State -> string;
  check_confirmation_code : User -> string -> bool;
  AccessToken_for_user : User -> string
}.

(** An incoming request: verb, authenticated caller (if any), body. *)
Record Request : Type := mkRequest {
  method : string;
  user : option User;
  body : Data
}.

(** Attribute access by name, as the serializers do it on whatever
    instance they are handed. *)
Class NameSlug (A : Type) : Type := {
  name_of : A -> string;
  slug_of : A -> string
}.

#[export] Instance Category_NameSlug : NameSlug Category :=
  {| name_of := category_name; slug_of := category_slug |}.

#[export] Instance Genre_NameSlug : NameSlug Genre :=
  {| name_of := genre_name; slug_of := genre_slug |}.

(** ** [api/serializers.py] *)

Module Serializers.

(** [CategorySerializer(instance).data]: [fields = ("name", "slug")] *)
Definition CategorySerializer_data {A} `{NameSlug A} (instance : A) : JSON :=
  JObj [("name", JStr (name_of instance)); ("slug", JStr (slug_of instance))].

(** [GenreSerializer(instance).data]: [fields = ("name", "slug")] *)
Definition GenreSerializer_data {A} `{NameSlug A} (instance : A) : JSON :=
  JObj [("name", JStr (name_of instance)); ("slug", JStr (slug_of instance))].

(** The least [datetime.year]. *)
Definition MINYEAR : Z := 1.

(** [TitleSerializer.validate_year], with [dt.datetime.now().year] passed
    in as [current_year]. *)
Definition validate_year (current_year : Z) (data : Z) : FieldResult Z :=
  if (current_year <=? data) && (data <? 0)
  then Invalid ["Введите корректный год!"]
  else Valid data.

(** The [year] field of [TitleSerializer]: [serializers.IntegerField()]
    followed by [validate_year]. *)
Definition TitleSerializer_year (current_year : Z) (partial : bool)
    (data : option JSON) : FieldResult Z :=
  and_then (IntegerField_run_validation partial true data)
           (validate_year current_year).

(** A row of [Title.objects.annotate(rating=Avg("reviews__score"))]. *)
Record AnnotatedTitle : Type := mkAnnotated {
  annotated : Title;
  rating : option Q
}.

Definition nullable {A} (f : A -> JSON) (v : option A) : JSON :=
  match v with
  | Some a => f a
  | None => JNull
  end.

(** [Meta.ordering = ("name",)] of [Genre], which [title.genre.all()]
    follows: by the bytes of the name, as the default collation of
    SQLite compares text. *)
Fixpoint insert_by_name (g : Genre) (l : list Genre) : list Genre :=
  match l with
  | [] => [g]
  | x :: l' =>
      if String.leb (genre_name g) (genre_name x) then g :: l
      else x :: insert_by_name g l'
  end.

Definition order_by_name (l : list Genre) : list Genre :=
  fold_right insert_by_name [] l.

(** [title.genre.all()] *)
Definition title_genres (st : State) (title : Title) : list Genre :=
  order_by_name
    (filter (fun g => existsb (Z.eqb (genre_id g)) (genre title))
            (genres st)).

(** [TitleOnlyReadSerializer(title).data]: a [None] attribute is rendered
    as null without asking the field; otherwise [rating] goes through
    [IntegerField.to_representation]. *)
Definition TitleOnlyReadSerializer_data (st : State) (t : AnnotatedTitle)
    : JSON :=
  let title := annotated t in
  JObj [
    ("id", JInt (title_id title));
    ("name", JStr (title_name title));
    ("year", JInt (year title));
    ("rating", nullable IntegerField_to_representation (rating t));
    ("description", JStr (description title));
    ("genre",
      JList (map GenreSerializer_data (title_genres st title)));
    ("category",
      nullable CategorySerializer_data
        (match category title with
         | Some pk => find (fun c => category_id c =? pk) (categories st)
         | None => None
         end))
  ].

(** [CommentSerializer(comment).data] *)
Definition CommentSerializer_data (st : State) (c : Comment) : JSON :=
  JObj [
    ("id", JInt (comment_id c));
    ("author",
      nullable (fun u => JStr (username u))
        (find (fun u => user_id u =? comment_author c) (users st)));
    ("text", JStr (comment_text c));
    ("pub_date", JInt (comment_pub_date c))
  ].

(** [ReviewSerializer(review).data]; [author] is the user object the
    instance holds. *)
Definition ReviewSerializer_data (st : State) (author : User) (r : Review)
    : JSON :=
  JObj [
    ("id", JInt (review_id r));
    ("text", JStr (review_text r));
    ("pub_date", JInt (review_pub_date r));
    ("author", JStr (username author));
    ("title", JInt (review_title r));
    ("score", JInt (score r));
    ("comments",
      JList (map (CommentSerializer_data st)
                 (review_comments st (review_id r))))
  ].

(** [ReviewSerializer.validate_score] *)
Definition validate_score (sc : Z) : FieldResult Z :=
  if negb ((1 <=? sc) && (sc <=? 10))
  then Invalid ["Проверьте оценку!"]
  else Valid sc.

(** [validated_data] of a [ReviewSerializer]: the writable fields.
    [author], [id], [pub_date] and [comments] are read-only and never
    taken from the body. *)
Record ReviewData : Type := mkReviewData {
  vd_text : option string;
  vd_title : option Title;
  vd_score : option Z
}.

Definition text_field : CharField := mkCharField true false None [].

(** Field validation of [ReviewSerializer], in the order of
    [Meta.fields].  The uniqueness of (title, author) is checked by
    [validate] below and by the store, not by a field.  An exception of
    the [title] lookup that is no validation error ends the validation
    at once. *)
Definition ReviewSerializer_to_internal_value (partial : bool) (st : State)
    (d : Data) : Result ReviewData :=
  if Title_by_id_overflows (titles st) (get "title" d)
  then Raise OverflowError
  else
  let text := CharField_run_validation partial text_field (get "text" d) in
  let title :=
    Title_by_id_run_validation partial false (titles st) (get "title" d) in
  let sc := and_then (IntegerField_run_validation partial true (get "score" d))
                     validate_score in
  match field_errors "text" text ++ field_errors "title" title
        ++ field_errors "score" sc with
  | [] => Ok (mkReviewData (field_value text) (field_value title)
                           (field_value sc))
  | e :: es => Raise (ValidationError (JObj (e :: es)))
  end.

(** [ReviewSerializer.validate]: [meth] is [request.method], [author] is
    [request.user], [title_pk] is the [title_id] of the URL. *)
Definition ReviewSerializer_validate (meth : string) (author : User)
    (title_pk : Z) (data : ReviewData) : M ReviewData :=
  if negb (String.eqb meth "POST") then ret data
  else
    dup <- Review_exists author title_pk;;
    if dup
    then raise (ValidationError
           (JObj [("non_field_errors",
                   JList [JStr "Нельзя оставлять повторный отзыв."])]))
    else ret data.

(** [serializer.is_valid(raise_exception=True)] for a review. *)
Definition ReviewSerializer_is_valid (partial : bool) (meth : string)
    (author : User) (title_pk : Z) (d : Data) : M ReviewData :=
  st <- read (fun st => st);;
  fields <- lift (ReviewSerializer_to_internal_value partial st d);;
  ReviewSerializer_validate meth author title_pk fields.

(** [serializer.save(author=..., title=...)] on a serializer without
    instance: the keyword arguments override the validated data, then the
    row is created. *)
Definition ReviewSerializer_save_create (data : ReviewData) (author : User)
    (title : Title) : M Review :=
  match vd_text data, vd_score data with
  | Some text, Some sc => Review_objects_create text sc author title
  | _, _ => raise IntegrityError
  end.

End Serializers.
Export Serializers.


(** ** The user serializers *)

Section UserSerializers.

Variable E : Externals.

(** [validated_data] of the user serializers. *)
Record UserData : Type := mkUserData {
  vd_username : option string;
  vd_email : option string;
  vd_role : option string;
  vd_first_name : option string;
  vd_last_name : option string;
  vd_bio : option string
}.

(** Modelled from the spec: the role column of the User entity, one of
    user, moderator, admin. *)
Definition ROLE_CHOICES : list string := ["user"; "moderator"; "admin"].

(** [UniqueValidator(queryset=User.objects.all())] on the username: the
    rows are searched for the value, the serializer's own instance
    excluded. *)
Definition UniqueValidator_username (instance : option User)
    (us : list User) : Validator :=
  fun v =>
    if username_taken instance us v
    then ["A user with that username already exists."]
    else [].

(** Modelled from the spec: the serializer fields that [ModelSerializer]
    derives from the User columns ([users.models] is not among the
    sources): a unique username of at most 150 characters under the
    platform's character rule, an email address, a role choice, free
    text for the rest. *)
Definition username_field (instance : option User) (us : list User)
    : CharField :=
  mkCharField true false (Some 150)
    [username_validator E; UniqueValidator_username instance us].

Definition email_field : CharField :=
  mkCharField true false (Some 254) [email_validator E].

Definition name_field : CharField := mkCharField false true (Some 150) [].

Definition bio_field : CharField := mkCharField false true None [].

(** [validate_username] of [UserSerializer] and of [SignUpSerializer] *)
Definition validate_username (value : string) : FieldResult string :=
  if String.eqb value "me"
  then Invalid ["Нельзя использовать me в качестве username"]
  else Valid value.

(** Field validation of [UserSerializer] ([role_read_only = false]) and
    of [UserMeSerializer] ([role_read_only = true]: a read-only field is
    not looked at).  Order of [Meta.fields]. *)
Definition UserSerializer_to_internal_value (role_read_only partial : bool)
    (instance : option User) (us : list User) (d : Data) : Result UserData :=
  let uname :=
    and_then (CharField_run_validation partial (username_field instance us)
                                       (get "username" d))
             validate_username in
  let mail := CharField_run_validation partial email_field (get "email" d) in
  let rl :=
    if role_read_only then Skip
    else ChoiceField_run_validation partial false ROLE_CHOICES
                                    (get "role" d) in
  let first :=
    CharField_run_validation partial name_field (get "first_name" d) in
  let last :=
    CharField_run_validation partial name_field (get "last_name" d) in
  let b := CharField_run_validation partial bio_field (get "bio" d) in
  match field_errors "username" uname ++ field_errors "email" mail
        ++ field_errors "role" rl ++ field_errors "first_name" first
        ++ field_errors "last_name" last ++ field_errors "bio" b with
  | [] => Ok (mkUserData (field_value uname) (field_value mail)
                         (field_value rl) (field_value first)
                         (field_value last) (field_value b))
  | e :: es => Raise (ValidationError (JObj (e :: es)))
  end.

(** [UserSerializer(user).data] and [UserMeSerializer(user).data] *)
Definition UserSerializer_data (u : User) : JSON :=
  JObj [
    ("username", JStr (username u));
    ("email", JStr (email u));
    ("role", JStr (role u));
    ("first_name", JStr (first_name u));
    ("last_name", JStr (last_name u));
    ("bio", JStr (bio u))
  ].

Definition or_keep (new : option string) (old : string) : string :=
  match new with
  | Some v => v
  | None => old
  end.

(** [ModelSerializer.update]: every validated attribute is set on the
    instance. *)
Definition setattrs (data : UserData) (instance : User) : User :=
  mkUser (user_id instance)
         (or_keep (vd_username data) (username instance))
         (or_keep (vd_email data) (email instance))
         (or_keep (vd_role data) (role instance))
         (or_keep (vd_first_name data) (first_name instance))
         (or_keep (vd_last_name data) (last_name instance))
         (or_keep (vd_bio data) (bio instance))
         (confirmation_code instance).

(** The validated data merged with [role=...]: a keyword argument of
    [save] replaces the validated value of the same name. *)
Definition with_role (rl : string) (data : UserData) : UserData :=
  mkUserData (vd_username data) (vd_email data) (Some rl)
             (vd_first_name data) (vd_last_name data) (vd_bio data).

(** [serializer.save] on a serializer bound to [instance], given the
    validated data already merged with the keyword arguments. *)
Definition UserSerializer_save_update (instance : User) (data : UserData)
    : M User :=
  let updated := setattrs data instance in
  User_save updated;;;
  ret updated.

(** Field validation of [SignUpSerializer]: [fields = ("email",
    "username")]. *)
Definition SignUpSerializer_to_internal_value (instance : option User)
    (us : list User) (d : Data) : Result UserData :=
  let mail := CharField_run_validation false email_field (get "email" d) in
  let uname :=
    and_then (CharField_run_validation false (username_field instance us)
                                       (get "username" d))
             validate_username in
  match field_errors "email" mail ++ field_errors "username" uname with
  | [] => Ok (mkUserData (field_value uname) (field_value mail)
                         None None None None)
  | e :: es => Raise (ValidationError (JObj (e :: es)))
  end.

(** [SignUpSerializer(user).data] *)
Definition SignUpSerializer_data (u : User) : JSON :=
  JObj [("email", JStr (email u)); ("username", JStr (username u))].

(** [User.objects.create] on the validated data: a new row with a fresh
    primary key and the column defaults. *)
Definition User_objects_create (data : UserData) : M User :=
  st <- read (fun st => st);;
  let u := mkUser (next_id (map user_id (users st)))
                  (or_keep (vd_username data) "")
                  (or_keep (vd_email data) "")
                  (default_role E) "" "" ""
                  (default_confirmation_code E st) in
  User_save u;;;
  ret u.

(** [serializer.save()] of the sign-up serializer: update when it is
    bound to an instance, create otherwise. *)
Definition SignUpSerializer_save (instance : option User) (data : UserData)
    : M User :=
  match instance with
  | Some i => UserSerializer_save_update i data
  | None => User_objects_create data
  end.

(** [validated_data] of a [TokenSerializer]. *)
Record TokenData : Type := mkTokenData {
  td_username : option string;
  td_confirmation_code : option string
}.

(** [validators=[UnicodeUsernameValidator]] lists the validator class,
    not an instance of it: running it on a value builds a validator
    from that value and raises nothing. *)
Definition UnicodeUsernameValidator_class : Validator := fun _ => [].

Definition token_username_field : CharField :=
  mkCharField true false (Some 150) [UnicodeUsernameValidator_class].

Definition token_code_field : CharField := mkCharField true false None [].

(** [TokenSerializer(data=...).is_valid(raise_exception=True)] *)
Definition TokenSerializer_is_valid (d : Data) : Result TokenData :=
  let uname :=
    CharField_run_validation false token_username_field (get "username" d) in
  let code :=
    CharField_run_validation false token_code_field
                             (get "confirmation_code" d) in
  match field_errors "username" uname
        ++ field_errors "confirmation_code" code with
  | [] => Ok (mkTokenData (field_value uname) (field_value code))
  | e :: es => Raise (ValidationError (JObj (e :: es)))
  end.

End UserSerializers.


(** ** [api/views.py] *)

Section Views.

Variable E : Externals.

(** [self.get_object()] with [lookup_field = "slug"], for a request that
    carries no search term. *)
Definition get_object_by_slug {A} `{NameSlug A} (queryset : list A)
    (slug : string) : M A :=
  lift (get_object_or_404
          (filter (fun o => String.eqb (slug_of o) slug) queryset)).

(** A letter, a digit or the underscore: [\w] on the ASCII range, where
    [validate_slug] keeps every stored slug. *)
Definition is_word_char (c : ascii) : bool :=
  let n := nat_of_ascii c in
  (((48 <=? n) && (n <=? 57)) || ((65 <=? n) && (n <=? 90))
   || ((97 <=? n) && (n <=? 122)) || (n =? 95))%nat.

(** [url_path=r"(?P<slug>\w+)"] of both delete actions: the route hands
    the handler a slug of one or more word characters; a slug with a
    hyphen in it does not reach the handler. *)
Definition url_path_matches (slug : string) : bool :=
  negb (String.eqb slug "")
  && forallb is_word_char (list_ascii_of_string slug).

(** [CategoryViewSet.delete_category], the handler body, for a slug the
    route let through.  Whether a request reaches it is also up to
    [IsAdminOrReadOnly], which belongs to [api.permissions] and is not
    among the sources. *)
Definition delete_category (request : Request) (slug : string) : M Response :=
  qs <- read categories;;
  category <- get_object_by_slug qs slug;;
  let serializer_data := CategorySerializer_data category in
  Category_delete category;;;
  ret (mkResponse HTTP_204_NO_CONTENT serializer_data).

(** [GenreViewSet.delete_genre]: the instance is a genre, the serializer
    is [CategorySerializer]. *)
Definition delete_genre (request : Request) (slug : string) : M Response :=
  qs <- read genres;;
  category <- get_object_by_slug qs slug;;
  let serializer_data := CategorySerializer_data category in
  Genre_delete category;;;
  ret (mkResponse HTTP_204_NO_CONTENT serializer_data).

(** [TitleViewSet.queryset]: every title annotated with the average
    score of its reviews. *)
Definition TitleViewSet_queryset (st : State) : list AnnotatedTitle :=
  map (fun t =>
         mkAnnotated t (Avg (map score (title_reviews st (title_id t)))))
      (titles st).

(** [TitleViewSet.retrieve]: for [GET], [get_serializer_class] picks
    [TitleOnlyReadSerializer]. *)
Definition TitleViewSet_retrieve (request : Request) (pk : Z) : M Response :=
  st <- read (fun st => st);;
  instance <- lift (get_by_key_or_404
                      (filter (fun t => title_id (annotated t) =? pk)
                              (TitleViewSet_queryset st)) pk);;
  ret (mkResponse HTTP_200_OK (TitleOnlyReadSerializer_data st instance)).

(** [ReviewViewSet.perform_create] *)
Definition perform_create (caller : User) (title_pk : Z)
    (serializer : ReviewData) : M Review :=
  ts <- read titles;;
  title <- lift (get_by_key_or_404
                   (filter (fun t => title_id t =? title_pk) ts) title_pk);;
  ReviewSerializer_save_create serializer caller title.

(** [ReviewViewSet.create] (the mixin's [create] with this view's
    serializer and [perform_create]).  [IsAuthenticatedOrReadOnly] lets
    no anonymous write through; the second permission class belongs to
    [api.permissions] and is not among the sources. *)
Definition ReviewViewSet_create (request : Request) (title_pk : Z)
    : M Response :=
  match user request with
  | None => raise NotAuthenticated
  | Some caller =>
      serializer <- ReviewSerializer_is_valid false (method request) caller
                      title_pk (body request);;
      review <- perform_create caller title_pk serializer;;
      st <- read (fun st => st);;
      ret (mkResponse HTTP_201_CREATED
             (ReviewSerializer_data st caller review))
  end.

(** [UserViewSet.me], under [permission_classes=(IsAuthenticated,)]. *)
Definition me (request : Request) : M Response :=
  match user request with
  | None => raise NotAuthenticated
  | Some request_user =>
      if String.eqb (method request) "PATCH" then
        us <- read users;;
        validated <-
          lift (if is_admin E request_user
                then UserSerializer_to_internal_value E true true
                       (Some request_user) us (body request)
                else UserSerializer_to_internal_value E false true
                       (Some request_user) us (body request));;
        instance <- UserSerializer_save_update request_user
                      (with_role (role request_user) validated);;
        ret (mkResponse HTTP_200_OK (UserSerializer_data instance))
      else
        ret (mkResponse HTTP_200_OK (UserSerializer_data request_user))
  end.

Definition or_null (v : option JSON) : JSON :=
  match v with
  | Some j => j
  | None => JNull
  end.

(** [SignUpViewSet.create] *)
Definition SignUpViewSet_create (request : Request) : M Response :=
  st <- read (fun st => st);;
  let d := body request in
  instance <-
    match User_filter (get "username" d) (get "email" d) st with
    | _ :: _ =>
        u <- lift (QuerySet_get (User_by_username (get "username" d) st));;
        ret (Some u)
    | [] => ret None
    end;;
  match SignUpSerializer_to_internal_value E instance (users st) d with
  | Ok validated =>
      saved <- SignUpSerializer_save E instance validated;;
      st' <- read (fun st => st);;
      u <- lift (QuerySet_get (User_by_username (get "username" d) st'));;
      let code := confirmation_code u in
      send_mail ("Добро пожаловать в YaMDb, " ++ username u ++ "!")%string
                ("Ваш confirmation_code: " ++ code ++ " ")%string
                [or_null (get "email" d)];;;
      ret (mkResponse HTTP_200_OK (SignUpSerializer_data saved))
  | Raise (ValidationError errors) =>
      ret (mkResponse HTTP_400_BAD_REQUEST errors)
  | Raise e => raise e
  end.

(** [Token.post] *)
Definition Token_post (request : Request) : M Response :=
  serializer <- lift (TokenSerializer_is_valid (body request));;
  let confirmation_code := td_confirmation_code serializer in
  let uname := td_username serializer in
  us <- read users;;
  u <- lift (get_object_or_404
               (filter (fun x => match uname with
                                 | Some n => String.eqb (username x) n
                                 | None => false
                                 end) us));;
  if match confirmation_code with
     | Some c => check_confirmation_code E u c
     | None => false
     end
  then
    let token := AccessToken_for_user E u in
    ret (mkResponse HTTP_200_OK (JObj [("token", JStr token)]))
  else
    ret (mkResponse HTTP_400_BAD_REQUEST
           (JObj [("confirmation_code", JList [JStr "Код не действителен!"])])).

End Views.


(** ** More of the store: cascades and the remaining creates *)

Definition set_comments (cs : list Comment) (st : State) : State :=
  mkState (users st) (categories st) (genres st) (titles st) (reviews st)
          cs (outbox st) (now st).

(** The store after [Title.delete()]: [Review.title] and
    [Comment.review] are declared [on_delete=models.CASCADE], so the
    reviews of the title and the comments of those reviews go with it; the
    title's many-to-many rows live in its own row here. *)
Definition without_title (t : Title) (st : State) : State :=
  set_titles
    (filter (fun t' => negb (title_id t' =? title_id t)) (titles st))
    (set_reviews
       (filter (fun r => negb (review_title r =? title_id t)) (reviews st))
       (set_comments
          (filter (fun c =>
                     negb (existsb (Z.eqb (comment_review c))
                             (map review_id (title_reviews st (title_id t)))))
                  (comments st))
          st)).

(** [Title.delete()] *)
Definition Title_delete (t : Title) : M unit := write (without_title t).

(** [Comment.objects.create(...)]: [pub_date] is [auto_now_add]. *)
Definition Comment_objects_create (text : string) (author : User)
    (review : Review) : M Comment :=
  st <- read (fun st => st);;
  let c := mkComment (next_id (map comment_id (comments st))) text (now st)
                     (user_id author) (review_id review) in
  write (set_comments (comments st ++ [c]));;;
  ret c.

(** [Title.objects.create(...)] followed by [title.genre.set(...)]: the
    many-to-many table holds one row per genre. *)
Definition Title_objects_create (name : string) (y : Z)
    (descr : string) (cat : Category) (gs : list Genre) : M Title :=
  st <- read (fun st => st);;
  let t := mkTitle (next_id (map title_id (titles st)))
                   (Some (category_id cat)) descr
                   (nodup Z.eq_dec (map genre_id gs)) name y in
  write (set_titles (titles st ++ [t]));;;
  ret t.

(** [Meta.ordering = ("-pub_date",)] of [Review]. *)
Fixpoint insert_by_pub_date (r : Review) (l : list Review) : list Review :=
  match l with
  | [] => [r]
  | x :: l' =>
      if review_pub_date x <? review_pub_date r then r :: l
      else x :: insert_by_pub_date r l'
  end.

Definition order_by_pub_date_desc (l : list Review) : list Review :=
  fold_right insert_by_pub_date [] l.

(** ** More of [api/serializers.py] *)

(** [SlugRelatedField(slug_field="slug", queryset=...).to_internal_value]:
    the object whose slug is the text of the value. *)
Definition SlugRelatedField_to_internal_value {A} `{NameSlug A}
    (queryset : list A) (d : JSON) : FieldResult A :=
  match match Py.str_of_scalar d with
        | Some s => find (fun o => String.eqb (slug_of o) s) queryset
        | None => None
        end with
  | Some o => Valid o
  | None =>
      Invalid [("Object with slug="
                ++ match Py.str_of_scalar d with Some s => s | None => "" end
                ++ " does not exist.")%string]
  end.

(** [RelatedField.run_validation]: an empty string counts as null. *)
Definition SlugRelatedField_run_validation {A} `{NameSlug A}
    (partial required : bool) (queryset : list A) (data : option JSON)
    : FieldResult A :=
  let data' := match data with
               | Some (JStr "") => Some JNull
               | d => d
               end in
  validate_empty_values partial required data'
    (SlugRelatedField_to_internal_value queryset).

(** What iterating over a value yields: the items of a list, the keys of
    an object; a string or a number is not a list. *)
Definition iterate (d : JSON) : option (list JSON) :=
  match d with
  | JList l => Some l
  | JObj l => Some (map (fun kv => JStr (fst kv)) l)
  | _ => None
  end.

(** The children of a [many=True] relation, in order; the first one that
    fails is the error. *)
Fixpoint many_to_internal_value {A} (child : JSON -> FieldResult A)
    (items : list JSON) : FieldResult (list A) :=
  match items with
  | [] => Valid []
  | i :: rest =>
      match child i with
      | Valid a =>
          match many_to_internal_value child rest with
          | Valid l => Valid (a :: l)
          | other => other
          end
      | Skip => Skip
      | Invalid ms => Invalid ms
      end
  end.

(** [ManyRelatedField.run_validation], [allow_empty=True]. *)
Definition ManyRelatedField_run_validation {A} `{NameSlug A}
    (partial required : bool) (queryset : list A) (data : option JSON)
    : FieldResult (list A) :=
  validate_empty_values partial required data (fun d =>
    match iterate d with
    | Some items =>
        many_to_internal_value (SlugRelatedField_to_internal_value queryset)
                               items
    | None =>
        Invalid [("Expected a list of items but got type " ++ Py.dquote
                  ++ match d with
                     | JStr _ => "str"
                     | JInt _ => "int"
                     | _ => "bool"
                     end
                  ++ Py.dquote ++ ".")%string]
    end).

(** [validated_data] of a [TitleSerializer]. *)
Record TitleData : Type := mkTitleData {
  vd_name : option string;
  vd_year : option Z;
  vd_description : option string;
  vd_genre : option (list Genre);
  vd_category : option Category
}.

Definition title_name_field : CharField :=
  mkCharField true false (Some 256) [].

Definition description_field : CharField := mkCharField false true None [].

(** Field validation of [TitleSerializer], in the order of
    [Meta.fields]: [name] and [description] from the model columns,
    [year], [genre] and [category] as declared on the serializer. *)
Definition TitleSerializer_to_internal_value (current_year : Z)
    (partial : bool) (st : State) (d : Data) : Result TitleData :=
  let name := CharField_run_validation partial title_name_field
                                       (get "name" d) in
  let y := TitleSerializer_year current_year partial (get "year" d) in
  let descr := CharField_run_validation partial description_field
                                        (get "description" d) in
  let gs := ManyRelatedField_run_validation partial true (genres st)
                                            (get "genre" d) in
  let cat := SlugRelatedField_run_validation partial true (categories st)
                                             (get "category" d) in
  match field_errors "name" name ++ field_errors "year" y
        ++ field_errors "description" descr ++ field_errors "genre" gs
        ++ field_errors "category" cat with
  | [] => Ok (mkTitleData (field_value name) (field_value y)
                          (field_value descr) (field_value gs)
                          (field_value cat))
  | e :: es => Raise (ValidationError (JObj (e :: es)))
  end.

(** [TitleSerializer.to_representation]: [TitleOnlyReadSerializer] on
    the instance at hand.  A freshly created title carries no [rating]
    attribute, and a read-only field whose attribute is missing is left
    out of the output. *)
Definition TitleSerializer_to_representation (st : State) (title : Title)
    : JSON :=
  JObj [
    ("id", JInt (title_id title));
    ("name", JStr (title_name title));
    ("year", JInt (year title));
    ("description", JStr (description title));
    ("genre",
      JList (map GenreSerializer_data (title_genres st title)));
    ("category",
      nullable CategorySerializer_data
        (match category title with
         | Some pk => find (fun c => category_id c =? pk) (categories st)
         | None => None
         end))
  ].

(** [serializer.save()] of a [TitleSerializer] without instance. *)
Definition TitleSerializer_save_create (data : TitleData) : M Title :=
  match vd_name data, vd_year data, vd_genre data, vd_category data with
  | Some name, Some y, Some gs, Some cat =>
      Title_objects_create name y
        (match vd_description data with Some s => s | None => "" end)
        cat gs
  | _, _, _, _ => raise IntegrityError
  end.

(** Field validation of [CommentSerializer]: of its fields only [text]
    is writable. *)
Definition CommentSerializer_to_internal_value (partial : bool) (d : Data)
    : Result (option string) :=
  let text := CharField_run_validation partial text_field (get "text" d) in
  match field_errors "text" text with
  | [] => Ok (field_value text)
  | e :: es => Raise (ValidationError (JObj (e :: es)))
  end.

(** [CommentSerializer(comment).data] for an instance that holds its
    author object. *)
Definition CommentSerializer_instance_data (author : User) (c : Comment)
    : JSON :=
  JObj [
    ("id", JInt (comment_id c));
    ("author", JStr (username author));
    ("text", JStr (comment_text c));
    ("pub_date", JInt (comment_pub_date c))
  ].

(** ** More of [api/views.py] *)

(** [TitleViewSet.get_serializer_class] *)
Inductive TitleSerializerClass : Type :=
| TitleOnlyReadSerializer_class
| TitleSerializer_class.

Definition get_serializer_class (request : Request) : TitleSerializerClass :=
  if String.eqb (method request) "GET" then TitleOnlyReadSerializer_class
  else TitleSerializer_class.

(** [TitleViewSet.create] (the mixin's [create] with the serializer that
    [get_serializer_class] picks).  With the read serializer every field
    is read-only, nothing is validated, and the insert fails on the
    missing year. *)
Definition TitleViewSet_create (current_year : Z) (request : Request)
    : M Response :=
  match get_serializer_class request with
  | TitleSerializer_class =>
      st <- read (fun st => st);;
      validated <- lift (TitleSerializer_to_internal_value current_year
                           false st (body request));;
      title <- TitleSerializer_save_create validated;;
      st' <- read (fun st => st);;
      ret (mkResponse HTTP_201_CREATED
             (TitleSerializer_to_representation st' title))
  | TitleOnlyReadSerializer_class => raise IntegrityError
  end.

(** [TitleViewSet.destroy] (the mixin's [destroy]). *)
Definition TitleViewSet_destroy (request : Request) (pk : Z) : M Response :=
  st <- read (fun st => st);;
  instance <- lift (get_by_key_or_404
                      (filter (fun t => title_id (annotated t) =? pk)
                              (TitleViewSet_queryset st)) pk);;
  Title_delete (annotated instance);;;
  ret (mkResponse HTTP_204_NO_CONTENT JNull).

(** [ReviewViewSet.get_queryset] *)
Definition ReviewViewSet_get_queryset (title_pk : Z) : M (list Review) :=
  ts <- read titles;;
  title <- lift (get_by_key_or_404
                   (filter (fun t => title_id t =? title_pk) ts) title_pk);;
  read (fun st => order_by_pub_date_desc (title_reviews st (title_id title))).

(** [CommentViewSet.get_review] *)
Definition get_review (review_pk : Z) : M Review :=
  rs <- read reviews;;
  lift (get_by_key_or_404 (filter (fun r => review_id r =? review_pk) rs)
                          review_pk).

(** [CommentViewSet.get_queryset] *)
Definition CommentViewSet_get_queryset (review_pk : Z) : M (list Comment) :=
  review <- get_review review_pk;;
  read (fun st => review_comments st (review_id review)).

(** [CommentViewSet.perform_create]: the review is looked up before the
    row is saved. *)
Definition CommentViewSet_perform_create (caller : User) (review_pk : Z)
    (serializer : option string) : M Comment :=
  review <- get_review review_pk;;
  match serializer with
  | Some text => Comment_objects_create text caller review
  | None => raise IntegrityError
  end.

(** [CommentViewSet.create] for an authenticated caller (the mixin's
    [create] with this view's serializer and [perform_create]); both
    permission classes belong to [api.permissions] and are not among the
    sources. *)
Definition CommentViewSet_create (caller : User) (d : Data) (review_pk : Z)
    : M Response :=
  serializer <- lift (CommentSerializer_to_internal_value false d);;
  comment <- CommentViewSet_perform_create caller review_pk serializer;;
  ret (mkResponse HTTP_201_CREATED
         (CommentSerializer_instance_data caller comment)).

(** ** Invariants of the store *)

(** Every foreign key points at a stored row. *)
Definition references_resolve (st : State) : Prop :=
  (forall r, In r (reviews st) ->
     exists t, In t (titles st) /\ title_id t = review_title r)
  /\ (forall c, In c (comments st) ->
        exists r, In r (reviews st) /\ review_id r = comment_review c)
  /\ (forall t k, In t (titles st) -> category t = Some k ->
        exists c, In c (categories st) /\ category_id c = k)
  /\ (forall t g, In t (titles st) -> In g (genre t) ->
        exists g', In g' (genres st) /\ genre_id g' = g).

(** No two accounts share a primary key or a username. *)
Definition accounts_distinct (st : State) : Prop :=
  NoDup (map user_id (users st)) /\ NoDup (map username (users st)).

(** The pair the [unique_title_author] constraint speaks about. *)
Definition title_author (r : Review) : Z * Z :=
  (review_title r, review_author r).

(** No two reviews share a primary key, or a title and an author. *)
Definition reviews_distinct (st : State) : Prop :=
  NoDup (map review_id (reviews st)) /\ NoDup (map title_author (reviews st)).

(** ** Notions the properties are stated with *)

(** The scores of the reviews of a title. *)
Definition title_scores (st : State) (pk : Z) : list Z :=
  map score (title_reviews st pk).

(** The [rating] a client reads on [GET /titles/{pk}/]. *)
Definition read_rating (request : Request) (st : State) (pk : Z)
    : option JSON :=
  match fst (TitleViewSet_retrieve request pk st) with
  | Ok resp => field "rating" (data resp)
  | Raise _ => None
  end.

(** A rendered rating that is the arithmetic mean of the scores: null
    for no score, otherwise a number equal to the mean. *)
Definition rating_equals_mean (j : JSON) (scores : list Z) : Prop :=
  match Avg scores with
  | None => j = JNull
  | Some mean => exists r, j = JInt r /\ (inject_Z r == mean)%Q
  end.

(** A username that the username column accepts as it is (format and
    length; uniqueness aside) and that is not the reserved "me". *)
Definition well_formed_username (E : Externals) (n : string) : Prop :=
  CharField_run_validation false
    (mkCharField true false (Some 150) [username_validator E])
    (Some (JStr n)) = Valid n
  /\ n <> "me".

(** An email address that the email column accepts as it is. *)
Definition well_formed_email (E : Externals) (e : string) : Prop :=
  CharField_run_validation false (email_field E) (Some (JStr e)) = Valid e.

(** The message [SignUpViewSet.create] mails to [recipient] for the
    account [u]. *)
Definition confirmation_mail (u : User) (recipient : JSON) : Mail :=
  mkMail ("Добро пожаловать в YaMDb, " ++ username u ++ "!")%string
         ("Ваш confirmation_code: " ++ confirmation_code u ++ " ")%string
         [recipient].

(** The order of [Review.Meta.ordering]: the later publication date
    comes first. *)
Definition newer_first (a b : Review) : Prop :=
  review_pub_date b <= review_pub_date a.

(** ** Concrete stores and requests used below *)

Module Examples.

(** Modelled from the spec: an instance of the outside parts.  An admin
    is a user whose role is admin; a username is made of ASCII letters,
    digits and [_.@+-]; an email address has an [@]; a new account is a
    plain user; a confirmation code is correct when it is the account's
    code. *)
Definition is_username_char (c : ascii) : bool :=
  let n := nat_of_ascii c in
  (((48 <=? n) && (n <=? 57)) || ((65 <=? n) && (n <=? 90))
   || ((97 <=? n) && (n <=? 122)) || (n =? 95) || (n =? 46) || (n =? 64)
   || (n =? 43) || (n =? 45))%nat.

Definition ascii_username_validator : Validator :=
  fun v =>
    if forallb is_username_char (list_ascii_of_string v)
    then []
    else ["Enter a valid username."].

Definition has_at_validator : Validator :=
  fun v =>
    if existsb (Ascii.eqb "@"%char) (list_ascii_of_string v)
    then []
    else ["Enter a valid email address."].

Definition spec_externals : Externals :=
  mkExternals
    (fun u => String.eqb (role u) "admin")
    ascii_username_validator
    has_at_validator
    "user"
    (fun st => ("code" ++ Py.str_of_int (next_id (map user_id (users st))))
               %string)
    (fun u c => String.eqb (confirmation_code u) c)
    (fun u => ("token-" ++ username u)%string).

Definition anonymous (meth : string) (d : Data) : Request :=
  mkRequest meth None d.

(** U+00A0, the no-break space, and U+0430, a Cyrillic letter. *)
Definition no_break_space : string := Py.utf8 [194; 160]%nat.

Definition cyrillic_a : string := Py.utf8 [208; 176]%nat.

Fixpoint repeat_string (n : nat) (s : string) : string :=
  match n with
  | O => EmptyString
  | S n' => (s ++ repeat_string n' s)%string
  end.

Definition alice : User :=
  mkUser 1 "alice" "alice@example.com" "user" "" "" "" "c0de-a".

Definition bob : User :=
  mkUser 2 "bob" "bob@example.com" "user" "" "" "" "c0de-b".

Definition root : User :=
  mkUser 3 "root" "root@example.com" "admin" "" "" "" "c0de-r".

Definition film : Category := mkCategory 1 "Film" "film".

Definition book : Category := mkCategory 2 "Book" "book".

Definition drama : Genre := mkGenre 1 "drama" "Drama".

Definition title_x : Title := mkTitle 1 (Some 1) "" [1] "X" 2000.

(** The scenario of the spec: one category, one title in it, two
    reviews by two users. *)
Definition catalogue (score_a score_b : Z) : State :=
  mkState [alice; bob; root] [film; book] [drama] [title_x]
          [mkReview 1 1 score_a "fine" 1 10; mkReview 2 1 score_b "good" 2 20]
          [] [] 100.

Definition unreviewed : State :=
  mkState [alice; bob; root] [film; book] [drama] [title_x] [] [] [] 100.

Definition first_review : Review := mkReview 1 1 4 "fine" 1 10.

(** Alice posts a review; the body may name somebody else as author. *)
Definition alice_posts (d : Data) : Request := mkRequest "POST" (Some alice) d.

Definition plain_review : Data := [("text", JStr "again"); ("score", JInt 5)].

Definition forged_review (author : string) : Data :=
  [("author", JStr author); ("text", JStr "again"); ("score", JInt 5)].

(** A caller edits their own profile. *)
Definition patch_me (caller : User) (d : Data) : Request :=
  mkRequest "PATCH" (Some caller) d.

Definition role_body (r : string) : Data := [("role", JStr r)].

(** A token request. *)
Definition token_request (uname code : string) : Request :=
  anonymous "POST"
    [("username", JStr uname); ("confirmation_code", JStr code)].

(** A token request that leaves the confirmation code out. *)
Definition token_request_without_code (uname : string) : Request :=
  anonymous "POST" [("username", JStr uname)].

(** A sign-up request. *)
Definition signup_request (uname mail : string) : Request :=
  anonymous "POST" [("username", JStr uname); ("email", JStr mail)].

End Examples.

(** * Properties *)

(** ** Tactics and lemmas shared by the proofs *)

Ltac run_handler :=
  cbv [bind read lift ret raise write] in *.

Lemma filter_none {A} (p : A -> bool) (l : list A) :
  (forall x, In x l -> p x = false) -> filter p l = [].
Proof.
  induction l as [|a l IH]; intros Hp; simpl.
  - reflexivity.
  - rewrite (Hp a (or_introl eq_refl)). apply IH.
    intros x Hx. apply Hp. now right.
Qed.

(** In a table whose key column has no duplicates, filtering on the key
    of a row returns exactly that row. *)
Lemma filter_unique_key {A K} (key : A -> K) (eqb : K -> K -> bool)
    (l : list A) (x : A) :
  (forall a b, eqb a b = true <-> a = b) ->
  NoDup (map key l) -> In x l ->
  filter (fun y => eqb (key y) (key x)) l = [x].
Proof.
  intros Heqb. induction l as [|a l IH]; intros Hnd Hin; simpl in *.
  - contradiction.
  - inversion Hnd as [|? ? Hnotin Hnd']; subst.
    destruct Hin as [->|Hin].
    + replace (eqb (key x) (key x)) with true
        by (symmetry; now apply Heqb).
      f_equal. apply filter_none. intros y Hy.
      destruct (eqb (key y) (key x)) eqn:Hk; [|reflexivity].
      apply Heqb in Hk. exfalso. apply Hnotin. rewrite <- Hk.
      now apply in_map.
    + destruct (eqb (key a) (key x)) eqn:Hk.
      * apply Heqb in Hk. exfalso. apply Hnotin. rewrite Hk.
        now apply in_map.
      * now apply IH.
Qed.

Lemma Zeqb_iff (a b : Z) : (a =? b) = true <-> a = b.
Proof. apply Z.eqb_eq. Qed.

Lemma Seqb_iff (a b : string) : String.eqb a b = true <-> a = b.
Proof. apply String.eqb_eq. Qed.

(** ** Characters outside ASCII, keys outside 64 bits *)

(** White space is trimmed whatever its script, a text of white space
    only is blank, and lengths count characters, not bytes. *)
Lemma strip_trims_no_break_space :
  Py.strip (Examples.no_break_space ++ " alice" ++ Examples.no_break_space)
  = "alice"
  /\ CharField_run_validation false text_field
       (Some (JStr Examples.no_break_space))
     = Invalid ["This field may not be blank."].
Proof. split; reflexivity. Qed.

Lemma len_counts_characters :
  Py.len (Examples.repeat_string 200 Examples.cyrillic_a) = 200
  /\ CharField_run_validation false title_name_field
       (Some (JStr (Examples.repeat_string 200 Examples.cyrillic_a)))
     = Valid (Examples.repeat_string 200 Examples.cyrillic_a).
Proof. split; vm_compute; reflexivity. Qed.

(** A key beyond 64 bits is no 404 and no validation error: the lookup
    raises, in the URL and in the body alike. *)
Lemma key_beyond_64_bits_raises :
  TitleViewSet_retrieve (Examples.anonymous "GET" []) (2 ^ 63)
    Examples.unreviewed
  = (Raise OverflowError, Examples.unreviewed)
  /\ ReviewViewSet_create
       (Examples.alice_posts
          [("text", JStr "t"); ("score", JInt 5); ("title", JInt (2 ^ 64))])
       1 Examples.unreviewed
     = (Raise OverflowError, Examples.unreviewed)
  /\ status_code (finalize (Raise OverflowError))
     = HTTP_500_INTERNAL_SERVER_ERROR.
Proof. repeat split. Qed.

(** ** Title.year *)

(** C4: the guard of [validate_year] asks for a year that is at least
    the current year and negative at once; the current year of a datetime
    is at least [MINYEAR], so the guard is false for every integer, and the
    validation returns its input unchanged without an error; so does the
    whole [year] field on an integer input. *)
Theorem validate_year_never_rejects (current_year data : Z) :
  MINYEAR <= current_year ->
  (current_year <=? data) && (data <? 0) = false
  /\ validate_year current_year data = Valid data
  /\ (forall partial,
        TitleSerializer_year current_year partial (Some (JInt data))
        = Valid data).
Proof.
  unfold MINYEAR, validate_year. intros Hy.
  assert (Hguard : (current_year <=? data) && (data <? 0) = false).
  { destruct (current_year <=? data) eqn:Hle; [|reflexivity].
    apply Z.leb_le in Hle. simpl. apply Z.ltb_ge. lia. }
  split; [exact Hguard|]. split.
  - now rewrite Hguard.
  - intros partial. unfold TitleSerializer_year, validate_year. simpl.
    now rewrite Hguard.
Qed.

Lemma validate_year_never_rejects_witness :
  MINYEAR <= 2024
  /\ validate_year 2024 (-44) = Valid (-44)
  /\ validate_year 2024 3000 = Valid 3000.
Proof.
  assert (H : MINYEAR <= 2024) by (unfold MINYEAR; lia).
  split; [exact H|]. split.
  - exact (proj1 (proj2 (validate_year_never_rejects 2024 (-44) H))).
  - exact (proj1 (proj2 (validate_year_never_rejects 2024 3000 H))).
Defined.

(** ** Title.rating *)

Lemma retrieve_annotated (request : Request) (st : State) (t : Title) :
  NoDup (map title_id (titles st)) -> In t (titles st) ->
  TitleViewSet_retrieve request (title_id t) st
  = (Ok (mkResponse HTTP_200_OK
           (TitleOnlyReadSerializer_data st
              (mkAnnotated t (Avg (title_scores st (title_id t)))))), st).
Proof.
  intros Hnd Hin. unfold TitleViewSet_retrieve. run_handler.
  set (row := mkAnnotated t (Avg (title_scores st (title_id t)))).
  assert (Hrow : In row (TitleViewSet_queryset st)).
  { unfold TitleViewSet_queryset.
    apply (in_map (fun t0 =>
      mkAnnotated t0 (Avg (map score (title_reviews st (title_id t0)))))
      _ _ Hin). }
  assert (Hkeys : NoDup (map (fun a => title_id (annotated a))
                             (TitleViewSet_queryset st))).
  { unfold TitleViewSet_queryset. rewrite map_map. simpl.
    now rewrite (map_ext _ title_id) by reflexivity. }
  pose proof (filter_unique_key (fun a => title_id (annotated a)) Z.eqb
                _ row Zeqb_iff Hkeys Hrow) as Hf.
  simpl in Hf. rewrite Hf. reflexivity.
Qed.

Lemma Sum_bounds (l : list Z) (lo hi : Z) :
  (forall s, In s l -> lo <= s <= hi) ->
  lo * Z.of_nat (List.length l) <= Sum l <= hi * Z.of_nat (List.length l).
Proof.
  induction l as [|a l IH]; intros Hb.
  - simpl. lia.
  - assert (Ha : lo <= a <= hi) by (apply Hb; now left).
    assert (Hl : forall s, In s l -> lo <= s <= hi)
      by (intros s Hs; apply Hb; now right).
    specialize (IH Hl). change (Sum (a :: l)) with (a + Sum l).
    change (List.length (a :: l)) with (S (List.length l)).
    rewrite Nat2Z.inj_succ. lia.
Qed.

Lemma Avg_cons (a : Z) (l : list Z) :
  Avg (a :: l)
  = Some (Qmake (Sum (a :: l)) (Z.to_pos (Z.of_nat (List.length (a :: l))))).
Proof.
  unfold Avg. do 2 f_equal.
  rewrite <- (Pos2Z.inj_iff), Z2Pos.id by (simpl List.length; lia).
  simpl List.length. lia.
Qed.

(** C2, as the code has it: for a title whose stored review scores lie
    in 1..10 (the range the API accepts), a read renders [rating] as
    null when the title has no review, and otherwise as the arithmetic
    mean of its review scores cut down to an integer: that integer [r] is
    the floor of the mean and lies in 1..10; it is the mean itself exactly
    when the mean is whole, as for the two scores 4 and 8, which read
    as 6. *)
Theorem rating_is_truncated_mean (request : Request) (st : State)
    (t : Title) :
  NoDup (map title_id (titles st)) -> In t (titles st) ->
  (forall s, In s (title_scores st (title_id t)) -> 1 <= s <= 10) ->
  let scores := title_scores st (title_id t) in
  let n := Z.of_nat (List.length scores) in
  match Avg scores with
  | None => scores = [] /\ read_rating request st (title_id t) = Some JNull
  | Some mean =>
      exists r,
        read_rating request st (title_id t) = Some (JInt r)
        /\ r = Z.quot (Sum scores) n
        /\ (inject_Z r <= mean)%Q /\ (mean < inject_Z (r + 1))%Q
        /\ 1 <= r <= 10
        /\ ((n | Sum scores) -> rating_equals_mean (JInt r) scores)
        /\ (scores = [4; 8] -> r = 6)
  end.
Proof.
  intros Hnd Hin Hb. cbv zeta. unfold read_rating.
  rewrite (retrieve_annotated request st t Hnd Hin). simpl fst.
  cbn [data field get TitleOnlyReadSerializer_data String.eqb
       Ascii.eqb Bool.eqb rating nullable].
  destruct (title_scores st (title_id t)) as [|a l].
  - simpl. split; reflexivity.
  - rewrite Avg_cons. cbn [nullable].
    set (n := Z.of_nat (List.length (a :: l))).
    assert (Hn : 0 < n) by (subst n; simpl List.length; lia).
    exists (Z.quot (Sum (a :: l)) n).
    split; [|split; [reflexivity|]].
    { unfold IntegerField_to_representation, int_of_number.
      cbn [Qnum Qden]. rewrite Z2Pos.id by exact Hn. reflexivity. }
    assert (Hfloor : (inject_Z (Z.quot (Sum (a :: l)) n)
                      <= Qmake (Sum (a :: l)) (Z.to_pos n))%Q
                     /\ (Qmake (Sum (a :: l)) (Z.to_pos n)
                         < inject_Z (Z.quot (Sum (a :: l)) n + 1))%Q
                     /\ 1 <= Z.quot (Sum (a :: l)) n <= 10).
    { pose proof (Sum_bounds (a :: l) 1 10 Hb) as HS. fold n in HS.
      assert (Hs0 : 0 <= Sum (a :: l)) by lia.
      rewrite Z.quot_div_nonneg by lia.
      pose proof (Z.mul_div_le (Sum (a :: l)) n Hn) as Hlo.
      pose proof (Z.mul_succ_div_gt (Sum (a :: l)) n Hn) as Hhi.
      unfold Qle, Qlt, inject_Z. cbn [Qnum Qden].
      rewrite Z2Pos.id by exact Hn.
      split; [lia|]. split; [lia|].
      split.
      * apply Z.div_le_lower_bound; lia.
      * apply Z.div_le_upper_bound; lia. }
    destruct Hfloor as [Hlo [Hhi Hr]].
    split; [exact Hlo|]. split; [exact Hhi|]. split; [exact Hr|]. split.
    + intros [k Hk]. unfold rating_equals_mean. rewrite Avg_cons. fold n.
      exists (Z.quot (Sum (a :: l)) n). split; [reflexivity|].
      unfold Qeq, inject_Z. cbn [Qnum Qden].
      rewrite Z2Pos.id by exact Hn. rewrite Hk.
      rewrite Z.quot_mul by lia. lia.
    + intros Heq. subst n. rewrite Heq. reflexivity.
Qed.

Lemma rating_is_truncated_mean_witness :
  NoDup (map title_id (titles (Examples.catalogue 4 8)))
  /\ In Examples.title_x (titles (Examples.catalogue 4 8))
  /\ (forall s,
        In s (title_scores (Examples.catalogue 4 8)
                           (title_id Examples.title_x)) ->
        1 <= s <= 10)
  /\ exists r,
       read_rating (Examples.anonymous "GET" []) (Examples.catalogue 4 8) 1
       = Some (JInt r)
       /\ r = 6.
Proof.
  assert (Hnd : NoDup (map title_id (titles (Examples.catalogue 4 8)))).
  { simpl. constructor; [intros []|constructor]. }
  assert (Hin : In Examples.title_x (titles (Examples.catalogue 4 8))).
  { simpl. now left. }
  assert (Hb : forall s,
             In s (title_scores (Examples.catalogue 4 8)
                                (title_id Examples.title_x)) ->
             1 <= s <= 10).
  { simpl. intros s [<-|[<-|[]]]; lia. }
  split; [exact Hnd|]. split; [exact Hin|]. split; [exact Hb|].
  pose proof (rating_is_truncated_mean (Examples.anonymous "GET" [])
                (Examples.catalogue 4 8) Examples.title_x Hnd Hin Hb) as H.
  simpl in H. destruct H as [r [Hr [_ [_ [_ [_ [_ H48]]]]]]].
  exists r. split; [exact Hr|]. now apply H48.
Defined.

(** The claim as the spec words it fails: two reviews of scores 4 and 7
    have mean 11/2, and the title reads with rating 5. *)
Lemma rating_not_the_mean :
  title_scores (Examples.catalogue 4 7) 1 = [4; 7]
  /\ read_rating (Examples.anonymous "GET" []) (Examples.catalogue 4 7) 1
     = Some (JInt 5)
  /\ ~ rating_equals_mean (JInt 5) [4; 7].
Proof.
  split; [reflexivity|]. split; [reflexivity|].
  unfold rating_equals_mean. simpl. intros [r [Hr Heq]].
  inversion Hr; subst r. unfold Qeq in Heq. simpl in Heq. discriminate.
Qed.

(** ** Deleting categories and genres *)

Lemma get_category_by_slug (st : State) (c : Category) :
  NoDup (map category_slug (categories st)) -> In c (categories st) ->
  get_object_by_slug (categories st) (category_slug c) st = (Ok c, st).
Proof.
  intros Hnd Hin. unfold get_object_by_slug, lift.
  change (fun o : Category => String.eqb (slug_of o) (category_slug c))
    with (fun y : Category => String.eqb (category_slug y) (category_slug c)).
  now rewrite (filter_unique_key category_slug String.eqb _ c
                 Seqb_iff Hnd Hin).
Qed.

Lemma get_genre_by_slug (st : State) (g : Genre) :
  NoDup (map genre_slug (genres st)) -> In g (genres st) ->
  get_object_by_slug (genres st) (genre_slug g) st = (Ok g, st).
Proof.
  intros Hnd Hin. unfold get_object_by_slug, lift.
  change (fun o : Genre => String.eqb (slug_of o) (genre_slug g))
    with (fun y : Genre => String.eqb (genre_slug y) (genre_slug g)).
  now rewrite (filter_unique_key genre_slug String.eqb _ g
                 Seqb_iff Hnd Hin).
Qed.

(** What [delete_category] does on the slug of a stored category. *)
Lemma delete_category_found (request : Request) (st : State)
    (c : Category) :
  NoDup (map category_slug (categories st)) -> In c (categories st) ->
  delete_category request (category_slug c) st
  = match category_titles st (category_id c) with
    | [] =>
        (Ok (mkResponse HTTP_204_NO_CONTENT (CategorySerializer_data c)),
         set_categories
           (filter (fun c' => negb (category_id c' =? category_id c))
                   (categories st)) st)
    | _ :: _ => (Raise ProtectedError, st)
    end.
Proof.
  intros Hnd Hin. unfold delete_category.
  unfold bind at 1. unfold read at 1. unfold bind at 1.
  rewrite (get_category_by_slug st c Hnd Hin).
  unfold Category_delete. run_handler.
  destruct (category_titles st (category_id c)); reflexivity.
Qed.

Lemma category_titles_nil (st : State) (pk : Z) :
  (forall t, In t (titles st) -> category t <> Some pk) ->
  category_titles st pk = [].
Proof.
  intros Hno. apply filter_none. intros t Ht. unfold in_category.
  destruct (category t) as [k|] eqn:Hc; [|reflexivity].
  apply Z.eqb_neq. intros ->. now apply (Hno t Ht).
Qed.

Lemma category_titles_cons (st : State) (pk : Z) (t : Title) :
  In t (titles st) -> category t = Some pk ->
  exists t' ts, category_titles st pk = t' :: ts.
Proof.
  intros Hin Hc.
  assert (Hm : In t (category_titles st pk)).
  { apply filter_In. split; [exact Hin|]. unfold in_category.
    rewrite Hc. apply Z.eqb_refl. }
  destruct (category_titles st pk) as [|t' ts]; [contradiction|].
  now exists t', ts.
Qed.

Lemma not_in_filter_other {A} (key : A -> Z) (l : list A) (x : A) :
  ~ In x (filter (fun y => negb (key y =? key x)) l).
Proof.
  intros H. apply filter_In in H. destruct H as [_ H].
  now rewrite Z.eqb_refl in H.
Qed.

(** C7: deleting a category by its slug raises the protection error when
    a stored title refers to the category, and then nothing changes in the
    store (the category and its titles remain); when no title refers to
    it, the delete answers 204, the category is gone, and the titles and
    the other categories are as before. *)
Theorem category_delete_protected (request : Request) (st : State)
    (c : Category) :
  NoDup (map category_slug (categories st)) -> In c (categories st) ->
  ((exists t, In t (titles st) /\ category t = Some (category_id c)) ->
   delete_category request (category_slug c) st = (Raise ProtectedError, st)
   /\ status_code (finalize (Raise ProtectedError))
      = HTTP_500_INTERNAL_SERVER_ERROR)
  /\ ((forall t, In t (titles st) -> category t <> Some (category_id c)) ->
      exists resp st',
        delete_category request (category_slug c) st = (Ok resp, st')
        /\ status_code resp = HTTP_204_NO_CONTENT
        /\ ~ In c (categories st')
        /\ titles st' = titles st
        /\ (forall c', In c' (categories st) ->
                       category_id c' <> category_id c ->
                       In c' (categories st'))).
Proof.
  intros Hnd Hin. rewrite (delete_category_found request st c Hnd Hin).
  split.
  - intros [t [Ht Hc]].
    destruct (category_titles_cons st _ t Ht Hc) as [t' [ts ->]].
    split; reflexivity.
  - intros Hno. rewrite (category_titles_nil st _ Hno).
    eexists. eexists. split; [reflexivity|].
    split; [reflexivity|]. split; [|split].
    + simpl. apply (not_in_filter_other category_id).
    + reflexivity.
    + intros c' Hc' Hne. simpl. apply filter_In. split; [exact Hc'|].
      apply negb_true_iff. now apply Z.eqb_neq.
Qed.

Lemma category_delete_protected_witness :
  NoDup (map category_slug (categories (Examples.catalogue 4 8)))
  /\ In Examples.film (categories (Examples.catalogue 4 8))
  /\ In Examples.book (categories (Examples.catalogue 4 8))
  /\ delete_category (Examples.anonymous "DELETE" []) "film"
       (Examples.catalogue 4 8)
     = (Raise ProtectedError, Examples.catalogue 4 8)
  /\ exists resp st',
       delete_category (Examples.anonymous "DELETE" []) "book"
         (Examples.catalogue 4 8) = (Ok resp, st')
       /\ status_code resp = HTTP_204_NO_CONTENT
       /\ ~ In Examples.book (categories st').
Proof.
  assert (Hnd : NoDup (map category_slug
                         (categories (Examples.catalogue 4 8)))).
  { simpl. constructor.
    - intros [H|[]]. discriminate H.
    - constructor; [intros []|constructor]. }
  assert (Hfilm : In Examples.film (categories (Examples.catalogue 4 8)))
    by (simpl; now left).
  assert (Hbook : In Examples.book (categories (Examples.catalogue 4 8)))
    by (simpl; right; now left).
  split; [exact Hnd|]. split; [exact Hfilm|]. split; [exact Hbook|].
  split.
  - apply (category_delete_protected (Examples.anonymous "DELETE" [])
             (Examples.catalogue 4 8) Examples.film Hnd Hfilm).
    exists Examples.title_x. split; [simpl; now left|reflexivity].
  - destruct (category_delete_protected (Examples.anonymous "DELETE" [])
                (Examples.catalogue 4 8) Examples.book Hnd Hbook)
      as [_ Hfree].
    destruct Hfree as [resp [st' [Hrun [Hst [Hgone _]]]]].
    + intros t [<-|[]]. discriminate.
    + exists resp, st'. repeat split; assumption.
Defined.

(** What [delete_genre] does on the slug of a stored genre. *)
Lemma delete_genre_found (request : Request) (st : State) (g : Genre) :
  NoDup (map genre_slug (genres st)) -> In g (genres st) ->
  delete_genre request (genre_slug g) st
  = (Ok (mkResponse HTTP_204_NO_CONTENT (CategorySerializer_data g)),
     set_titles (map (unlink_genre (genre_id g)) (titles st))
       (set_genres
          (filter (fun g' => negb (genre_id g' =? genre_id g)) (genres st))
          st)).
Proof.
  intros Hnd Hin. unfold delete_genre.
  unfold bind at 1. unfold read at 1. unfold bind at 1.
  rewrite (get_genre_by_slug st g Hnd Hin).
  unfold Genre_delete. run_handler. reflexivity.
Qed.

(** C10, as the code has it: delete-by-slug on a slug the route accepts
    (word characters only) answers 204 with the name and slug of the
    deleted object for every stored genre, and for every stored category
    that no title refers to; the object is gone afterwards.  (A category
    some title refers to is not deleted.) *)
Theorem delete_by_slug_response (request : Request) (st : State) :
  (forall g,
     NoDup (map genre_slug (genres st)) -> In g (genres st) ->
     url_path_matches (genre_slug g) = true ->
     exists st',
       delete_genre request (genre_slug g) st
       = (Ok (mkResponse HTTP_204_NO_CONTENT
                (JObj [("name", JStr (genre_name g));
                       ("slug", JStr (genre_slug g))])), st')
       /\ ~ In g (genres st'))
  /\ (forall c,
        NoDup (map category_slug (categories st)) -> In c (categories st) ->
        url_path_matches (category_slug c) = true ->
        (forall t, In t (titles st) -> category t <> Some (category_id c)) ->
        exists st',
          delete_category request (category_slug c) st
          = (Ok (mkResponse HTTP_204_NO_CONTENT
                   (JObj [("name", JStr (category_name c));
                          ("slug", JStr (category_slug c))])), st')
          /\ ~ In c (categories st')).
Proof.
  split.
  - intros g Hg Hgin _.
    rewrite (delete_genre_found request st g Hg Hgin).
    eexists. split; [reflexivity|].
    simpl. apply (not_in_filter_other genre_id).
  - intros c Hc Hcin _ Hfree.
    rewrite (delete_category_found request st c Hc Hcin),
      (category_titles_nil st _ Hfree).
    eexists. split; [reflexivity|].
    simpl. apply (not_in_filter_other category_id).
Qed.

Lemma delete_by_slug_response_witness :
  (NoDup (map genre_slug (genres (Examples.catalogue 4 8)))
   /\ In Examples.drama (genres (Examples.catalogue 4 8))
   /\ url_path_matches (genre_slug Examples.drama) = true
   /\ exists st',
        delete_genre (Examples.anonymous "DELETE" []) "drama"
          (Examples.catalogue 4 8)
        = (Ok (mkResponse 204
                 (JObj [("name", JStr "Drama"); ("slug", JStr "drama")])),
           st')
        /\ ~ In Examples.drama (genres st'))
  /\ (NoDup (map category_slug (categories (Examples.catalogue 4 8)))
      /\ In Examples.book (categories (Examples.catalogue 4 8))
      /\ url_path_matches (category_slug Examples.book) = true
      /\ (forall t, In t (titles (Examples.catalogue 4 8)) ->
                    category t <> Some (category_id Examples.book))
      /\ exists st',
           delete_category (Examples.anonymous "DELETE" []) "book"
             (Examples.catalogue 4 8)
           = (Ok (mkResponse 204
                    (JObj [("name", JStr "Book"); ("slug", JStr "book")])),
              st')
           /\ ~ In Examples.book (categories st')).
Proof.
  assert (Hg : NoDup (map genre_slug (genres (Examples.catalogue 4 8)))).
  { simpl. constructor; [intros []|constructor]. }
  assert (Hgin : In Examples.drama (genres (Examples.catalogue 4 8)))
    by (simpl; now left).
  assert (Hgw : url_path_matches (genre_slug Examples.drama) = true)
    by reflexivity.
  assert (Hc : NoDup (map category_slug
                        (categories (Examples.catalogue 4 8)))).
  { simpl. constructor.
    - intros [H|[]]. discriminate H.
    - constructor; [intros []|constructor]. }
  assert (Hcin : In Examples.book (categories (Examples.catalogue 4 8)))
    by (simpl; right; now left).
  assert (Hcw : url_path_matches (category_slug Examples.book) = true)
    by reflexivity.
  assert (Hfree : forall t, In t (titles (Examples.catalogue 4 8)) ->
                            category t <> Some (category_id Examples.book)).
  { intros t [<-|[]]. discriminate. }
  destruct (delete_by_slug_response (Examples.anonymous "DELETE" [])
              (Examples.catalogue 4 8)) as [Hgenre Hcategory].
  split.
  - split; [exact Hg|]. split; [exact Hgin|]. split; [exact Hgw|].
    exact (Hgenre Examples.drama Hg Hgin Hgw).
  - split; [exact Hc|]. split; [exact Hcin|]. split; [exact Hcw|].
    split; [exact Hfree|].
    exact (Hcategory Examples.book Hc Hcin Hcw Hfree).
Defined.

(** The claim as worded fails for a category in use: "film" is stored
    and title X refers to it; deleting it by slug raises the protection
    error, which reaches the client as a 500, not as a 204. *)
Lemma delete_by_slug_in_use :
  In Examples.film (categories (Examples.catalogue 4 8))
  /\ url_path_matches (category_slug Examples.film) = true
  /\ delete_category (Examples.anonymous "DELETE" []) "film"
       (Examples.catalogue 4 8)
     = (Raise ProtectedError, Examples.catalogue 4 8)
  /\ status_code
       (finalize (fst (delete_category (Examples.anonymous "DELETE" [])
                         "film" (Examples.catalogue 4 8))))
     <> HTTP_204_NO_CONTENT.
Proof.
  split; [simpl; now left|]. split; [reflexivity|]. split; [reflexivity|].
  simpl. unfold HTTP_500_INTERNAL_SERVER_ERROR, HTTP_204_NO_CONTENT.
  discriminate.
Qed.

(** ** Reviews *)


Lemma key_in_range_no_overflow (ts : list Title) (data : option JSON) :
  key_entry_in_range data = true -> Title_by_id_overflows ts data = false.
Proof.
  unfold key_entry_in_range, Title_by_id_overflows.
  destruct data as [[| b | z | s | l | l]|]; try reflexivity.
  - intros _. destruct b; cbn [pk_of_json];
      apply andb_false_intro2; reflexivity.
  - cbn [pk_of_json]. intros ->. apply andb_false_intro2. reflexivity.
  - intros H. apply andb_true_iff in H. destruct H as [_ H].
    cbn [pk_of_json].
    destruct s as [|c s']; [reflexivity|].
    destruct (Py.int_of_str (String c s')) as [pk|]; [|reflexivity].
    rewrite H. apply andb_false_intro2. reflexivity.
Qed.




(** The fields [ReviewSerializer] reads from a body do not include
    [author]. *)
Lemma review_fields_ignore_author (partial : bool) (st : State)
    (d1 d2 : Data) :
  (forall k, k <> "author" -> get k d1 = get k d2) ->
  ReviewSerializer_to_internal_value partial st d1
  = ReviewSerializer_to_internal_value partial st d2.
Proof.
  intros Hsame. unfold ReviewSerializer_to_internal_value.
  rewrite (Hsame "text"), (Hsame "title"), (Hsame "score")
    by discriminate.
  reflexivity.
Qed.

Lemma Review_objects_create_author (text : string) (sc : Z) (author : User)
    (title : Title) (st st' : State) (r : Review) :
  Review_objects_create text sc author title st = (Ok r, st') ->
  reviews st' = reviews st ++ [r] /\ review_author r = user_id author.
Proof.
  unfold Review_objects_create. run_handler.
  destruct (existsb _ _); intros H; inversion H; subst.
  split; reflexivity.
Qed.

(** C8: the body's [author] plays no part in a review create: two
    requests by the same caller that differ at most in that field have
    the same outcome on the same store; and whenever a create succeeds,
    exactly one review is added, its author is the caller, and the answer
    is a 201 naming the caller as author. *)
Theorem review_author_is_caller (st : State) (meth : string)
    (caller : User) (title_pk : Z) (d1 d2 : Data) :
  (forall k, k <> "author" -> get k d1 = get k d2) ->
  ReviewViewSet_create (mkRequest meth (Some caller) d1) title_pk st
  = ReviewViewSet_create (mkRequest meth (Some caller) d2) title_pk st
  /\ (forall resp st',
        ReviewViewSet_create (mkRequest meth (Some caller) d1) title_pk st
        = (Ok resp, st') ->
        exists r,
          reviews st' = reviews st ++ [r]
          /\ review_author r = user_id caller
          /\ status_code resp = HTTP_201_CREATED
          /\ field "author" (data resp) = Some (JStr (username caller))).
Proof.
  intros Hsame. split.
  - unfold ReviewViewSet_create, ReviewSerializer_is_valid. simpl.
    run_handler.
    now rewrite (review_fields_ignore_author false st d1 d2 Hsame).
  - intros resp st'. unfold ReviewViewSet_create, ReviewSerializer_is_valid,
      ReviewSerializer_validate, Review_exists, perform_create,
      ReviewSerializer_save_create.
    simpl. run_handler.
    destruct (ReviewSerializer_to_internal_value false st d1)
      as [fields|e]; [|discriminate].
    destruct (negb (meth =? "POST")%string); cbn beta iota.
    + destruct (get_by_key_or_404 _ _) as [title|e]; [|discriminate].
      destruct (vd_text fields) as [text|]; [|discriminate].
      destruct (vd_score fields) as [sc|]; [|discriminate].
      destruct (Review_objects_create text sc caller title st)
        as [[r|e] st1] eqn:Hc; [|discriminate].
      intros H; inversion H; subst.
      destruct (Review_objects_create_author _ _ _ _ _ _ _ Hc) as [Hr Ha].
      exists r. repeat split; assumption.
    + destruct (existsb _ (reviews st)); cbn beta iota; [discriminate|].
      destruct (in_int64 title_pk); cbn beta iota; [|discriminate].
      destruct (get_by_key_or_404 _ _) as [title|e]; [|discriminate].
      destruct (vd_text fields) as [text|]; [|discriminate].
      destruct (vd_score fields) as [sc|]; [|discriminate].
      destruct (Review_objects_create text sc caller title st)
        as [[r|e] st1] eqn:Hc; [|discriminate].
      intros H; inversion H; subst.
      destruct (Review_objects_create_author _ _ _ _ _ _ _ Hc) as [Hr Ha].
      exists r. repeat split; assumption.
Qed.

Lemma forged_reviews_agree (a1 a2 : string) (k : string) :
  k <> "author" ->
  get k (Examples.forged_review a1) = get k (Examples.forged_review a2).
Proof.
  intros Hk. unfold Examples.forged_review. cbn [get].
  destruct (String.eqb k "author") eqn:Heq; [|reflexivity].
  apply String.eqb_eq in Heq. contradiction.
Qed.

Lemma review_author_is_caller_witness :
  (forall k, k <> "author" ->
     get k (Examples.forged_review "bob")
     = get k (Examples.forged_review "root"))
  /\ ReviewViewSet_create
       (mkRequest "POST" (Some Examples.alice) (Examples.forged_review "bob"))
       1 Examples.unreviewed
     = ReviewViewSet_create
         (mkRequest "POST" (Some Examples.alice)
                    (Examples.forged_review "root"))
         1 Examples.unreviewed
  /\ exists resp st' r,
       ReviewViewSet_create
         (mkRequest "POST" (Some Examples.alice)
                    (Examples.forged_review "bob"))
         1 Examples.unreviewed = (Ok resp, st')
       /\ reviews st' = reviews Examples.unreviewed ++ [r]
       /\ review_author r = user_id Examples.alice.
Proof.
  pose proof (forged_reviews_agree "bob" "root") as Hsame.
  destruct (review_author_is_caller Examples.unreviewed "POST"
              Examples.alice 1 _ _ Hsame) as [Heq Hauthor].
  split; [exact Hsame|]. split; [exact Heq|].
  destruct (ReviewViewSet_create
              (mkRequest "POST" (Some Examples.alice)
                         (Examples.forged_review "bob"))
              1 Examples.unreviewed) as [[resp|e] st'] eqn:Hrun.
  - destruct (Hauthor resp st' eq_refl) as [r [Hr [Ha _]]].
    exists resp, st', r. split; [reflexivity|]. split; assumption.
  - vm_compute in Hrun. discriminate Hrun.
Defined.

(** ** The caller's own profile *)

Lemma by_primary_key (us : list User) (u v : User) :
  NoDup (map user_id us) -> In u us -> In v us -> user_id v = user_id u ->
  v = u.
Proof.
  intros Hnd Hu Hv Hid.
  pose proof (filter_unique_key user_id Z.eqb us u Zeqb_iff Hnd Hu) as Hf.
  assert (Hin : In v (filter (fun y => user_id y =? user_id u) us)).
  { apply filter_In. split; [exact Hv|]. now apply Z.eqb_eq. }
  rewrite Hf in Hin. destruct Hin as [->|[]]. reflexivity.
Qed.

Lemma existsb_own_key (us : list User) (u : User) (k : Z) :
  In u us -> user_id u = k -> existsb (fun x => user_id x =? k) us = true.
Proof.
  intros Hin Hk. apply existsb_exists. exists u.
  split; [exact Hin|]. now apply Z.eqb_eq.
Qed.

(** Saving a changed copy of a stored user leaves one row under the
    user's key, which carries the copy's role; a refused save leaves the
    store alone. *)
Lemma User_save_role (st st' : State) (old new : User) (out : Result unit) :
  NoDup (map user_id (users st)) -> In old (users st) ->
  user_id new = user_id old -> role new = role old ->
  User_save new st = (out, st') ->
  (exists u', In u' (users st') /\ user_id u' = user_id old)
  /\ (forall v, In v (users st') -> user_id v = user_id old ->
                role v = role old).
Proof.
  intros Hnd Hin Hid Hrole. unfold User_save. run_handler.
  destruct (username_taken (Some new) (users st) (username new)).
  - intros H; inversion H; subst. split.
    + now exists old.
    + intros v Hv Hvid. now rewrite (by_primary_key _ old v Hnd Hin Hv Hvid).
  - rewrite (existsb_own_key (users st) old (user_id new) Hin (eq_sym Hid)).
    intros H; inversion H; subst. simpl. split.
    + exists new. split; [|exact Hid].
      apply in_map_iff. exists old. split; [|exact Hin].
      unfold replace_user. now rewrite Hid, Z.eqb_refl.
    + intros v Hv Hvid. apply in_map_iff in Hv.
      destruct Hv as [x [Hx Hxin]]. unfold replace_user in Hx.
      destruct (user_id x =? user_id new) eqn:Hk.
      * now subst v.
      * subst v. apply Z.eqb_neq in Hk. congruence.
Qed.

(** C1, as the code has it: [PATCH /users/me] never changes the caller's
    role, for an admin caller as for any other and whatever the body
    says: after the call the store still has a row for the caller, every
    row under the caller's key has the role the caller had, and a 200
    answer shows that same role. *)
Theorem me_keeps_role (E : Externals) (request : Request) (st st' : State)
    (caller : User) (out : Result Response) :
  user request = Some caller -> method request = "PATCH" ->
  NoDup (map user_id (users st)) -> In caller (users st) ->
  me E request st = (out, st') ->
  (exists u', In u' (users st') /\ user_id u' = user_id caller)
  /\ (forall v, In v (users st') -> user_id v = user_id caller ->
                role v = role caller)
  /\ (forall resp, out = Ok resp ->
        status_code resp = HTTP_200_OK
        /\ field "role" (data resp) = Some (JStr (role caller))).
Proof.
  intros Hu Hm Hnd Hin. unfold me. rewrite Hu, Hm.
  change ("PATCH" =? "PATCH")%string with true. cbv iota.
  unfold UserSerializer_save_update. run_handler.
  set (validated :=
         if is_admin E caller
         then UserSerializer_to_internal_value E true true (Some caller)
                (users st) (body request)
         else UserSerializer_to_internal_value E false true (Some caller)
                (users st) (body request)).
  destruct validated as [data|e].
  - destruct (User_save (setattrs (with_role (role caller) data) caller) st)
      as [saved st1] eqn:Hsave.
    destruct (User_save_role st st1 caller
                (setattrs (with_role (role caller) data) caller) saved
                Hnd Hin eq_refl eq_refl Hsave) as [Hrow Hroles].
    destruct saved as [[]|e]; intros H; inversion H; subst.
    + split; [exact Hrow|]. split; [exact Hroles|].
      intros resp Hr. inversion Hr; subst. split; reflexivity.
    + split; [exact Hrow|]. split; [exact Hroles|].
      intros resp Hr. discriminate Hr.
  - intros H; inversion H; subst. split; [now exists caller|]. split.
    + intros v Hv Hvid.
      now rewrite (by_primary_key _ caller v Hnd Hin Hv Hvid).
    + intros resp Hr. discriminate Hr.
Qed.

Lemma me_keeps_role_witness :
  user (Examples.patch_me Examples.alice (Examples.role_body "admin"))
  = Some Examples.alice
  /\ method (Examples.patch_me Examples.alice (Examples.role_body "admin"))
     = "PATCH"
  /\ NoDup (map user_id (users (Examples.catalogue 4 8)))
  /\ In Examples.alice (users (Examples.catalogue 4 8))
  /\ is_admin Examples.spec_externals Examples.alice = false
  /\ exists out st',
       me Examples.spec_externals
          (Examples.patch_me Examples.alice (Examples.role_body "admin"))
          (Examples.catalogue 4 8) = (out, st')
       /\ (forall v, In v (users st') -> user_id v = user_id Examples.alice ->
                     role v = "user").
Proof.
  assert (Hnd : NoDup (map user_id (users (Examples.catalogue 4 8)))).
  { simpl. repeat constructor; simpl; intuition discriminate. }
  assert (Hin : In Examples.alice (users (Examples.catalogue 4 8)))
    by (simpl; now left).
  split; [reflexivity|]. split; [reflexivity|]. split; [exact Hnd|].
  split; [exact Hin|]. split; [reflexivity|].
  destruct (me Examples.spec_externals
              (Examples.patch_me Examples.alice (Examples.role_body "admin"))
              (Examples.catalogue 4 8)) as [out st'] eqn:Hrun.
  exists out, st'. split; [reflexivity|].
  exact (proj1 (proj2 (me_keeps_role Examples.spec_externals
                         (Examples.patch_me Examples.alice
                            (Examples.role_body "admin"))
                         (Examples.catalogue 4 8) st' Examples.alice out
                         eq_refl eq_refl Hnd Hin Hrun))).
Defined.

(** The admin half of the claim fails: root is an admin and asks for the
    role user on their own profile; the call answers 200, the store is as
    it was, and the answer still shows the role admin. *)
Lemma admin_role_survives_me :
  is_admin Examples.spec_externals Examples.root = true
  /\ get "role" (Examples.role_body "user") = Some (JStr "user")
  /\ exists resp,
       me Examples.spec_externals
          (Examples.patch_me Examples.root (Examples.role_body "user"))
          (Examples.catalogue 4 8) = (Ok resp, Examples.catalogue 4 8)
       /\ status_code resp = HTTP_200_OK
       /\ field "role" (data resp) = Some (JStr "admin")
       /\ In Examples.root (users (Examples.catalogue 4 8))
       /\ role Examples.root <> "user".
Proof.
  split; [reflexivity|]. split; [reflexivity|].
  eexists. split; [vm_compute; reflexivity|].
  split; [reflexivity|]. split; [reflexivity|].
  split; [simpl; tauto|]. discriminate.
Qed.

(** ** Token exchange *)

(** The lookup of a stored user by username, in a table with unique
    usernames. *)
Lemma get_user_by_username (us : list User) (u : User) :
  NoDup (map username us) -> In u us ->
  get_object_or_404 (filter (fun x => String.eqb (username x) (username u)) us)
  = Ok u.
Proof.
  intros Hnd Hin.
  now rewrite (filter_unique_key username String.eqb us u Seqb_iff Hnd Hin).
Qed.

Lemma get_user_unknown (us : list User) (n : string) :
  (forall u, In u us -> username u <> n) ->
  get_object_or_404 (filter (fun x => String.eqb (username x) n) us)
  = Raise Http404.
Proof.
  intros Hno. rewrite filter_none; [reflexivity|].
  intros x Hx. apply String.eqb_neq. now apply Hno.
Qed.

(** A required field of a full (not partial) update is never skipped. *)
Lemma required_never_skipped (f : CharField) (d : option JSON) :
  required f = true -> CharField_run_validation false f d <> Skip.
Proof.
  intros Hreq. unfold CharField_run_validation, validate_empty_values.
  rewrite Hreq. destruct (is_blank d).
  - destruct (allow_blank f); discriminate.
  - destruct d as [[]|]; try discriminate;
      simpl; unfold checked; destruct (run_validators _ _); discriminate.
Qed.

(** A token request whose two fields pass: the lookup decides. *)
Lemma Token_post_valid (E : Externals) (request : Request) (st : State)
    (n c : string) :
  CharField_run_validation false token_username_field
    (get "username" (body request)) = Valid n ->
  CharField_run_validation false token_code_field
    (get "confirmation_code" (body request)) = Valid c ->
  Token_post E request st
  = match get_object_or_404
            (filter (fun x => String.eqb (username x) n) (users st)) with
    | Ok u =>
        if check_confirmation_code E u c
        then (Ok (mkResponse HTTP_200_OK
                    (JObj [("token", JStr (AccessToken_for_user E u))])), st)
        else (Ok (mkResponse HTTP_400_BAD_REQUEST
                    (JObj [("confirmation_code",
                            JList [JStr "Код не действителен!"])])), st)
    | Raise e => (Raise e, st)
    end.
Proof.
  intros Hn Hc. unfold Token_post, TokenSerializer_is_valid.
  rewrite Hn, Hc. simpl. run_handler.
  destruct (get_object_or_404 _) as [u|e]; [|reflexivity].
  cbn [td_confirmation_code].
  destruct (check_confirmation_code E u c); reflexivity.
Qed.

(** C6: for a stored user whose username the token serializer accepts
    as it is, a token request with that username and a confirmation code
    the check accepts is answered 200 with a body of the one key "token"
    holding the bearer token of that user; when the check accepts no code
    the request carries (a wrong code, or none), the answer is a 400
    without a token, and the store is untouched either way. *)
Theorem token_exchange (E : Externals) (request : Request) (st : State)
    (u : User) :
  NoDup (map username (users st)) -> In u (users st) ->
  CharField_run_validation false token_username_field
    (get "username" (body request)) = Valid (username u) ->
  (forall c,
     CharField_run_validation false token_code_field
       (get "confirmation_code" (body request)) = Valid c ->
     check_confirmation_code E u c = true ->
     Token_post E request st
     = (Ok (mkResponse HTTP_200_OK
              (JObj [("token", JStr (AccessToken_for_user E u))])), st))
  /\ ((forall c,
         CharField_run_validation false token_code_field
           (get "confirmation_code" (body request)) = Valid c ->
         check_confirmation_code E u c = false) ->
      status_code (finalize (fst (Token_post E request st)))
      = HTTP_400_BAD_REQUEST
      /\ field "token" (data (finalize (fst (Token_post E request st))))
         = None
      /\ snd (Token_post E request st) = st).
Proof.
  intros Hnd Hin Hname. split.
  - intros c Hc Hok.
    rewrite (Token_post_valid E request st _ c Hname Hc).
    now rewrite (get_user_by_username _ u Hnd Hin), Hok.
  - intros Hwrong.
    destruct (CharField_run_validation false token_code_field
                (get "confirmation_code" (body request))) as [c| |ms] eqn:Hc.
    + rewrite (Token_post_valid E request st _ c Hname Hc).
      rewrite (get_user_by_username _ u Hnd Hin), (Hwrong c eq_refl).
      repeat split.
    + exfalso.
      now apply (required_never_skipped token_code_field _ eq_refl Hc).
    + unfold Token_post, TokenSerializer_is_valid. rewrite Hname, Hc.
      simpl. repeat split.
Qed.

Lemma token_exchange_witness :
  NoDup (map username (users (Examples.catalogue 4 8)))
  /\ In Examples.alice (users (Examples.catalogue 4 8))
  /\ CharField_run_validation false token_username_field
       (get "username" (body (Examples.token_request "alice" "c0de-a")))
     = Valid (username Examples.alice)
  /\ Token_post Examples.spec_externals
       (Examples.token_request "alice" "c0de-a") (Examples.catalogue 4 8)
     = (Ok (mkResponse 200 (JObj [("token", JStr "token-alice")])),
        Examples.catalogue 4 8)
  /\ status_code
       (finalize (fst (Token_post Examples.spec_externals
                         (Examples.token_request "alice" "guess")
                         (Examples.catalogue 4 8))))
     = 400.
Proof.
  assert (Hnd : NoDup (map username (users (Examples.catalogue 4 8)))).
  { simpl. repeat constructor; simpl; intuition discriminate. }
  assert (Hin : In Examples.alice (users (Examples.catalogue 4 8)))
    by (simpl; now left).
  split; [exact Hnd|]. split; [exact Hin|]. split; [reflexivity|]. split.
  - apply (proj1 (token_exchange Examples.spec_externals
                    (Examples.token_request "alice" "c0de-a")
                    (Examples.catalogue 4 8) Examples.alice Hnd Hin eq_refl)
             "c0de-a"); reflexivity.
  - apply (proj2 (token_exchange Examples.spec_externals
                    (Examples.token_request "alice" "guess")
                    (Examples.catalogue 4 8) Examples.alice Hnd Hin eq_refl)).
    intros c Hc. vm_compute in Hc. inversion Hc; subst c. reflexivity.
Defined.

(** C9, as the code has it: a token request that passes the serializer
    (username and confirmation code both present and well-formed) and
    whose username belongs to no stored user raises the not-found error of
    the user lookup: the client gets a 404, no token, and the store is
    untouched. *)
Theorem token_unknown_user (E : Externals) (request : Request) (st : State)
    (n c : string) :
  CharField_run_validation false token_username_field
    (get "username" (body request)) = Valid n ->
  CharField_run_validation false token_code_field
    (get "confirmation_code" (body request)) = Valid c ->
  (forall u, In u (users st) -> username u <> n) ->
  Token_post E request st = (Raise Http404, st)
  /\ status_code (finalize (fst (Token_post E request st)))
     = HTTP_404_NOT_FOUND
  /\ field "token" (data (finalize (fst (Token_post E request st)))) = None.
Proof.
  intros Hn Hc Hno.
  rewrite (Token_post_valid E request st n c Hn Hc).
  rewrite (get_user_unknown _ n Hno). repeat split.
Qed.

Lemma token_unknown_user_witness :
  CharField_run_validation false token_username_field
    (get "username" (body (Examples.token_request "ghost" "c0de-a")))
  = Valid "ghost"
  /\ CharField_run_validation false token_code_field
       (get "confirmation_code"
            (body (Examples.token_request "ghost" "c0de-a")))
     = Valid "c0de-a"
  /\ (forall u, In u (users (Examples.catalogue 4 8)) -> username u <> "ghost")
  /\ Token_post Examples.spec_externals
       (Examples.token_request "ghost" "c0de-a") (Examples.catalogue 4 8)
     = (Raise Http404, Examples.catalogue 4 8).
Proof.
  assert (Hno : forall u, In u (users (Examples.catalogue 4 8)) ->
                          username u <> "ghost").
  { intros u [<-|[<-|[<-|[]]]]; discriminate. }
  split; [reflexivity|]. split; [reflexivity|]. split; [exact Hno|].
  exact (proj1 (token_unknown_user Examples.spec_externals
                  (Examples.token_request "ghost" "c0de-a")
                  (Examples.catalogue 4 8) "ghost" "c0de-a"
                  eq_refl eq_refl Hno)).
Defined.

(** The claim as worded fails when the code is left out: the username
    "ghost" passes the username field and names no stored user, yet the
    request is answered 400 by the serializer, before the lookup. *)
Lemma token_without_code_is_400 :
  CharField_run_validation false token_username_field
    (get "username" (body (Examples.token_request_without_code "ghost")))
  = Valid "ghost"
  /\ (forall u, In u (users (Examples.catalogue 4 8)) ->
                username u <> "ghost")
  /\ Token_post Examples.spec_externals
       (Examples.token_request_without_code "ghost") (Examples.catalogue 4 8)
     = (Raise (ValidationError
                 (JObj [("confirmation_code",
                         JList [JStr "This field is required."])])),
        Examples.catalogue 4 8)
  /\ status_code
       (finalize (fst (Token_post Examples.spec_externals
                         (Examples.token_request_without_code "ghost")
                         (Examples.catalogue 4 8))))
     <> HTTP_404_NOT_FOUND.
Proof.
  split; [reflexivity|]. split.
  - intros u [<-|[<-|[<-|[]]]]; discriminate.
  - split; [reflexivity|]. vm_compute. discriminate.
Qed.

(** ** Sign-up *)

Lemma username_taken_own (us : list User) (u : User) :
  NoDup (map username us) -> In u us ->
  username_taken (Some u) us (username u) = false.
Proof.
  intros Hnd Hin. unfold username_taken.
  destruct (existsb _ us) eqn:Hex; [|reflexivity].
  apply existsb_exists in Hex. destruct Hex as [x [Hx Hc]].
  apply andb_true_iff in Hc. destruct Hc as [Hname Hid].
  apply String.eqb_eq in Hname.
  pose proof (filter_unique_key username String.eqb us u Seqb_iff Hnd Hin)
    as Hf.
  assert (Hxin : In x (filter (fun y => String.eqb (username y) (username u))
                              us)).
  { apply filter_In. split; [exact Hx|]. now apply String.eqb_eq. }
  rewrite Hf in Hxin. destruct Hxin as [->|[]].
  now rewrite Z.eqb_refl in Hid.
Qed.


(** What a well-formed username gives in the sign-up serializer,
    depending on whether the uniqueness check finds it taken. *)
Lemma signup_username_field (E : Externals) (instance : option User)
    (us : list User) (n : string) :
  well_formed_username E n ->
  and_then (CharField_run_validation false (username_field E instance us)
                                     (Some (JStr n)))
           validate_username
  = if username_taken instance us n
    then Invalid ["A user with that username already exists."]
    else Valid n.
Proof.
  intros [Hwf Hme]. unfold CharField_run_validation in *.
  destruct (is_blank (Some (JStr n))); [discriminate Hwf|].
  unfold validate_empty_values, CharField_to_internal_value, checked,
    CharField_validators, run_validators in *.
  cbn [required max_length validators username_field app flat_map] in *.
  destruct (username_validator E (Py.strip n)
            ++ MaxLengthValidator 150 (Py.strip n)
            ++ ProhibitNullCharactersValidator (Py.strip n)
            ++ ProhibitSurrogateCharactersValidator (Py.strip n) ++ [])
    as [|m ms] eqn:Hv; [|discriminate Hwf].
  inversion Hwf as [Hstrip]. rewrite Hstrip in Hv. rewrite !Hstrip.
  apply app_eq_nil in Hv. destruct Hv as [Hu Hrest].
  rewrite Hu, Hrest. unfold UniqueValidator_username.
  destruct (username_taken instance us n); simpl.
  - reflexivity.
  - unfold validate_username.
    destruct (String.eqb n "me") eqn:Heq; [|reflexivity].
    apply String.eqb_eq in Heq. contradiction.
Qed.

Lemma setattrs_same (u : User) :
  setattrs (mkUserData (Some (username u)) (Some (email u))
                       None None None None) u = u.
Proof. destruct u; reflexivity. Qed.

Lemma replace_by_itself (us : list User) (u : User) :
  NoDup (map user_id us) -> In u us -> map (replace_user u) us = us.
Proof.
  intros Hnd Hin. rewrite <- (map_id us) at 2. apply map_ext_in.
  intros x Hx. unfold replace_user.
  destruct (user_id x =? user_id u) eqn:Hk; [|reflexivity].
  apply Z.eqb_eq in Hk. symmetry.
  now apply (by_primary_key us u x Hnd Hin Hx).
Qed.

Lemma set_users_same (st : State) : set_users (users st) st = st.
Proof. destruct st; reflexivity. Qed.

(** Saving a stored user unchanged is a no-op. *)
Lemma User_save_unchanged (st : State) (u : User) :
  NoDup (map user_id (users st)) -> NoDup (map username (users st)) ->
  In u (users st) -> User_save u st = (Ok tt, st).
Proof.
  intros Hid Hname Hin. unfold User_save. run_handler.
  rewrite (username_taken_own _ u Hname Hin).
  rewrite (existsb_own_key (users st) u (user_id u) Hin eq_refl).
  rewrite (replace_by_itself _ u Hid Hin). now rewrite set_users_same.
Qed.

Lemma User_filter_finds (st : State) (u : User) :
  In u (users st) ->
  exists x xs,
    User_filter (Some (JStr (username u))) (Some (JStr (email u))) st
    = x :: xs.
Proof.
  intros Hin.
  assert (Hm : In u (User_filter (Some (JStr (username u)))
                                 (Some (JStr (email u))) st)).
  { unfold User_filter. apply filter_In. split; [exact Hin|].
    now rewrite !String.eqb_refl. }
  destruct (User_filter _ _ st) as [|x xs]; [contradiction|].
  now exists x, xs.
Qed.





(** * Further properties of the handlers *)

(** ** Review scores *)

Lemma get_in_later_errors {A B} (k : string) (v : JSON)
    (k1 k2 : string) (r1 : FieldResult A) (r2 : FieldResult B) :
  String.eqb k k1 = false -> String.eqb k k2 = false ->
  get k (field_errors k1 r1 ++ field_errors k2 r2 ++ [(k, v)]) = Some v.
Proof.
  intros H1 H2.
  destruct r1, r2; simpl; rewrite ?H1, ?H2, String.eqb_refl; reflexivity.
Qed.

(** X1: [validate_score] accepts exactly the scores 1..10; a create
    request whose score is an integer outside that range, and whose
    [title] entry is absent or stays within the database's key range,
    raises a validation error that carries the score message, and stores
    nothing. *)
Theorem score_outside_range_rejected (request : Request) (st : State)
    (caller : User) (title_pk sc : Z) :
  user request = Some caller ->
  get "score" (body request) = Some (JInt sc) ->
  (validate_score sc = Valid sc <-> 1 <= sc <= 10)
  /\ (~ 1 <= sc <= 10 ->
      key_entry_in_range (get "title" (body request)) = true ->
      exists detail,
        ReviewViewSet_create request title_pk st
        = (Raise (ValidationError (JObj detail)), st)
        /\ get "score" detail = Some (JList [JStr "Проверьте оценку!"])).
Proof.
  intros Hu Hs.
  assert (Hiff : validate_score sc = Valid sc <-> 1 <= sc <= 10).
  { unfold validate_score.
    destruct ((1 <=? sc) && (sc <=? 10)) eqn:Hb; simpl.
    - apply andb_true_iff in Hb. destruct Hb as [H1 H2].
      apply Z.leb_le in H1. apply Z.leb_le in H2. split; [lia|reflexivity].
    - split; [discriminate|]. intros [H1 H2].
      apply Z.leb_le in H1. apply Z.leb_le in H2.
      rewrite H1, H2 in Hb. discriminate. }
  split; [exact Hiff|]. intros Hout Hov.
  apply (key_in_range_no_overflow (titles st)) in Hov.
  assert (Hbad : validate_score sc = Invalid ["Проверьте оценку!"]).
  { unfold validate_score in *.
    destruct ((1 <=? sc) && (sc <=? 10)); simpl in *; [|reflexivity].
    exfalso. apply Hout. now apply Hiff. }
  unfold ReviewViewSet_create, ReviewSerializer_is_valid,
    ReviewSerializer_to_internal_value.
  rewrite Hu, Hs. run_handler. rewrite Hov.
  cbn [IntegerField_run_validation validate_empty_values
       IntegerField_to_internal_value and_then].
  rewrite Hbad.
  pose proof (get_in_later_errors "score"
                (JList (map JStr ["Проверьте оценку!"])) "text" "title"
                (CharField_run_validation false text_field
                   (get "text" (body request)))
                (Title_by_id_run_validation false false (titles st)
                   (get "title" (body request)))
                eq_refl eq_refl) as Hget.
  change (field_errors "score" (Invalid ["Проверьте оценку!"]))
    with [("score", JList (map JStr ["Проверьте оценку!"]))].
  destruct (field_errors "text" _ ++ field_errors "title" _ ++ _)
    as [|e es] eqn:Herr.
  - destruct (CharField_run_validation false text_field
                (get "text" (body request)));
      destruct (Title_by_id_run_validation false false (titles st)
                  (get "title" (body request))); discriminate Herr.
  - exists (e :: es). split; [reflexivity|exact Hget].
Qed.

Lemma score_outside_range_rejected_witness :
  user (Examples.alice_posts [("text", JStr "t"); ("score", JInt 11)])
  = Some Examples.alice
  /\ get "score"
       (body (Examples.alice_posts [("text", JStr "t"); ("score", JInt 11)]))
     = Some (JInt 11)
  /\ ~ 1 <= 11 <= 10
  /\ key_entry_in_range
       (get "title"
          (body (Examples.alice_posts
                   [("text", JStr "t"); ("score", JInt 11)])))
     = true
  /\ exists detail,
       ReviewViewSet_create
         (Examples.alice_posts [("text", JStr "t"); ("score", JInt 11)])
         1 Examples.unreviewed
       = (Raise (ValidationError (JObj detail)), Examples.unreviewed)
       /\ get "score" detail = Some (JList [JStr "Проверьте оценку!"]).
Proof.
  split; [reflexivity|]. split; [reflexivity|]. split; [lia|].
  split; [reflexivity|].
  apply (proj2 (score_outside_range_rejected
                  (Examples.alice_posts
                     [("text", JStr "t"); ("score", JInt 11)])
                  Examples.unreviewed Examples.alice 1 11
                  eq_refl eq_refl)); [lia|reflexivity].
Defined.

(** ** The reserved username *)

(** The username field on a value that trims to "me": an error, whatever
    the column's own validators say. *)
Lemma username_me_invalid (E : Externals) (partial : bool)
    (instance : option User) (us : list User) (s : string) :
  Py.strip s = "me" ->
  exists ms,
    and_then (CharField_run_validation partial (username_field E instance us)
                                       (Some (JStr s)))
             validate_username
    = Invalid ms.
Proof.
  intros Hs. unfold CharField_run_validation, is_blank. rewrite Hs.
  cbn [String.eqb Ascii.eqb Bool.eqb validate_empty_values
       CharField_to_internal_value]. simpl String.eqb. cbv iota.
  rewrite Hs. unfold checked.
  destruct (run_validators _ "me") as [|m ms].
  - simpl. eexists. reflexivity.
  - simpl. eexists. reflexivity.
Qed.



(** X3: a [PATCH /users/me] whose username trims to "me" raises a
    validation error on the username, for an admin as for anybody else,
    and leaves the store as it is. *)
Theorem me_rejects_username_me (E : Externals) (request : Request)
    (st : State) (caller : User) (s : string) :
  user request = Some caller -> method request = "PATCH" ->
  get "username" (body request) = Some (JStr s) -> Py.strip s = "me" ->
  exists detail ms,
    me E request st = (Raise (ValidationError (JObj detail)), st)
    /\ get "username" detail = Some (JList ms).
Proof.
  intros Hu Hm Hn Hs. unfold me. rewrite Hu, Hm.
  change ("PATCH" =? "PATCH")%string with true. cbv iota.
  run_handler. unfold UserSerializer_to_internal_value. rewrite Hn.
  destruct (username_me_invalid E true (Some caller) (users st) s Hs)
    as [ms Hms].
  rewrite Hms.
  change (field_errors "username" (Invalid ms))
    with [("username", JList (map JStr ms))].
  cbn [app].
  destruct (is_admin E caller); eexists; eexists;
    (split; [reflexivity|apply (f_equal Some); reflexivity]).
Qed.

Lemma me_rejects_username_me_witness :
  user (Examples.patch_me Examples.root [("username", JStr "me")])
  = Some Examples.root
  /\ method (Examples.patch_me Examples.root [("username", JStr "me")])
     = "PATCH"
  /\ get "username"
       (body (Examples.patch_me Examples.root [("username", JStr "me")]))
     = Some (JStr "me")
  /\ Py.strip "me" = "me"
  /\ exists detail ms,
       me Examples.spec_externals
          (Examples.patch_me Examples.root [("username", JStr "me")])
          (Examples.catalogue 4 8)
       = (Raise (ValidationError (JObj detail)), Examples.catalogue 4 8)
       /\ get "username" detail = Some (JList ms).
Proof.
  split; [reflexivity|]. split; [reflexivity|]. split; [reflexivity|].
  split; [reflexivity|].
  exact (me_rejects_username_me Examples.spec_externals
           (Examples.patch_me Examples.root [("username", JStr "me")])
           (Examples.catalogue 4 8) Examples.root "me"
           eq_refl eq_refl eq_refl eq_refl).
Defined.

(** ** New accounts *)

Lemma fold_max_bounds (ids : list Z) (x : Z) :
  In x ids -> x <= fold_right Z.max 0 ids.
Proof.
  induction ids as [|a ids IH]; intros Hin; simpl in *.
  - contradiction.
  - destruct Hin as [->|Hin]; [lia|]. specialize (IH Hin). lia.
Qed.

(** The next primary key is above every key in use. *)
Lemma next_id_fresh (ids : list Z) (x : Z) : In x ids -> x < next_id ids.
Proof.
  intros Hin. unfold next_id. pose proof (fold_max_bounds ids x Hin). lia.
Qed.

Lemma no_row_with_next_id {A} (key : A -> Z) (l : list A) :
  existsb (fun x => key x =? next_id (map key l)) l = false.
Proof.
  destruct (existsb _ l) eqn:Hex; [|reflexivity].
  apply existsb_exists in Hex. destruct Hex as [x [Hin Hk]].
  apply Z.eqb_eq in Hk.
  pose proof (next_id_fresh (map key l) (key x) (in_map key l x Hin)). lia.
Qed.

Lemma username_free (exclude : option User) (us : list User) (n : string) :
  (forall u, In u us -> username u <> n) ->
  username_taken exclude us n = false.
Proof.
  intros Hfree. unfold username_taken.
  destruct (existsb _ us) eqn:Hex; [|reflexivity].
  apply existsb_exists in Hex. destruct Hex as [x [Hin Hc]].
  apply andb_true_iff in Hc. destruct Hc as [Hn _].
  apply String.eqb_eq in Hn. exfalso. now apply (Hfree x).
Qed.

Lemma filter_username_free (us : list User) (n : string) :
  (forall u, In u us -> username u <> n) ->
  filter (fun x => String.eqb (username x) n) us = [].
Proof.
  intros Hfree. apply filter_none. intros x Hx.
  apply String.eqb_neq. now apply Hfree.
Qed.

(** The run of a sign-up for a username nobody carries. *)
Lemma signup_new_account_run (E : Externals) (request : Request)
    (st : State) (n e : string) :
  get "username" (body request) = Some (JStr n) ->
  get "email" (body request) = Some (JStr e) ->
  well_formed_username E n -> well_formed_email E e ->
  (forall u, In u (users st) -> username u <> n) ->
  exists u st',
    SignUpViewSet_create E request st
    = (Ok (mkResponse HTTP_200_OK
             (JObj [("email", JStr e); ("username", JStr n)])), st')
    /\ users st' = users st ++ [u]
    /\ username u = n /\ email u = e /\ role u = default_role E
    /\ confirmation_code u = default_confirmation_code E st
    /\ (forall v, In v (users st) -> user_id v <> user_id u)
    /\ outbox st' = outbox st ++ [confirmation_mail u (JStr e)].
Proof.
  intros Hn He Hwu Hwe Hfree.
  exists (mkUser (next_id (map user_id (users st))) n e (default_role E)
                 "" "" "" (default_confirmation_code E st)).
  unfold SignUpViewSet_create. unfold bind at 1. unfold read at 1.
  rewrite Hn, He. unfold User_filter. cbn [lookup_text Py.str_of_scalar].
  rewrite filter_none.
  2:{ intros x Hx. apply andb_false_iff. left. apply String.eqb_neq.
      now apply Hfree. }
  unfold bind at 1. unfold ret at 1.
  unfold SignUpSerializer_to_internal_value. rewrite Hn, He.
  rewrite (signup_username_field E None (users st) n Hwu).
  rewrite (username_free None (users st) n Hfree).
  unfold well_formed_email in Hwe. rewrite Hwe.
  cbn [field_errors app field_value].
  unfold SignUpSerializer_save, User_objects_create, User_save.
  cbn [vd_username vd_email or_keep].
  unfold User_by_username. cbn [lookup_text Py.str_of_scalar].
  run_handler. cbn [username user_id].
  rewrite (username_free (Some _) (users st) n Hfree).
  rewrite (no_row_with_next_id user_id (users st)).
  cbn [users set_users]. rewrite filter_app.
  rewrite (filter_username_free (users st) n Hfree).
  cbn [filter app username]. rewrite String.eqb_refl.
  cbn [QuerySet_get].
  eexists. split; [reflexivity|]. split; [reflexivity|].
  split; [reflexivity|]. split; [reflexivity|]. split; [reflexivity|].
  split; [reflexivity|]. split; [|reflexivity].
  intros v Hv. cbn [user_id].
  pose proof (next_id_fresh _ _ (in_map user_id _ v Hv)). lia.
Qed.

(** X4: a sign-up with a well-formed username that no account carries
    and a well-formed email answers 200 with the pair, adds exactly one
    account (that username and email, the default role, the default
    confirmation code, a primary key no other account has), and mails
    that account's confirmation code to the address. *)
Theorem signup_creates_account (E : Externals) (request : Request)
    (st : State) (n e : string) :
  get "username" (body request) = Some (JStr n) ->
  get "email" (body request) = Some (JStr e) ->
  well_formed_username E n -> well_formed_email E e ->
  (forall u, In u (users st) -> username u <> n) ->
  exists u st',
    SignUpViewSet_create E request st
    = (Ok (mkResponse HTTP_200_OK
             (JObj [("email", JStr e); ("username", JStr n)])), st')
    /\ users st' = users st ++ [u]
    /\ username u = n /\ email u = e /\ role u = default_role E
    /\ confirmation_code u = default_confirmation_code E st
    /\ (forall v, In v (users st) -> user_id v <> user_id u)
    /\ outbox st' = outbox st ++ [confirmation_mail u (JStr e)].
Proof.
  intros Hn He Hwu Hwe Hfree.
  exact (signup_new_account_run E request st n e Hn He Hwu Hwe Hfree).
Qed.

Lemma signup_creates_account_witness :
  get "username" (body (Examples.signup_request "carol" "carol@example.com"))
  = Some (JStr "carol")
  /\ get "email" (body (Examples.signup_request "carol" "carol@example.com"))
     = Some (JStr "carol@example.com")
  /\ well_formed_username Examples.spec_externals "carol"
  /\ well_formed_email Examples.spec_externals "carol@example.com"
  /\ (forall u, In u (users (Examples.catalogue 4 8)) -> username u <> "carol")
  /\ exists u st',
       SignUpViewSet_create Examples.spec_externals
         (Examples.signup_request "carol" "carol@example.com")
         (Examples.catalogue 4 8)
       = (Ok (mkResponse HTTP_200_OK
                (JObj [("email", JStr "carol@example.com");
                       ("username", JStr "carol")])), st')
       /\ users st' = users (Examples.catalogue 4 8) ++ [u]
       /\ username u = "carol".
Proof.
  assert (Hwu : well_formed_username Examples.spec_externals "carol")
    by (split; [reflexivity|discriminate]).
  assert (Hwe : well_formed_email Examples.spec_externals "carol@example.com")
    by reflexivity.
  assert (Hfree : forall u, In u (users (Examples.catalogue 4 8)) ->
                            username u <> "carol").
  { intros u [<-|[<-|[<-|[]]]]; discriminate. }
  split; [reflexivity|]. split; [reflexivity|]. split; [exact Hwu|].
  split; [exact Hwe|]. split; [exact Hfree|].
  destruct (signup_creates_account Examples.spec_externals
              (Examples.signup_request "carol" "carol@example.com")
              (Examples.catalogue 4 8) "carol" "carol@example.com"
              eq_refl eq_refl Hwu Hwe Hfree)
    as [u [st' [Hrun [Hus [Hname _]]]]].
  exists u, st'. split; [exact Hrun|]. split; [exact Hus|exact Hname].
Defined.

(** ** Accounts stay distinct *)

Lemma NoDup_snoc {A} (l : list A) (x : A) :
  NoDup l -> ~ In x l -> NoDup (l ++ [x]).
Proof.
  intros Hnd Hx. induction l as [|a l IH]; simpl.
  - constructor; [intros []|constructor].
  - inversion Hnd as [|? ? Ha Hl]; subst. constructor.
    + intros Hin. apply in_app_or in Hin. destruct Hin as [Hin|[->|[]]].
      * contradiction.
      * apply Hx. now left.
    + apply IH; [exact Hl|]. intros Hin. apply Hx. now right.
Qed.

Lemma replace_keeps_ids (u : User) (us : list User) :
  map user_id (map (replace_user u) us) = map user_id us.
Proof.
  rewrite map_map. apply map_ext. intros x. unfold replace_user.
  destruct (user_id x =? user_id u) eqn:Hk; [|reflexivity].
  apply Z.eqb_eq in Hk. now symmetry.
Qed.

Lemma not_taken (u : User) (us : list User) (x : User) :
  username_taken (Some u) us (username u) = false ->
  In x us -> username x = username u -> user_id x = user_id u.
Proof.
  unfold username_taken. intros Hfree Hin Hname.
  destruct (Z.eq_dec (user_id x) (user_id u)) as [Heq|Hne]; [exact Heq|].
  exfalso.
  assert (Hex : existsb (fun y => String.eqb (username y) (username u)
                                  && negb (user_id y =? user_id u)) us
                = true).
  { apply existsb_exists. exists x. split; [exact Hin|].
    rewrite Hname, String.eqb_refl. simpl. apply negb_true_iff.
    now apply Z.eqb_neq. }
  rewrite Hex in Hfree. discriminate.
Qed.

Lemma replace_keeps_usernames_distinct (u : User) (us : list User) :
  NoDup (map user_id us) -> NoDup (map username us) ->
  username_taken (Some u) us (username u) = false ->
  NoDup (map username (map (replace_user u) us)).
Proof.
  intros Hid Hname Hfree.
  assert (Hown : forall x, In x us -> username x = username u ->
                           user_id x = user_id u)
    by (intros x; apply not_taken; exact Hfree).
  clear Hfree. induction us as [|a rest IH]; simpl.
  - constructor.
  - inversion Hid as [|? ? Hida Hidr]; subst.
    inversion Hname as [|? ? Hna Hnr]; subst.
    constructor.
    + intros Hin. apply in_map_iff in Hin. destruct Hin as [y [Hy Hyin]].
      apply in_map_iff in Hyin. destruct Hyin as [x [Hx Hxin]]. subst y.
      unfold replace_user in Hy.
      destruct (user_id a =? user_id u) eqn:Ha;
        destruct (user_id x =? user_id u) eqn:Hxu.
      * apply Z.eqb_eq in Ha. apply Z.eqb_eq in Hxu.
        apply Hida. rewrite Ha, <- Hxu. now apply in_map.
      * apply Z.eqb_neq in Hxu. apply Hxu.
        apply Hown; [now right|exact Hy].
      * apply Z.eqb_neq in Ha. apply Ha.
        apply Hown; [now left|now symmetry].
      * apply Hna. rewrite <- Hy. now apply in_map.
    + apply IH; try assumption.
      intros x Hx. apply Hown. now right.
Qed.

(** [user.save()] keeps primary keys and usernames distinct, whether it
    updates, inserts or is refused. *)
Lemma User_save_distinct (u : User) (st st' : State) (out : Result unit) :
  accounts_distinct st -> User_save u st = (out, st') ->
  accounts_distinct st'.
Proof.
  intros [Hid Hname]. unfold User_save. run_handler.
  destruct (username_taken (Some u) (users st) (username u)) eqn:Hfree.
  - intros H; inversion H; subst. now split.
  - destruct (existsb (fun x => user_id x =? user_id u) (users st)) eqn:Hex;
      intros H; inversion H; subst; unfold accounts_distinct; simpl.
    + split.
      * now rewrite replace_keeps_ids.
      * now apply replace_keeps_usernames_distinct.
    + rewrite !map_app. simpl. split; apply NoDup_snoc; try assumption.
      * intros Hin. apply in_map_iff in Hin. destruct Hin as [x [Hx Hxin]].
        assert (Hy : existsb (fun y => user_id y =? user_id u) (users st)
                     = true).
        { apply existsb_exists. exists x. split; [exact Hxin|].
          now apply Z.eqb_eq. }
        rewrite Hy in Hex. discriminate.
      * intros Hin. apply in_map_iff in Hin. destruct Hin as [x [Hx Hxin]].
        pose proof (not_taken u (users st) x Hfree Hxin Hx) as Hsame.
        assert (Hy : existsb (fun y => user_id y =? user_id u) (users st)
                     = true).
        { apply existsb_exists. exists x. split; [exact Hxin|].
          now apply Z.eqb_eq. }
        rewrite Hy in Hex. discriminate.
Qed.

(** X6: sign-up and the self-profile edit keep the accounts distinct: if
    no two accounts share a primary key or a username before the call,
    none do after it, whatever the request and however the call ends. *)
Theorem accounts_stay_distinct (E : Externals) (request : Request)
    (st : State) :
  accounts_distinct st ->
  accounts_distinct (snd (SignUpViewSet_create E request st))
  /\ accounts_distinct (snd (me E request st)).
Proof.
  intros Hd. split.
  - unfold SignUpViewSet_create, SignUpSerializer_save,
      UserSerializer_save_update, User_objects_create, send_mail.
    run_handler.
    destruct (User_filter _ _ st) as [|x xs].
    + destruct (SignUpSerializer_to_internal_value E None (users st)
                  (body request)) as [validated|[]]; try exact Hd.
      destruct (User_save _ st) as [[[]|e] st1] eqn:Hsave;
        pose proof (User_save_distinct _ _ _ _ Hd Hsave) as Hd1;
        [|exact Hd1].
      destruct (QuerySet_get _) as [u|e]; exact Hd1.
    + destruct (QuerySet_get (User_by_username _ st)) as [u|e];
        [|exact Hd].
      destruct (SignUpSerializer_to_internal_value E (Some u) (users st)
                  (body request)) as [validated|[]]; try exact Hd.
      destruct (User_save _ st) as [[[]|e] st1] eqn:Hsave;
        pose proof (User_save_distinct _ _ _ _ Hd Hsave) as Hd1;
        [|exact Hd1].
      destruct (QuerySet_get _) as [u'|e]; exact Hd1.
  - unfold me, UserSerializer_save_update. run_handler.
    destruct (user request) as [caller|]; [|exact Hd].
    destruct (String.eqb (method request) "PATCH"); [|exact Hd].
    destruct (if is_admin E caller then _ else _) as [validated|e];
      [|exact Hd].
    destruct (User_save _ st) as [[[]|e] st1] eqn:Hsave;
      exact (User_save_distinct _ _ _ _ Hd Hsave).
Qed.

Lemma accounts_stay_distinct_witness :
  accounts_distinct (Examples.catalogue 4 8)
  /\ accounts_distinct
       (snd (SignUpViewSet_create Examples.spec_externals
               (Examples.signup_request "carol" "carol@example.com")
               (Examples.catalogue 4 8)))
  /\ accounts_distinct
       (snd (me Examples.spec_externals
               (Examples.patch_me Examples.alice [("username", JStr "bob")])
               (Examples.catalogue 4 8))).
Proof.
  assert (Hd : accounts_distinct (Examples.catalogue 4 8)).
  { split; simpl; repeat constructor; simpl; intuition discriminate. }
  split; [exact Hd|]. split.
  - exact (proj1 (accounts_stay_distinct Examples.spec_externals
                    (Examples.signup_request "carol" "carol@example.com")
                    (Examples.catalogue 4 8) Hd)).
  - exact (proj2 (accounts_stay_distinct Examples.spec_externals
                    (Examples.patch_me Examples.alice
                       [("username", JStr "bob")])
                    (Examples.catalogue 4 8) Hd)).
Defined.

(** ** Signing up twice *)

(** The run of a sign-up that repeats the username and email of a stored
    account. *)
Lemma signup_again_run (E : Externals) (request : Request) (st : State)
    (u : User) :
  accounts_distinct st -> In u (users st) ->
  well_formed_username E (username u) -> well_formed_email E (email u) ->
  get "username" (body request) = Some (JStr (username u)) ->
  get "email" (body request) = Some (JStr (email u)) ->
  SignUpViewSet_create E request st
  = (Ok (mkResponse HTTP_200_OK
           (JObj [("email", JStr (email u));
                  ("username", JStr (username u))])),
     set_outbox (outbox st ++ [confirmation_mail u (JStr (email u))]) st).
Proof.
  intros [Hid Hname] Hin Hwu Hwe Hau Hae.
  unfold SignUpViewSet_create. unfold bind at 1. unfold read at 1.
  rewrite Hau, Hae.
  destruct (User_filter_finds st u Hin) as [x [xs ->]].
  unfold User_by_username. cbn [lookup_text Py.str_of_scalar].
  pose proof (filter_unique_key username String.eqb _ u Seqb_iff Hname Hin)
    as Hget.
  unfold bind at 1. unfold bind at 1. unfold lift at 1. rewrite Hget.
  cbn [QuerySet_get]. unfold ret at 1.
  unfold SignUpSerializer_to_internal_value. rewrite Hau, Hae.
  rewrite (signup_username_field E (Some u) (users st) _ Hwu).
  rewrite (username_taken_own _ u Hname Hin).
  unfold well_formed_email in Hwe. rewrite Hwe.
  cbn [field_errors app field_value].
  unfold SignUpSerializer_save, UserSerializer_save_update.
  rewrite setattrs_same. run_handler.
  rewrite (User_save_unchanged st u Hid Hname Hin).
  rewrite Hget. cbn [QuerySet_get]. reflexivity.
Qed.

(** X5: signing up twice with the same well-formed pair, starting from a
    store where the username is free: both calls give the same 200 answer;
    the first adds one account, the second adds none and changes none; the
    outbox gains the same confirmation mail twice. *)
Theorem signup_twice (E : Externals) (request : Request) (st : State)
    (n e : string) :
  accounts_distinct st ->
  get "username" (body request) = Some (JStr n) ->
  get "email" (body request) = Some (JStr e) ->
  well_formed_username E n -> well_formed_email E e ->
  (forall u, In u (users st) -> username u <> n) ->
  exists resp u st1 st2,
    SignUpViewSet_create E request st = (Ok resp, st1)
    /\ SignUpViewSet_create E request st1 = (Ok resp, st2)
    /\ status_code resp = HTTP_200_OK
    /\ users st1 = users st ++ [u]
    /\ users st2 = users st1
    /\ outbox st2
       = outbox st ++ [confirmation_mail u (JStr e);
                       confirmation_mail u (JStr e)].
Proof.
  intros [Hid Hname] Hn He Hwu Hwe Hfree.
  destruct (signup_new_account_run E request st n e Hn He Hwu Hwe Hfree)
    as [u [st1 [Hrun [Hus [Hun [Hue [_ [_ [Hfresh Hout]]]]]]]]].
  assert (Hd1 : accounts_distinct st1).
  { unfold accounts_distinct. rewrite Hus, !map_app. simpl.
    split; apply NoDup_snoc; try assumption.
    - intros Hin. apply in_map_iff in Hin. destruct Hin as [v [Hv Hvin]].
      now apply (Hfresh v Hvin).
    - intros Hin. apply in_map_iff in Hin. destruct Hin as [v [Hv Hvin]].
      apply (Hfree v Hvin). now rewrite Hv. }
  assert (Hin1 : In u (users st1))
    by (rewrite Hus; apply in_or_app; right; now left).
  subst n e.
  pose proof (signup_again_run E request st1 u Hd1 Hin1 Hwu Hwe Hn He)
    as Hrun2.
  eexists. exists u, st1. eexists.
  split; [exact Hrun|]. split; [exact Hrun2|].
  split; [reflexivity|]. split; [exact Hus|]. split; [reflexivity|].
  simpl. rewrite Hout, <- app_assoc. reflexivity.
Qed.

Lemma signup_twice_witness :
  accounts_distinct (Examples.catalogue 4 8)
  /\ well_formed_username Examples.spec_externals "carol"
  /\ well_formed_email Examples.spec_externals "carol@example.com"
  /\ (forall u, In u (users (Examples.catalogue 4 8)) -> username u <> "carol")
  /\ exists resp u st1 st2,
       SignUpViewSet_create Examples.spec_externals
         (Examples.signup_request "carol" "carol@example.com")
         (Examples.catalogue 4 8) = (Ok resp, st1)
       /\ SignUpViewSet_create Examples.spec_externals
            (Examples.signup_request "carol" "carol@example.com") st1
          = (Ok resp, st2)
       /\ users st2 = users (Examples.catalogue 4 8) ++ [u].
Proof.
  assert (Hd : accounts_distinct (Examples.catalogue 4 8)).
  { split; simpl; repeat constructor; simpl; intuition discriminate. }
  assert (Hwu : well_formed_username Examples.spec_externals "carol")
    by (split; [reflexivity|discriminate]).
  assert (Hwe : well_formed_email Examples.spec_externals "carol@example.com")
    by reflexivity.
  assert (Hfree : forall u, In u (users (Examples.catalogue 4 8)) ->
                            username u <> "carol").
  { intros u [<-|[<-|[<-|[]]]]; discriminate. }
  split; [exact Hd|]. split; [exact Hwu|]. split; [exact Hwe|].
  split; [exact Hfree|].
  destruct (signup_twice Examples.spec_externals
              (Examples.signup_request "carol" "carol@example.com")
              (Examples.catalogue 4 8) "carol" "carol@example.com"
              Hd eq_refl eq_refl Hwu Hwe Hfree)
    as [resp [u [st1 [st2 [H1 [H2 [_ [Hus1 [Hus2 _]]]]]]]]].
  exists resp, u, st1, st2. split; [exact H1|]. split; [exact H2|].
  now rewrite Hus2.
Defined.

(** ** Creating reviews *)

Lemma get_object_or_404_ok {A} (l : list A) (x : A) :
  get_object_or_404 l = Ok x -> l = [x].
Proof.
  unfold get_object_or_404, QuerySet_get.
  destruct l as [|a [|b l]]; intros H; try discriminate.
  now inversion H.
Qed.

Lemma get_by_key_or_404_ok {A} (l : list A) (k : Z) (x : A) :
  get_by_key_or_404 l k = Ok x -> l = [x].
Proof.
  unfold get_by_key_or_404. destruct l as [|a l].
  - destruct (in_int64 k); discriminate.
  - apply get_object_or_404_ok.
Qed.

Lemma filter_singleton {A} (p : A -> bool) (l : list A) (x : A) :
  filter p l = [x] -> In x l /\ p x = true.
Proof.
  intros H. apply filter_In. rewrite H. now left.
Qed.

Lemma validated_score_in_range (r : FieldResult Z) (sc : Z) :
  field_value (and_then r validate_score) = Some sc -> 1 <= sc <= 10.
Proof.
  destruct r as [v| |ms]; simpl; try discriminate.
  unfold validate_score.
  destruct ((1 <=? v) && (v <=? 10)) eqn:Hb; simpl; [|discriminate].
  intros H; inversion H; subst.
  apply andb_true_iff in Hb. destruct Hb as [H1 H2].
  apply Z.leb_le in H1. apply Z.leb_le in H2. lia.
Qed.

Lemma review_fields_score (partial : bool) (st : State) (d : Data)
    (fields : ReviewData) (sc : Z) :
  ReviewSerializer_to_internal_value partial st d = Ok fields ->
  vd_score fields = Some sc -> 1 <= sc <= 10.
Proof.
  unfold ReviewSerializer_to_internal_value.
  destruct (Title_by_id_overflows _ _); [discriminate|].
  destruct (field_errors "text" _ ++ _); [|discriminate].
  intros H; inversion H; subst; simpl.
  apply validated_score_in_range.
Qed.

Ltac ends_raised :=
  let H := fresh in
  intros H; inversion H; left; split; [reflexivity|now eexists].

Ltac review_create_tail caller fields :=
  let Hget := fresh "Hget" in
  let Hpk := fresh "Hpk" in
  let H := fresh in
  destruct (get_by_key_or_404 _ _) as [title|e] eqn:Hget; [|ends_raised];
  apply get_by_key_or_404_ok in Hget;
  destruct (filter_singleton _ _ _ Hget) as [_ Hpk];
  apply Z.eqb_eq in Hpk;
  destruct (vd_text fields) as [text|] eqn:Ht; [|ends_raised];
  destruct (vd_score fields) as [sc|] eqn:Hs; [|ends_raised];
  rewrite Hpk;
  destruct (existsb _ _) eqn:Hdup2; intros H; inversion H; subst;
  [ left; split; [reflexivity|now eexists]
  | right; exists caller, fields, title, text, sc;
    repeat (split; [first [reflexivity|assumption]|]); reflexivity ].

(** How a review create ends: either with an exception and the store as
    it was, or with a 201 and one more review, built from the validated
    text and score, the caller, the title of the URL and the clock. *)
Lemma review_create_outcome (request : Request) (title_pk : Z)
    (st st' : State) (out : Result Response) :
  ReviewViewSet_create request title_pk st = (out, st') ->
  (st' = st /\ exists e, out = Raise e)
  \/ exists caller fields title text sc,
       user request = Some caller
       /\ ReviewSerializer_to_internal_value false st (body request)
          = Ok fields
       /\ vd_text fields = Some text /\ vd_score fields = Some sc
       /\ filter (fun t => title_id t =? title_pk) (titles st) = [title]
       /\ existsb (same_title_author title_pk (user_id caller)) (reviews st)
          = false
       /\ st' = set_reviews
                  (reviews st
                   ++ [mkReview (next_id (map review_id (reviews st)))
                                title_pk sc text (user_id caller) (now st)])
                  st
       /\ out = Ok (mkResponse HTTP_201_CREATED
                      (ReviewSerializer_data st' caller
                         (mkReview (next_id (map review_id (reviews st)))
                                   title_pk sc text (user_id caller)
                                   (now st)))).
Proof.
  unfold ReviewViewSet_create, ReviewSerializer_is_valid,
    ReviewSerializer_validate, Review_exists, perform_create,
    ReviewSerializer_save_create, Review_objects_create.
  run_handler.
  destruct (user request) as [caller|]; [|ends_raised].
  destruct (ReviewSerializer_to_internal_value false st (body request))
    as [fields|e] eqn:Hfields; [|ends_raised].
  destruct (negb (method request =? "POST")%string); cbn beta iota.
  - review_create_tail caller fields.
  - destruct (existsb (same_title_author title_pk (user_id caller))
                      (reviews st)) eqn:Hdup; cbn beta iota.
    + ends_raised.
    + destruct (in_int64 title_pk); cbn beta iota; [|ends_raised].
      review_create_tail caller fields.
Qed.

Lemma title_reviews_after_create (st : State) (r : Review) (pk : Z) :
  title_reviews (set_reviews (reviews st ++ [r]) st) pk
  = title_reviews st pk ++ (if review_title r =? pk then [r] else []).
Proof.
  unfold title_reviews. simpl. rewrite filter_app. reflexivity.
Qed.

Lemma insert_by_pub_date_In (r x : Review) (l : list Review) :
  In x (insert_by_pub_date r l) <-> x = r \/ In x l.
Proof.
  induction l as [|a l IH]; simpl.
  - intuition.
  - destruct (review_pub_date a <? review_pub_date r); simpl.
    + intuition.
    + rewrite IH. intuition.
Qed.

(** Ordering a list of reviews keeps exactly its elements. *)
Lemma order_by_pub_date_desc_In (x : Review) (l : list Review) :
  In x (order_by_pub_date_desc l) <-> In x l.
Proof.
  induction l as [|a l IH]; simpl.
  - reflexivity.
  - rewrite insert_by_pub_date_In, IH. intuition.
Qed.

(** X7: when a review create succeeds, exactly one review is added; its
    title is the one of the URL (which is a stored title), whatever title
    the body names; its score lies in 1..10; its date is the clock's; its
    primary key is above every earlier one.  The review then shows in the
    query set of that title, and the reviews of every other title are as
    before. *)
Theorem review_create_lands_under_title (request : Request)
    (title_pk : Z) (st st' : State) (resp : Response) :
  ReviewViewSet_create request title_pk st = (Ok resp, st') ->
  exists r,
    reviews st' = reviews st ++ [r]
    /\ review_title r = title_pk
    /\ (exists t, In t (titles st) /\ title_id t = title_pk)
    /\ 1 <= score r <= 10
    /\ review_pub_date r = now st
    /\ (forall x, In x (reviews st) -> review_id x < review_id r)
    /\ (exists l, ReviewViewSet_get_queryset title_pk st' = (Ok l, st')
                  /\ In r l)
    /\ (forall other, other <> title_pk ->
          title_reviews st' other = title_reviews st other).
Proof.
  intros Hrun.
  destruct (review_create_outcome request title_pk st st' (Ok resp) Hrun)
    as [[_ [e He]]|Hok]; [discriminate He|].
  destruct Hok as [caller [fields [title [text [sc
    [Hu [Hf [Ht [Hs [Htitle [Hdup [Hst _]]]]]]]]]]]].
  eexists. split; [rewrite Hst; reflexivity|].
  split; [reflexivity|].
  destruct (filter_singleton _ _ _ Htitle) as [Hin Hpk].
  apply Z.eqb_eq in Hpk.
  split; [now exists title|].
  split; [exact (review_fields_score _ _ _ _ _ Hf Hs)|].
  split; [reflexivity|].
  split.
  { intros x Hx. simpl.
    apply next_id_fresh. now apply in_map. }
  split.
  - unfold ReviewViewSet_get_queryset. run_handler.
    rewrite Hst. cbn [titles set_reviews]. rewrite Htitle.
    cbn [get_by_key_or_404 get_object_or_404 QuerySet_get].
    eexists. split; [reflexivity|].
    apply order_by_pub_date_desc_In. rewrite Hpk.
    rewrite title_reviews_after_create. cbn [review_title].
    rewrite Z.eqb_refl. apply in_or_app. right. now left.
  - intros other Hne. rewrite Hst, title_reviews_after_create.
    cbn [review_title].
    replace (title_pk =? other) with false
      by (symmetry; apply Z.eqb_neq; congruence).
    apply app_nil_r.
Qed.

Lemma review_create_lands_under_title_witness :
  exists resp st' r,
    ReviewViewSet_create
      (Examples.alice_posts
         [("text", JStr "t"); ("score", JInt 7); ("title", JInt 1)])
      1 Examples.unreviewed = (Ok resp, st')
    /\ reviews st' = reviews Examples.unreviewed ++ [r]
    /\ review_title r = 1
    /\ 1 <= score r <= 10.
Proof.
  destruct (ReviewViewSet_create
              (Examples.alice_posts
                 [("text", JStr "t"); ("score", JInt 7); ("title", JInt 1)])
              1 Examples.unreviewed) as [[resp|e] st'] eqn:Hrun.
  - destruct (review_create_lands_under_title _ _ _ _ _ Hrun)
      as [r [Hr [Ht [_ [Hs _]]]]].
    exists resp, st', r. split; [reflexivity|]. split; [exact Hr|].
    split; [exact Ht|exact Hs].
  - vm_compute in Hrun. discriminate Hrun.
Defined.

(** X8: a review create keeps the reviews distinct: if no two reviews
    share a primary key, or a title and an author, before the call, none
    do after it, for every request and every method (the store refuses the
    duplicate even where the serializer does not look). *)
Theorem reviews_stay_distinct (request : Request) (title_pk : Z)
    (st : State) :
  reviews_distinct st ->
  reviews_distinct (snd (ReviewViewSet_create request title_pk st)).
Proof.
  intros [Hid Hpair].
  destruct (ReviewViewSet_create request title_pk st) as [out st'] eqn:Hrun.
  destruct (review_create_outcome request title_pk st st' out Hrun)
    as [[-> _]|Hok]; [now split|].
  destruct Hok as [caller [fields [title [text [sc
    [_ [_ [_ [_ [_ [Hdup [Hst _]]]]]]]]]]]].
  simpl. rewrite Hst. unfold reviews_distinct. cbn [reviews set_reviews].
  rewrite !map_app. simpl. split; apply NoDup_snoc; try assumption.
  - intros Hin. apply in_map_iff in Hin. destruct Hin as [x [Hx Hxin]].
    pose proof (next_id_fresh _ _ (in_map review_id _ x Hxin)). lia.
  - intros Hin. apply in_map_iff in Hin. destruct Hin as [x [Hx Hxin]].
    unfold title_author in Hx. simpl in Hx. inversion Hx as [[H1 H2]].
    assert (Hex : existsb (same_title_author title_pk (user_id caller))
                          (reviews st) = true).
    { apply existsb_exists. exists x. split; [exact Hxin|].
      unfold same_title_author. now rewrite H1, H2, !Z.eqb_refl. }
    rewrite Hex in Hdup. discriminate.
Qed.

Lemma reviews_stay_distinct_witness :
  reviews_distinct (Examples.catalogue 4 8)
  /\ reviews_distinct
       (snd (ReviewViewSet_create
               (mkRequest "PUT" (Some Examples.alice) Examples.plain_review)
               1 (Examples.catalogue 4 8))).
Proof.
  assert (Hd : reviews_distinct (Examples.catalogue 4 8)).
  { split; simpl; repeat constructor; simpl; intuition discriminate. }
  split; [exact Hd|].
  exact (reviews_stay_distinct
           (mkRequest "PUT" (Some Examples.alice) Examples.plain_review)
           1 (Examples.catalogue 4 8) Hd).
Defined.



(** ** Creating a review, then reading the title *)

Lemma filter_map_swap {A B} (f : A -> B) (p : B -> bool) (l : list A) :
  filter p (map f l) = map f (filter (fun x => p (f x)) l).
Proof.
  induction l as [|a l IH]; simpl; [reflexivity|].
  destruct (p (f a)); simpl; now rewrite IH.
Qed.

(** Reading a title whose primary key selects exactly one row. *)
Lemma retrieve_single (request : Request) (st : State) (pk : Z) (t : Title) :
  filter (fun x => title_id x =? pk) (titles st) = [t] ->
  TitleViewSet_retrieve request pk st
  = (Ok (mkResponse HTTP_200_OK
           (TitleOnlyReadSerializer_data st
              (mkAnnotated t (Avg (title_scores st (title_id t)))))), st).
Proof.
  intros Hf. unfold TitleViewSet_retrieve, TitleViewSet_queryset.
  run_handler.
  rewrite (filter_map_swap
             (fun t0 => mkAnnotated t0
                (Avg (map score (title_reviews st (title_id t0)))))
             (fun a => title_id (annotated a) =? pk)).
  cbn [annotated]. rewrite Hf. reflexivity.
Qed.

Lemma Sum_app (l1 l2 : list Z) : Sum (l1 ++ l2) = Sum l1 + Sum l2.
Proof.
  induction l1 as [|a l1 IH]; simpl; [reflexivity|].
  change (Sum (a :: l1 ++ l2)) with (a + Sum (l1 ++ l2)).
  change (Sum (a :: l1)) with (a + Sum l1). rewrite IH. lia.
Qed.

Lemma Avg_snoc (l : list Z) (x : Z) :
  Avg (l ++ [x])
  = Some (Qmake (Sum l + x) (Z.to_pos (Z.of_nat (List.length l) + 1))).
Proof.
  destruct (l ++ [x]) as [|a l'] eqn:Hl.
  - destruct l; discriminate Hl.
  - rewrite Avg_cons, <- Hl, Sum_app, length_app. simpl List.length.
    rewrite Nat2Z.inj_add. do 3 f_equal. unfold Sum. simpl. lia.
Qed.

(** X10: after a successful review create on a title whose stored
    scores lie in 1..10, the scores of the title are the earlier ones
    followed by the new one, which lies in 1..10 as well, and a read of
    the title shows the rating recomputed over them: the sum of the
    earlier scores and the new score, divided (toward zero) by their
    number. *)
Theorem rating_follows_new_review (request reader : Request)
    (title_pk : Z) (st st' : State) (resp : Response) :
  (forall s, In s (title_scores st title_pk) -> 1 <= s <= 10) ->
  ReviewViewSet_create request title_pk st = (Ok resp, st') ->
  exists sc,
    field "score" (data resp) = Some (JInt sc)
    /\ 1 <= sc <= 10
    /\ title_scores st' title_pk = title_scores st title_pk ++ [sc]
    /\ read_rating reader st' title_pk
       = Some (JInt (Z.quot (Sum (title_scores st title_pk) + sc)
                            (Z.of_nat (List.length (title_scores st title_pk))
                             + 1))).
Proof.
  intros _ Hrun.
  destruct (review_create_outcome request title_pk st st' (Ok resp) Hrun)
    as [[_ [e He]]|Hok]; [discriminate He|].
  destruct Hok as [caller [fields [title [text [sc
    [Hu [Hf [Ht [Hs [Htitle [Hdup [Hst Hout]]]]]]]]]]]].
  exists sc. inversion Hout as [Hresp]. clear Hout Hresp.
  assert (Hscores : title_scores st' title_pk
                    = title_scores st title_pk ++ [sc]).
  { unfold title_scores. rewrite Hst, title_reviews_after_create.
    cbn [review_title]. rewrite Z.eqb_refl, map_app. reflexivity. }
  split; [reflexivity|].
  split; [exact (review_fields_score _ _ _ _ _ Hf Hs)|].
  split; [exact Hscores|].
  destruct (filter_singleton _ _ _ Htitle) as [_ Hpk].
  apply Z.eqb_eq in Hpk.
  assert (Htitle' : filter (fun x => title_id x =? title_pk) (titles st')
                    = [title]) by (rewrite Hst; exact Htitle).
  unfold read_rating. rewrite (retrieve_single reader st' title_pk title Htitle').
  simpl fst.
  cbn [data field get TitleOnlyReadSerializer_data String.eqb
       Ascii.eqb Bool.eqb rating nullable].
  rewrite Hpk, Hscores, Avg_snoc. cbn [nullable].
  unfold IntegerField_to_representation, int_of_number. cbn [Qnum Qden].
  rewrite Z2Pos.id by lia. reflexivity.
Qed.

Lemma rating_follows_new_review_witness :
  (forall s, In s (title_scores (Examples.catalogue 4 8) 1) -> 1 <= s <= 10)
  /\ exists resp st',
    ReviewViewSet_create
      (mkRequest "POST" (Some Examples.root)
                 [("text", JStr "t"); ("score", JInt 9)])
      1 (Examples.catalogue 4 8) = (Ok resp, st')
    /\ title_scores st' 1 = [4; 8; 9]
    /\ read_rating (Examples.anonymous "GET" []) st' 1 = Some (JInt 7).
Proof.
  assert (Hb : forall s, In s (title_scores (Examples.catalogue 4 8) 1) ->
                         1 <= s <= 10).
  { simpl. intros s [<-|[<-|[]]]; lia. }
  split; [exact Hb|].
  destruct (ReviewViewSet_create
              (mkRequest "POST" (Some Examples.root)
                         [("text", JStr "t"); ("score", JInt 9)])
              1 (Examples.catalogue 4 8)) as [[resp|e] st'] eqn:Hrun.
  - destruct (rating_follows_new_review _ (Examples.anonymous "GET" [])
                _ _ _ _ Hb Hrun) as [sc [Hsc [_ [Hscores Hread]]]].
    assert (Hnine : sc = 9).
    { vm_compute in Hrun. inversion Hrun; subst resp.
      simpl in Hsc. now inversion Hsc. }
    subst sc. exists resp, st'. split; [reflexivity|].
    split; [exact Hscores|exact Hread].
  - vm_compute in Hrun. discriminate Hrun.
Defined.

(** ** Editing one's own profile *)

(** In a partial update, a field the body does not name is not in the
    validated data. *)
Lemma partial_update_skips_absent (E : Externals) (role_read_only : bool)
    (instance : option User) (us : list User) (d : Data) (data : UserData) :
  UserSerializer_to_internal_value E role_read_only true instance us d
  = Ok data ->
  (get "username" d = None -> vd_username data = None)
  /\ (get "email" d = None -> vd_email data = None)
  /\ (get "first_name" d = None -> vd_first_name data = None)
  /\ (get "last_name" d = None -> vd_last_name data = None)
  /\ (get "bio" d = None -> vd_bio data = None).
Proof.
  unfold UserSerializer_to_internal_value.
  destruct (field_errors "username" _ ++ _); [|discriminate].
  intros H; inversion H; subst; clear H. cbn [vd_username vd_email
    vd_first_name vd_last_name vd_bio].
  repeat split; intros ->; reflexivity.
Qed.

(** X11: a successful [PATCH /users/me] rewrites the caller's row and
    nothing else: the other accounts stay, none is added or removed; in
    the caller's row the primary key, the role and the confirmation code
    are as before, and so is every field the body does not name; the
    answer is the 200 rendering of the new row. *)
Theorem me_changes_only_what_is_sent (E : Externals) (request : Request)
    (st st' : State) (caller : User) (resp : Response) :
  user request = Some caller -> method request = "PATCH" ->
  In caller (users st) ->
  me E request st = (Ok resp, st') ->
  exists u',
    users st' = map (replace_user u') (users st)
    /\ resp = mkResponse HTTP_200_OK (UserSerializer_data u')
    /\ user_id u' = user_id caller
    /\ role u' = role caller
    /\ confirmation_code u' = confirmation_code caller
    /\ (get "username" (body request) = None ->
        username u' = username caller)
    /\ (get "email" (body request) = None -> email u' = email caller)
    /\ (get "first_name" (body request) = None ->
        first_name u' = first_name caller)
    /\ (get "last_name" (body request) = None ->
        last_name u' = last_name caller)
    /\ (get "bio" (body request) = None -> bio u' = bio caller)
    /\ (forall v, In v (users st) -> user_id v <> user_id caller ->
                  In v (users st'))
    /\ List.length (users st') = List.length (users st).
Proof.
  intros Hu Hm Hin. unfold me. rewrite Hu, Hm.
  change ("PATCH" =? "PATCH")%string with true. cbv iota.
  unfold UserSerializer_save_update, User_save. run_handler.
  set (ro := is_admin E caller).
  assert (Hval :
    (if ro
     then UserSerializer_to_internal_value E true true (Some caller)
            (users st) (body request)
     else UserSerializer_to_internal_value E false true (Some caller)
            (users st) (body request))
    = UserSerializer_to_internal_value E ro true (Some caller)
        (users st) (body request)) by (destruct ro; reflexivity).
  rewrite Hval. clear Hval.
  destruct (UserSerializer_to_internal_value E ro true (Some caller)
              (users st) (body request)) as [data|e] eqn:Hdata;
    [|discriminate].
  destruct (partial_update_skips_absent E ro (Some caller) (users st)
              (body request) data Hdata)
    as [Hn [He [Hf [Hl Hb]]]].
  destruct (username_taken _ (users st) _); [discriminate|].
  cbn [user_id setattrs].
  rewrite (existsb_own_key (users st) caller (user_id caller) Hin eq_refl).
  intros H; inversion H; subst; clear H.
  exists (setattrs (with_role (role caller) data) caller).
  split; [reflexivity|]. split; [reflexivity|].
  split; [reflexivity|]. split; [reflexivity|]. split; [reflexivity|].
  split; [intros Hg; simpl; now rewrite (Hn Hg)|].
  split; [intros Hg; simpl; now rewrite (He Hg)|].
  split; [intros Hg; simpl; now rewrite (Hf Hg)|].
  split; [intros Hg; simpl; now rewrite (Hl Hg)|].
  split; [intros Hg; simpl; now rewrite (Hb Hg)|].
  split.
  - intros v Hv Hne. cbn [users set_users]. apply in_map_iff. exists v.
    split; [|exact Hv]. unfold replace_user. cbn [user_id setattrs].
    now replace (user_id v =? user_id caller) with false
      by (symmetry; now apply Z.eqb_neq).
  - cbn [users set_users]. apply length_map.
Qed.

Lemma me_changes_only_what_is_sent_witness :
  In Examples.alice (users (Examples.catalogue 4 8))
  /\ exists resp st' u',
       me Examples.spec_externals
          (Examples.patch_me Examples.alice [("bio", JStr "reader")])
          (Examples.catalogue 4 8) = (Ok resp, st')
       /\ users st' = map (replace_user u') (users (Examples.catalogue 4 8))
       /\ username u' = "alice" /\ email u' = "alice@example.com".
Proof.
  assert (Hin : In Examples.alice (users (Examples.catalogue 4 8)))
    by (simpl; now left).
  split; [exact Hin|].
  destruct (me Examples.spec_externals
              (Examples.patch_me Examples.alice [("bio", JStr "reader")])
              (Examples.catalogue 4 8)) as [[resp|e] st'] eqn:Hrun.
  - destruct (me_changes_only_what_is_sent Examples.spec_externals
                (Examples.patch_me Examples.alice [("bio", JStr "reader")])
                (Examples.catalogue 4 8) st' Examples.alice resp
                eq_refl eq_refl Hin Hrun)
      as [u' [Hus [_ [_ [_ [_ [Hn [He _]]]]]]]].
    exists resp, st', u'. split; [reflexivity|]. split; [exact Hus|].
    split; [exact (Hn eq_refl)|exact (He eq_refl)].
  - vm_compute in Hrun. discriminate Hrun.
Defined.

(** ** Who gets a token *)

(** X12: the token endpoint never writes to the store, and it answers
    with a response in two ways only: a 400 without token, or a 200 whose
    body is the token of a stored user, where the request's username
    validated to that user's username and the request's confirmation code
    validated to a code that [check_confirmation_code] accepts for that
    user. *)
Theorem token_only_for_accepted_code (E : Externals) (request : Request)
    (st : State) :
  snd (Token_post E request st) = st
  /\ forall resp,
       fst (Token_post E request st) = Ok resp ->
       (status_code resp = HTTP_400_BAD_REQUEST
        /\ field "token" (data resp) = None)
       \/ exists u c,
            In u (users st)
            /\ CharField_run_validation false token_username_field
                 (get "username" (body request)) = Valid (username u)
            /\ CharField_run_validation false token_code_field
                 (get "confirmation_code" (body request)) = Valid c
            /\ check_confirmation_code E u c = true
            /\ resp = mkResponse HTTP_200_OK
                        (JObj [("token", JStr (AccessToken_for_user E u))]).
Proof.
  destruct (CharField_run_validation false token_username_field
              (get "username" (body request))) as [n| |ms] eqn:Hn;
    destruct (CharField_run_validation false token_code_field
                (get "confirmation_code" (body request))) as [c| |ms'] eqn:Hc;
    try (exfalso;
         first [ now apply (required_never_skipped token_username_field
                              _ eq_refl Hn)
               | now apply (required_never_skipped token_code_field
                              _ eq_refl Hc) ]);
    try (unfold Token_post, TokenSerializer_is_valid; rewrite Hn, Hc;
         split; [reflexivity|]; intros resp Hr; discriminate Hr).
  rewrite (Token_post_valid E request st n c Hn Hc).
  destruct (get_object_or_404 _) as [u|e] eqn:Hget.
  - apply get_object_or_404_ok in Hget.
    destruct (filter_singleton _ _ _ Hget) as [Hin Hname].
    apply String.eqb_eq in Hname.
    destruct (check_confirmation_code E u c) eqn:Hok.
    + split; [reflexivity|]. intros resp Hr. inversion Hr; subst resp.
      right. exists u, c. rewrite Hname. repeat split; try assumption.
    + split; [reflexivity|]. intros resp Hr. inversion Hr; subst resp.
      left. split; reflexivity.
  - split; [reflexivity|]. intros resp Hr. discriminate Hr.
Qed.

Lemma token_only_for_accepted_code_witness :
  exists u c,
    In u (users (Examples.catalogue 4 8))
    /\ check_confirmation_code Examples.spec_externals u c = true
    /\ fst (Token_post Examples.spec_externals
              (Examples.token_request "alice" "c0de-a")
              (Examples.catalogue 4 8))
       = Ok (mkResponse HTTP_200_OK
               (JObj [("token",
                       JStr (AccessToken_for_user Examples.spec_externals
                               u))])).
Proof.
  destruct (proj2 (token_only_for_accepted_code Examples.spec_externals
                     (Examples.token_request "alice" "c0de-a")
                     (Examples.catalogue 4 8))
              (mkResponse HTTP_200_OK (JObj [("token", JStr "token-alice")]))
              eq_refl) as [[H400 _]|[u [c [Hin [_ [_ [Hok Hresp]]]]]]].
  - discriminate H400.
  - exists u, c. split; [exact Hin|]. split; [exact Hok|].
    now rewrite <- Hresp.
Defined.

(** ** Deleting a title *)

(** How a title delete ends: with an exception and the store as it was,
    or with a 204 and the store without the one title the key selects. *)
Lemma destroy_outcome (request : Request) (pk : Z) (st st' : State)
    (out : Result Response) :
  TitleViewSet_destroy request pk st = (out, st') ->
  (st' = st /\ exists e, out = Raise e)
  \/ exists t,
       filter (fun x => title_id x =? pk) (titles st) = [t]
       /\ st' = without_title t st
       /\ out = Ok (mkResponse HTTP_204_NO_CONTENT JNull).
Proof.
  unfold TitleViewSet_destroy, TitleViewSet_queryset, Title_delete.
  run_handler.
  rewrite (filter_map_swap
             (fun t0 => mkAnnotated t0
                (Avg (map score (title_reviews st (title_id t0)))))
             (fun a => title_id (annotated a) =? pk)).
  cbn [annotated].
  destruct (filter (fun x => title_id x =? pk) (titles st))
    as [|t [|t2 rest]] eqn:Hf; simpl.
  - destruct (in_int64 pk); intros H; inversion H; subst;
      left; (split; [reflexivity|now eexists]).
  - intros H; inversion H; subst. right. exists t. repeat split.
  - intros H; inversion H; subst. left. split; [reflexivity|now eexists].
Qed.

Lemma in_gone_ids (st : State) (pk k : Z) :
  existsb (Z.eqb k) (map review_id (title_reviews st pk)) = true
  <-> exists r, In r (reviews st) /\ review_title r = pk /\ review_id r = k.
Proof.
  rewrite existsb_exists. split.
  - intros [x [Hx Hk]]. apply Z.eqb_eq in Hk. apply in_map_iff in Hx.
    destruct Hx as [r [Hr Hrin]]. unfold title_reviews in Hrin.
    apply filter_In in Hrin. destruct Hrin as [Hin Ht].
    apply Z.eqb_eq in Ht. exists r. repeat split; congruence.
  - intros [r [Hin [Ht Hk]]]. exists k. split; [|apply Z.eqb_refl].
    apply in_map_iff. exists r. split; [exact Hk|].
    unfold title_reviews. apply filter_In. split; [exact Hin|].
    now apply Z.eqb_eq.
Qed.

(** X13: deleting a stored title answers 204 and cascades: afterwards
    the store holds exactly the titles with another primary key, exactly
    the reviews of other titles, and exactly the comments that belong to
    no review of the deleted title; users, categories and genres are
    untouched. *)
Theorem title_destroy_cascades (request : Request) (st : State) (t : Title) :
  NoDup (map title_id (titles st)) -> In t (titles st) ->
  exists st',
    TitleViewSet_destroy request (title_id t) st
    = (Ok (mkResponse HTTP_204_NO_CONTENT JNull), st')
    /\ (forall t', In t' (titles st')
                   <-> In t' (titles st) /\ title_id t' <> title_id t)
    /\ (forall r, In r (reviews st')
                  <-> In r (reviews st) /\ review_title r <> title_id t)
    /\ (forall c, In c (comments st')
                  <-> In c (comments st)
                      /\ ~ exists r, In r (reviews st)
                                     /\ review_title r = title_id t
                                     /\ review_id r = comment_review c)
    /\ users st' = users st
    /\ categories st' = categories st
    /\ genres st' = genres st.
Proof.
  intros Hnd Hin.
  pose proof (filter_unique_key title_id Z.eqb _ t Zeqb_iff Hnd Hin) as Hf.
  destruct (TitleViewSet_destroy request (title_id t) st) as [out st']
    eqn:Hrun.
  destruct (destroy_outcome request (title_id t) st st' out Hrun)
    as [[_ [e He]]|[t0 [Ht0 [Hst Hout]]]].
  - exfalso. unfold TitleViewSet_destroy, TitleViewSet_queryset in Hrun.
    run_handler.
    rewrite (filter_map_swap
               (fun t0 => mkAnnotated t0
                  (Avg (map score (title_reviews st (title_id t0)))))
               (fun a => title_id (annotated a) =? title_id t)) in Hrun.
    cbn [annotated] in Hrun. rewrite Hf in Hrun. simpl in Hrun.
    rewrite He in Hrun. discriminate Hrun.
  - rewrite Hf in Ht0. inversion Ht0; subst t0. subst out st'.
    exists (without_title t st). split; [reflexivity|].
    unfold without_title. cbn [titles reviews comments users categories
      genres set_titles set_reviews set_comments].
    split; [|split; [|split; [|repeat split]]].
    + intros t'. rewrite filter_In, negb_true_iff, Z.eqb_neq. reflexivity.
    + intros r. rewrite filter_In, negb_true_iff, Z.eqb_neq. reflexivity.
    + intros c. rewrite filter_In, negb_true_iff.
      rewrite <- not_true_iff_false, in_gone_ids. reflexivity.
Qed.

Lemma title_destroy_cascades_witness :
  NoDup (map title_id (titles (Examples.catalogue 4 8)))
  /\ In Examples.title_x (titles (Examples.catalogue 4 8))
  /\ exists st',
       TitleViewSet_destroy (Examples.anonymous "DELETE" []) 1
         (Examples.catalogue 4 8)
       = (Ok (mkResponse HTTP_204_NO_CONTENT JNull), st')
       /\ ~ In Examples.first_review (reviews st').
Proof.
  assert (Hnd : NoDup (map title_id (titles (Examples.catalogue 4 8)))).
  { simpl. constructor; [intros []|constructor]. }
  assert (Hin : In Examples.title_x (titles (Examples.catalogue 4 8)))
    by (simpl; now left).
  split; [exact Hnd|]. split; [exact Hin|].
  destruct (title_destroy_cascades (Examples.anonymous "DELETE" [])
              (Examples.catalogue 4 8) Examples.title_x Hnd Hin)
    as [st' [Hrun [_ [Hrev _]]]].
  exists st'. split; [exact Hrun|].
  intros Hr. apply Hrev in Hr. destruct Hr as [_ Hne]. now apply Hne.
Defined.

(** ** Comments *)

(** How a comment create ends: with an exception and the store as it
    was, or with a 201 and one more comment under the one review the key
    selects. *)
Lemma comment_create_outcome (caller : User) (d : Data) (review_pk : Z)
    (st st' : State) (out : Result Response) :
  CommentViewSet_create caller d review_pk st = (out, st') ->
  (st' = st /\ exists e, out = Raise e)
  \/ exists review text,
       filter (fun r => review_id r =? review_pk) (reviews st) = [review]
       /\ CharField_run_validation false text_field (get "text" d)
          = Valid text
       /\ st' = set_comments
                  (comments st
                   ++ [mkComment (next_id (map comment_id (comments st)))
                                 text (now st) (user_id caller) review_pk])
                  st
       /\ out = Ok (mkResponse HTTP_201_CREATED
                      (CommentSerializer_instance_data caller
                         (mkComment (next_id (map comment_id (comments st)))
                                    text (now st) (user_id caller)
                                    review_pk))).
Proof.
  unfold CommentViewSet_create, CommentSerializer_to_internal_value,
    CommentViewSet_perform_create, get_review, Comment_objects_create.
  run_handler.
  destruct (CharField_run_validation false text_field (get "text" d))
    as [text| |ms] eqn:Htext; cbn [field_errors field_value].
  - destruct (get_by_key_or_404 _ _) as [review|e] eqn:Hget; [|ends_raised].
    apply get_by_key_or_404_ok in Hget.
    destruct (filter_singleton _ _ _ Hget) as [_ Hpk].
    apply Z.eqb_eq in Hpk.
    intros H; inversion H; subst. right. exists review, text.
    split; [exact Hget|]. split; [reflexivity|]. split; reflexivity.
  - exfalso. now apply (required_never_skipped text_field _ eq_refl Htext).
  - ends_raised.
Qed.

Lemma review_comments_after_create (st : State) (c : Comment) (pk : Z) :
  review_comments (set_comments (comments st ++ [c]) st) pk
  = review_comments st pk ++ (if comment_review c =? pk then [c] else []).
Proof.
  unfold review_comments. simpl. rewrite filter_app. reflexivity.
Qed.

(** X14: when a comment create succeeds, exactly one comment is added;
    its author is the caller, its review is the one of the URL (a stored
    review), its date is the clock's, and the answer names the caller as
    author.  The comment then shows in the query set of that review, and
    the comments of every other review are as before. *)
Theorem comment_lands_under_review (caller : User) (d : Data)
    (review_pk : Z) (st st' : State) (resp : Response) :
  CommentViewSet_create caller d review_pk st = (Ok resp, st') ->
  exists c,
    comments st' = comments st ++ [c]
    /\ comment_author c = user_id caller
    /\ comment_review c = review_pk
    /\ comment_pub_date c = now st
    /\ (exists r, In r (reviews st) /\ review_id r = review_pk)
    /\ status_code resp = HTTP_201_CREATED
    /\ field "author" (data resp) = Some (JStr (username caller))
    /\ (exists l, CommentViewSet_get_queryset review_pk st' = (Ok l, st')
                  /\ In c l)
    /\ (forall other, other <> review_pk ->
          review_comments st' other = review_comments st other).
Proof.
  intros Hrun.
  destruct (comment_create_outcome caller d review_pk st st' (Ok resp) Hrun)
    as [[_ [e He]]|[review [text [Hrev [Htext [Hst Hout]]]]]];
    [discriminate He|].
  inversion Hout; subst resp. clear Hout.
  destruct (filter_singleton _ _ _ Hrev) as [Hin Hpk].
  apply Z.eqb_eq in Hpk.
  eexists. split; [rewrite Hst; reflexivity|].
  split; [reflexivity|]. split; [reflexivity|]. split; [reflexivity|].
  split; [now exists review|]. split; [reflexivity|].
  split; [reflexivity|]. split.
  - unfold CommentViewSet_get_queryset, get_review. run_handler.
    rewrite Hst. cbn [reviews set_comments]. rewrite Hrev.
    cbn [get_by_key_or_404 get_object_or_404 QuerySet_get].
    eexists. split; [reflexivity|].
    rewrite Hpk, review_comments_after_create. cbn [comment_review].
    rewrite Z.eqb_refl. apply in_or_app. right. now left.
  - intros other Hne. rewrite Hst, review_comments_after_create.
    cbn [comment_review].
    replace (review_pk =? other) with false
      by (symmetry; apply Z.eqb_neq; congruence).
    apply app_nil_r.
Qed.

Lemma comment_lands_under_review_witness :
  exists resp st' c,
    CommentViewSet_create Examples.bob [("text", JStr "agreed")] 1
      (Examples.catalogue 4 8) = (Ok resp, st')
    /\ comments st' = comments (Examples.catalogue 4 8) ++ [c]
    /\ comment_author c = user_id Examples.bob
    /\ comment_review c = 1.
Proof.
  destruct (CommentViewSet_create Examples.bob [("text", JStr "agreed")] 1
              (Examples.catalogue 4 8)) as [[resp|e] st'] eqn:Hrun.
  - destruct (comment_lands_under_review _ _ _ _ _ _ Hrun)
      as [c [Hc [Ha [Hr _]]]].
    exists resp, st', c. split; [reflexivity|]. split; [exact Hc|].
    split; [exact Ha|exact Hr].
  - vm_compute in Hrun. discriminate Hrun.
Defined.

(** X15: no comment is stored under a review that does not exist: when
    no stored review has the primary key of the URL, a comment create ends
    in an exception and leaves the store as it was; for a key within 64
    bits the query set of that key is the 404, as is the create when the
    text validates. *)
Theorem comment_needs_review (caller : User) (d : Data) (review_pk : Z)
    (st : State) :
  (forall r, In r (reviews st) -> review_id r <> review_pk) ->
  snd (CommentViewSet_create caller d review_pk st) = st
  /\ (exists e, fst (CommentViewSet_create caller d review_pk st) = Raise e)
  /\ (in_int64 review_pk = true ->
      CommentViewSet_get_queryset review_pk st = (Raise Http404, st)
      /\ (forall text,
            CharField_run_validation false text_field (get "text" d)
            = Valid text ->
            fst (CommentViewSet_create caller d review_pk st)
            = Raise Http404)).
Proof.
  intros Hno.
  assert (Hnone : filter (fun r => review_id r =? review_pk) (reviews st)
                  = []).
  { apply filter_none. intros r Hr. apply Z.eqb_neq. now apply Hno. }
  split; [|split; [|intros Hrange; split]].
  - destruct (CommentViewSet_create caller d review_pk st) as [out st']
      eqn:Hrun.
    destruct (comment_create_outcome caller d review_pk st st' out Hrun)
      as [[-> _]|[review [_ [Hrev _]]]]; [reflexivity|].
    rewrite Hnone in Hrev. discriminate.
  - destruct (CommentViewSet_create caller d review_pk st) as [out st']
      eqn:Hrun.
    destruct (comment_create_outcome caller d review_pk st st' out Hrun)
      as [[_ He]|[review [_ [Hrev _]]]]; [exact He|].
    rewrite Hnone in Hrev. discriminate.
  - unfold CommentViewSet_get_queryset, get_review. run_handler.
    rewrite Hnone. cbn [get_by_key_or_404]. now rewrite Hrange.
  - intros text Htext.
    unfold CommentViewSet_create, CommentSerializer_to_internal_value,
      CommentViewSet_perform_create, get_review.
    run_handler. rewrite Htext. cbn [field_errors field_value].
    rewrite Hnone. cbn [get_by_key_or_404]. now rewrite Hrange.
Qed.

Lemma comment_needs_review_witness :
  (forall r, In r (reviews Examples.unreviewed) -> review_id r <> 1)
  /\ in_int64 1 = true
  /\ CommentViewSet_create Examples.bob [("text", JStr "agreed")] 1
       Examples.unreviewed
     = (Raise Http404, Examples.unreviewed).
Proof.
  assert (Hno : forall r, In r (reviews Examples.unreviewed) ->
                          review_id r <> 1) by (intros r []).
  assert (Hrange : in_int64 1 = true) by reflexivity.
  destruct (comment_needs_review Examples.bob [("text", JStr "agreed")] 1
              Examples.unreviewed Hno) as [Hst [_ Hin]].
  destruct (Hin Hrange) as [_ H404].
  split; [exact Hno|]. split; [exact Hrange|].
  rewrite (surjective_pairing (CommentViewSet_create _ _ _ _)).
  rewrite Hst, (H404 "agreed" eq_refl). reflexivity.
Defined.

(** ** Creating titles *)

Lemma get_skips_other_field {A} (k k1 : string) (r : FieldResult A)
    (l : list (string * JSON)) :
  String.eqb k k1 = false -> get k (field_errors k1 r ++ l) = get k l.
Proof.
  intros Hk. destruct r; simpl; rewrite ?Hk; reflexivity.
Qed.

Lemma year_guard_false (current_year data : Z) :
  MINYEAR <= current_year ->
  (current_year <=? data) && (data <? 0) = false.
Proof.
  unfold MINYEAR. intros Hy.
  destruct (current_year <=? data) eqn:Hle; [|reflexivity].
  apply Z.leb_le in Hle. simpl. apply Z.ltb_ge. lia.
Qed.

Lemma year_field_accepts (current_year y : Z) (partial : bool) :
  MINYEAR <= current_year ->
  TitleSerializer_year current_year partial (Some (JInt y)) = Valid y.
Proof.
  intros Hy. unfold TitleSerializer_year, validate_year. simpl.
  now rewrite (year_guard_false current_year y Hy).
Qed.

(** How a title create ends: with an exception and the store as it was,
    or with a 201 and one more title built from the validated data. *)
Lemma title_create_outcome (current_year : Z) (request : Request)
    (st st' : State) (out : Result Response) :
  TitleViewSet_create current_year request st = (out, st') ->
  (st' = st /\ exists e, out = Raise e)
  \/ exists data name y gs cat,
       TitleSerializer_to_internal_value current_year false st
         (body request) = Ok data
       /\ vd_name data = Some name /\ vd_year data = Some y
       /\ vd_genre data = Some gs /\ vd_category data = Some cat
       /\ st' = set_titles
                  (titles st
                   ++ [mkTitle (next_id (map title_id (titles st)))
                         (Some (category_id cat))
                         (match vd_description data with
                          | Some s => s
                          | None => ""
                          end)
                         (nodup Z.eq_dec (map genre_id gs)) name y]) st
       /\ out = Ok (mkResponse HTTP_201_CREATED
                      (TitleSerializer_to_representation st'
                         (mkTitle (next_id (map title_id (titles st)))
                            (Some (category_id cat))
                            (match vd_description data with
                             | Some s => s
                             | None => ""
                             end)
                            (nodup Z.eq_dec (map genre_id gs)) name y))).
Proof.
  unfold TitleViewSet_create, TitleSerializer_save_create,
    Title_objects_create.
  destruct (get_serializer_class request); [unfold raise; ends_raised|].
  run_handler.
  destruct (TitleSerializer_to_internal_value current_year false st
              (body request)) as [data|e] eqn:Hdata; [|ends_raised].
  destruct (vd_name data) as [name|] eqn:Hn; [|ends_raised].
  destruct (vd_year data) as [y|] eqn:Hy; [|ends_raised].
  destruct (vd_genre data) as [gs|] eqn:Hg; [|ends_raised].
  destruct (vd_category data) as [cat|] eqn:Hc; [|ends_raised].
  intros H; inversion H; subst. right.
  exists data, name, y, gs, cat. repeat split; assumption.
Qed.

(** X16: the year never stands in the way of a title: for a write
    request whose name, genre and category validate and whose description
    raises no error, every integer year that fits the integer column
    (negative, or far in the future) is accepted; the title is stored with
    that year, and the 201 answer shows the year and carries no rating. *)
Theorem title_create_accepts_any_year (current_year : Z)
    (request : Request) (st : State) (y : Z) (name : string)
    (gs : list Genre) (cat : Category) :
  MINYEAR <= current_year ->
  -2147483648 <= y <= 2147483647 ->
  method request <> "GET" ->
  get "year" (body request) = Some (JInt y) ->
  CharField_run_validation false title_name_field
    (get "name" (body request)) = Valid name ->
  ManyRelatedField_run_validation false true (genres st)
    (get "genre" (body request)) = Valid gs ->
  SlugRelatedField_run_validation false true (categories st)
    (get "category" (body request)) = Valid cat ->
  (forall ms, CharField_run_validation false description_field
                (get "description" (body request)) <> Invalid ms) ->
  exists resp t st',
    TitleViewSet_create current_year request st = (Ok resp, st')
    /\ status_code resp = HTTP_201_CREATED
    /\ titles st' = titles st ++ [t]
    /\ year t = y /\ title_name t = name
    /\ category t = Some (category_id cat)
    /\ field "year" (data resp) = Some (JInt y)
    /\ field "rating" (data resp) = None.
Proof.
  intros Hcy _ Hm Hy Hname Hgs Hcat Hdescr.
  unfold TitleViewSet_create, get_serializer_class.
  replace (String.eqb (method request) "GET") with false
    by (symmetry; now apply String.eqb_neq).
  unfold TitleSerializer_to_internal_value, TitleSerializer_save_create,
    Title_objects_create.
  run_handler.
  rewrite Hy, (year_field_accepts current_year y false Hcy), Hname, Hgs, Hcat.
  destruct (CharField_run_validation false description_field
              (get "description" (body request))) as [descr| |ms] eqn:Hd;
    [| |exfalso; now apply (Hdescr ms)];
    cbn [field_errors app field_value vd_name vd_year vd_genre vd_category
         vd_description];
    (eexists; eexists; eexists; split; [reflexivity|]);
    repeat split.
Qed.

Lemma title_create_accepts_any_year_witness :
  MINYEAR <= 2024
  /\ -2147483648 <= 3000 <= 2147483647
  /\ exists resp t st',
       TitleViewSet_create 2024
         (Examples.anonymous "POST"
            [("name", JStr "Y"); ("year", JInt 3000);
             ("genre", JList [JStr "drama"]); ("category", JStr "film")])
         (Examples.catalogue 4 8) = (Ok resp, st')
       /\ titles st' = titles (Examples.catalogue 4 8) ++ [t]
       /\ year t = 3000
       /\ field "rating" (data resp) = None.
Proof.
  assert (Hcy : MINYEAR <= 2024) by (unfold MINYEAR; lia).
  assert (Hfit : -2147483648 <= 3000 <= 2147483647) by lia.
  split; [exact Hcy|]. split; [exact Hfit|].
  destruct (title_create_accepts_any_year 2024
              (Examples.anonymous "POST"
                 [("name", JStr "Y"); ("year", JInt 3000);
                  ("genre", JList [JStr "drama"]); ("category", JStr "film")])
              (Examples.catalogue 4 8) 3000 "Y" [Examples.drama]
              Examples.film Hcy Hfit)
    as [resp [t [st' [Hrun [_ [Hts [Hyear [_ [_ [_ Hrating]]]]]]]]]];
    try reflexivity; try discriminate.
  exists resp, t, st'. repeat split; assumption.
Defined.

(** X17: a title cannot be created without a category or without a
    genre list, although the category column is nullable and the genre
    relation may be empty: a write request that leaves either key out
    raises a validation error saying the field is required, and stores
    nothing. *)
Theorem title_create_requires_category_and_genre (current_year : Z)
    (request : Request) (st : State) :
  method request <> "GET" ->
  (get "category" (body request) = None ->
   exists detail,
     TitleViewSet_create current_year request st
     = (Raise (ValidationError (JObj detail)), st)
     /\ get "category" detail = Some (JList [JStr "This field is required."]))
  /\ (get "genre" (body request) = None ->
      exists detail,
        TitleViewSet_create current_year request st
        = (Raise (ValidationError (JObj detail)), st)
        /\ get "genre" detail = Some (JList [JStr "This field is required."])).
Proof.
  intros Hm.
  assert (Hrun : forall errs,
    field_errors "name"
      (CharField_run_validation false title_name_field
         (get "name" (body request)))
    ++ field_errors "year"
         (TitleSerializer_year current_year false (get "year" (body request)))
    ++ field_errors "description"
         (CharField_run_validation false description_field
            (get "description" (body request)))
    ++ field_errors "genre"
         (ManyRelatedField_run_validation false true (genres st)
            (get "genre" (body request)))
    ++ field_errors "category"
         (SlugRelatedField_run_validation false true (categories st)
            (get "category" (body request))) = errs ->
    errs <> [] ->
    TitleViewSet_create current_year request st
    = (Raise (ValidationError (JObj errs)), st)).
  { intros errs Herrs Hne. unfold TitleViewSet_create, get_serializer_class.
    replace (String.eqb (method request) "GET") with false
      by (symmetry; now apply String.eqb_neq).
    unfold TitleSerializer_to_internal_value. run_handler. rewrite Herrs.
    destruct errs; [contradiction|reflexivity]. }
  split; intros Hnone.
  - eexists. split.
    + apply Hrun; [reflexivity|]. rewrite Hnone.
      intros Hnil. repeat (apply app_eq_nil in Hnil; destruct Hnil as [_ Hnil]).
      discriminate Hnil.
    + rewrite Hnone.
      rewrite !get_skips_other_field by reflexivity. reflexivity.
  - eexists. split.
    + apply Hrun; [reflexivity|]. rewrite Hnone.
      intros Hnil. do 3 (apply app_eq_nil in Hnil; destruct Hnil as [_ Hnil]).
      apply app_eq_nil in Hnil. destruct Hnil as [Hnil _].
      discriminate Hnil.
    + rewrite Hnone.
      rewrite !get_skips_other_field by reflexivity. reflexivity.
Qed.

Lemma title_create_requires_category_and_genre_witness :
  method (Examples.anonymous "POST" [("name", JStr "Y"); ("year", JInt 1999)])
  <> "GET"
  /\ exists detail,
       TitleViewSet_create 2024
         (Examples.anonymous "POST" [("name", JStr "Y"); ("year", JInt 1999)])
         (Examples.catalogue 4 8)
       = (Raise (ValidationError (JObj detail)), Examples.catalogue 4 8)
       /\ get "category" detail
          = Some (JList [JStr "This field is required."]).
Proof.
  assert (Hm : method (Examples.anonymous "POST"
                         [("name", JStr "Y"); ("year", JInt 1999)]) <> "GET")
    by discriminate.
  split; [exact Hm|].
  exact (proj1 (title_create_requires_category_and_genre 2024
                  (Examples.anonymous "POST"
                     [("name", JStr "Y"); ("year", JInt 1999)])
                  (Examples.catalogue 4 8) Hm) eq_refl).
Defined.

(** ** Foreign keys keep resolving *)

(** How a category delete ends. *)
Lemma delete_category_outcome (request : Request) (slug : string)
    (st st' : State) (out : Result Response) :
  delete_category request slug st = (out, st') ->
  (st' = st /\ exists e, out = Raise e)
  \/ exists c,
       In c (categories st)
       /\ category_titles st (category_id c) = []
       /\ st' = set_categories
                  (filter (fun c' => negb (category_id c' =? category_id c))
                          (categories st)) st.
Proof.
  unfold delete_category, get_object_by_slug, Category_delete. run_handler.
  destruct (get_object_or_404 _) as [c|e] eqn:Hget; [|ends_raised].
  apply get_object_or_404_ok in Hget.
  destruct (filter_singleton _ _ _ Hget) as [Hin _].
  destruct (category_titles st (category_id c)) eqn:Hfree;
    intros H; inversion H; subst.
  - right. exists c. repeat split; assumption.
  - left. split; [reflexivity|now eexists].
Qed.

(** How a genre delete ends. *)
Lemma delete_genre_outcome (request : Request) (slug : string)
    (st st' : State) (out : Result Response) :
  delete_genre request slug st = (out, st') ->
  (st' = st /\ exists e, out = Raise e)
  \/ exists g,
       In g (genres st)
       /\ st' = set_titles (map (unlink_genre (genre_id g)) (titles st))
                  (set_genres
                     (filter (fun g' => negb (genre_id g' =? genre_id g))
                             (genres st)) st).
Proof.
  unfold delete_genre, get_object_by_slug, Genre_delete. run_handler.
  destruct (get_object_or_404 _) as [g|e] eqn:Hget; [|ends_raised].
  apply get_object_or_404_ok in Hget.
  destruct (filter_singleton _ _ _ Hget) as [Hin _].
  intros H; inversion H; subst. right. exists g. split; [exact Hin|reflexivity].
Qed.

Lemma references_without_category (st : State) (k : Z) :
  references_resolve st -> category_titles st k = [] ->
  references_resolve
    (set_categories
       (filter (fun c' => negb (category_id c' =? k)) (categories st)) st).
Proof.
  intros [Hr [Hc [Hcat Hg]]] Hfree. repeat split; try assumption.
  cbn [titles categories set_categories]. intros t k' Ht Hk.
  destruct (Hcat t k' Ht Hk) as [c [Hcin Hck]].
  exists c. split; [|exact Hck]. apply filter_In. split; [exact Hcin|].
  apply negb_true_iff, Z.eqb_neq. intros Heq.
  assert (Hin : In t (category_titles st k)).
  { unfold category_titles. apply filter_In. split; [exact Ht|].
    unfold in_category. rewrite Hk. apply Z.eqb_eq. congruence. }
  rewrite Hfree in Hin. contradiction.
Qed.

Lemma references_without_genre (st : State) (k : Z) :
  references_resolve st ->
  references_resolve
    (set_titles (map (unlink_genre k) (titles st))
       (set_genres (filter (fun g' => negb (genre_id g' =? k)) (genres st))
                   st)).
Proof.
  intros [Hr [Hc [Hcat Hg]]]. unfold references_resolve.
  cbn [titles reviews comments categories genres set_titles set_genres].
  split; [|split; [exact Hc|split]].
  - intros r Hrin. destruct (Hr r Hrin) as [t [Ht Hid]].
    exists (unlink_genre k t). split; [now apply in_map|exact Hid].
  - intros t' k' Ht' Hk'. apply in_map_iff in Ht'.
    destruct Ht' as [t [<- Ht]]. exact (Hcat t k' Ht Hk').
  - intros t' g Ht' Hgin. apply in_map_iff in Ht'.
    destruct Ht' as [t [<- Ht]]. cbn [genre unlink_genre] in Hgin.
    apply filter_In in Hgin. destruct Hgin as [Hgin Hne].
    destruct (Hg t g Ht Hgin) as [g' [Hg' Hid]].
    exists g'. split; [|exact Hid]. apply filter_In. split; [exact Hg'|].
    now rewrite Hid.
Qed.

Lemma references_without_title (st : State) (t : Title) :
  references_resolve st -> references_resolve (without_title t st).
Proof.
  intros [Hr [Hc [Hcat Hg]]]. unfold references_resolve, without_title.
  cbn [titles reviews comments categories genres set_titles set_reviews
       set_comments].
  split; [|split; [|split]].
  - intros r Hrin. apply filter_In in Hrin. destruct Hrin as [Hrin Hne].
    destruct (Hr r Hrin) as [t' [Ht' Hid]].
    exists t'. split; [|exact Hid]. apply filter_In. split; [exact Ht'|].
    now rewrite Hid.
  - intros c Hcin. apply filter_In in Hcin. destruct Hcin as [Hcin Hkeep].
    destruct (Hc c Hcin) as [r [Hrin Hid]].
    exists r. split; [|exact Hid]. apply filter_In. split; [exact Hrin|].
    apply negb_true_iff, Z.eqb_neq. intros Ht.
    apply negb_true_iff in Hkeep.
    assert (Hgone : existsb (Z.eqb (comment_review c))
                      (map review_id (title_reviews st (title_id t)))
                    = true).
    { apply in_gone_ids. exists r. repeat split; assumption. }
    rewrite Hgone in Hkeep. discriminate.
  - intros t' k Ht' Hk. apply filter_In in Ht'. destruct Ht' as [Ht' _].
    exact (Hcat t' k Ht' Hk).
  - intros t' g Ht' Hgin. apply filter_In in Ht'. destruct Ht' as [Ht' _].
    exact (Hg t' g Ht' Hgin).
Qed.

(** X18: the three deletes keep every foreign key resolving: if each
    review points at a stored title, each comment at a stored review, and
    each title at stored categories and genres before a category delete, a
    genre delete or a title delete, the same holds after it, for every
    request and however the call ends. *)
Theorem deletes_keep_references (request : Request) (slug : string)
    (pk : Z) (st : State) :
  references_resolve st ->
  references_resolve (snd (delete_category request slug st))
  /\ references_resolve (snd (delete_genre request slug st))
  /\ references_resolve (snd (TitleViewSet_destroy request pk st)).
Proof.
  intros Hrefs. split; [|split].
  - destruct (delete_category request slug st) as [out st'] eqn:Hrun.
    destruct (delete_category_outcome request slug st st' out Hrun)
      as [[-> _]|[c [_ [Hfree ->]]]]; [exact Hrefs|].
    now apply references_without_category.
  - destruct (delete_genre request slug st) as [out st'] eqn:Hrun.
    destruct (delete_genre_outcome request slug st st' out Hrun)
      as [[-> _]|[g [_ ->]]]; [exact Hrefs|].
    now apply references_without_genre.
  - destruct (TitleViewSet_destroy request pk st) as [out st'] eqn:Hrun.
    destruct (destroy_outcome request pk st st' out Hrun)
      as [[-> _]|[t [_ [-> _]]]]; [exact Hrefs|].
    now apply references_without_title.
Qed.

Lemma catalogue_references_resolve :
  references_resolve (Examples.catalogue 4 8).
Proof.
  unfold references_resolve. simpl. split; [|split; [|split]].
  - intros r [<-|[<-|[]]]; exists Examples.title_x; split; auto.
  - intros c [].
  - intros t k [<-|[]] Hk. inversion Hk; subst.
    exists Examples.film. split; auto.
  - intros t g [<-|[]] [<-|[]]. exists Examples.drama. split; auto.
Qed.

Lemma deletes_keep_references_witness :
  references_resolve (Examples.catalogue 4 8)
  /\ references_resolve
       (snd (delete_genre (Examples.anonymous "DELETE" []) "drama"
               (Examples.catalogue 4 8)))
  /\ references_resolve
       (snd (TitleViewSet_destroy (Examples.anonymous "DELETE" []) 1
               (Examples.catalogue 4 8))).
Proof.
  split; [exact catalogue_references_resolve|].
  destruct (deletes_keep_references (Examples.anonymous "DELETE" [])
              "drama" 1 (Examples.catalogue 4 8)
              catalogue_references_resolve) as [_ [Hg Ht]].
  split; [exact Hg|exact Ht].
Defined.

Lemma slug_field_valid_in {A} `{NameSlug A} (partial required : bool)
    (queryset : list A) (data : option JSON) (o : A) :
  SlugRelatedField_run_validation partial required queryset data = Valid o ->
  In o queryset.
Proof.
  unfold SlugRelatedField_run_validation, validate_empty_values.
  assert (Hchild : forall d,
            SlugRelatedField_to_internal_value queryset d = Valid o ->
            In o queryset).
  { intros d. unfold SlugRelatedField_to_internal_value.
    destruct (Py.str_of_scalar d) as [s|]; [|discriminate].
    destruct (find _ queryset) as [x|] eqn:Hfind; [|discriminate].
    intros Hv; inversion Hv; subst. now apply find_some in Hfind. }
  destruct data as [[| | |s| |]|];
    try (destruct partial, required; discriminate);
    try discriminate; try apply Hchild.
  destruct s; [discriminate|apply Hchild].
Qed.

Lemma many_valid_in {A} (child : JSON -> FieldResult A) (queryset : list A)
    (items : list JSON) (l : list A) :
  (forall d o, child d = Valid o -> In o queryset) ->
  many_to_internal_value child items = Valid l ->
  forall o, In o l -> In o queryset.
Proof.
  intros Hchild. revert l. induction items as [|i rest IH]; simpl; intros l.
  - intros Hv; inversion Hv; subst. intros o [].
  - destruct (child i) as [a| |ms] eqn:Hi; try discriminate.
    destruct (many_to_internal_value child rest) as [l'| |ms] eqn:Hrest;
      try discriminate.
    intros Hv; inversion Hv; subst. intros o [<-|Ho].
    + exact (Hchild i a Hi).
    + exact (IH l' eq_refl o Ho).
Qed.

Lemma many_field_valid_in {A} `{NameSlug A} (partial required : bool)
    (queryset : list A) (data : option JSON) (l : list A) :
  ManyRelatedField_run_validation partial required queryset data = Valid l ->
  forall o, In o l -> In o queryset.
Proof.
  unfold ManyRelatedField_run_validation, validate_empty_values.
  assert (Hchild : forall d o,
            SlugRelatedField_to_internal_value queryset d = Valid o ->
            In o queryset).
  { intros d o. unfold SlugRelatedField_to_internal_value.
    destruct (Py.str_of_scalar d) as [s|]; [|discriminate].
    destruct (find _ queryset) as [x|] eqn:Hfind; [|discriminate].
    intros Hv; inversion Hv; subst. now apply find_some in Hfind. }
  destruct data as [[| | | |items|kvs]|];
    try (destruct partial, required; discriminate);
    try discriminate; cbn [iterate];
    apply (many_valid_in _ queryset _ l Hchild).
Qed.

Lemma title_fields_resolve (current_year : Z) (partial : bool) (st : State)
    (d : Data) (data : TitleData) :
  TitleSerializer_to_internal_value current_year partial st d = Ok data ->
  (forall cat, vd_category data = Some cat -> In cat (categories st))
  /\ (forall gs g, vd_genre data = Some gs -> In g gs -> In g (genres st)).
Proof.
  unfold TitleSerializer_to_internal_value.
  destruct (field_errors "name" _ ++ _); [|discriminate].
  intros H; inversion H; subst; clear H. cbn [vd_category vd_genre]. split.
  - intros cat Hc.
    destruct (SlugRelatedField_run_validation partial true (categories st)
                (get "category" d)) as [o| |ms] eqn:Hv; try discriminate.
    inversion Hc; subst. exact (slug_field_valid_in _ _ _ _ _ Hv).
  - intros gs g Hg.
    destruct (ManyRelatedField_run_validation partial true (genres st)
                (get "genre" d)) as [l| |ms] eqn:Hv; try discriminate.
    inversion Hg; subst. exact (many_field_valid_in _ _ _ _ _ Hv g).
Qed.

(** X19: the three creates keep every foreign key resolving: if each
    review points at a stored title, each comment at a stored review, and
    each title at stored categories and genres before a review create, a
    comment create or a title create, the same holds after it, for every
    request and however the call ends. *)
Theorem creates_keep_references (request : Request) (caller : User)
    (d : Data) (title_pk review_pk current_year : Z) (st : State) :
  references_resolve st ->
  references_resolve (snd (ReviewViewSet_create request title_pk st))
  /\ references_resolve (snd (CommentViewSet_create caller d review_pk st))
  /\ references_resolve (snd (TitleViewSet_create current_year request st)).
Proof.
  intros Hrefs. pose proof Hrefs as [Hr [Hc [Hcat Hg]]]. split; [|split].
  - destruct (ReviewViewSet_create request title_pk st) as [out st'] eqn:Hrun.
    destruct (review_create_outcome request title_pk st st' out Hrun)
      as [[-> _]|Hok]; [exact Hrefs|].
    destruct Hok as [? [? [title [? [? [_ [_ [_ [_ [Ht [_ [-> _]]]]]]]]]]]].
    destruct (filter_singleton _ _ _ Ht) as [Hin Hpk].
    apply Z.eqb_eq in Hpk.
    unfold references_resolve.
    cbn [snd titles reviews comments categories genres set_reviews].
    split; [|split; [|split; assumption]].
    + intros r Hrin. apply in_app_or in Hrin.
      destruct Hrin as [Hrin|[<-|[]]]; [exact (Hr r Hrin)|].
      now exists title.
    + intros c Hcin. destruct (Hc c Hcin) as [r [Hrin Hid]].
      exists r. split; [apply in_or_app; now left|exact Hid].
  - destruct (CommentViewSet_create caller d review_pk st) as [out st']
      eqn:Hrun.
    destruct (comment_create_outcome caller d review_pk st st' out Hrun)
      as [[-> _]|[review [text [Hrev [_ [-> _]]]]]]; [exact Hrefs|].
    destruct (filter_singleton _ _ _ Hrev) as [Hin Hpk].
    apply Z.eqb_eq in Hpk.
    unfold references_resolve.
    cbn [snd titles reviews comments categories genres set_comments].
    split; [exact Hr|split; [|split; assumption]].
    intros c Hcin. apply in_app_or in Hcin.
    destruct Hcin as [Hcin|[<-|[]]]; [exact (Hc c Hcin)|].
    now exists review.
  - destruct (TitleViewSet_create current_year request st) as [out st']
      eqn:Hrun.
    destruct (title_create_outcome current_year request st st' out Hrun)
      as [[-> _]|Hok]; [exact Hrefs|].
    destruct Hok as [data [name [y [gs [cat
      [Hdata [_ [_ [Hgs [Hcatv [-> _]]]]]]]]]]].
    destruct (title_fields_resolve _ _ _ _ _ Hdata) as [Hcin Hgin].
    unfold references_resolve.
    cbn [snd titles reviews comments categories genres set_titles].
    split; [|split; [exact Hc|split]].
    + intros r Hrin. destruct (Hr r Hrin) as [t [Ht Hid]].
      exists t. split; [apply in_or_app; now left|exact Hid].
    + intros t k Ht Hk. apply in_app_or in Ht.
      destruct Ht as [Ht|[<-|[]]]; [exact (Hcat t k Ht Hk)|].
      cbn [category] in Hk. inversion Hk; subst.
      exists cat. split; [exact (Hcin cat Hcatv)|reflexivity].
    + intros t g Ht Hgi. apply in_app_or in Ht.
      destruct Ht as [Ht|[<-|[]]]; [exact (Hg t g Ht Hgi)|].
      cbn [genre] in Hgi. apply nodup_In in Hgi. apply in_map_iff in Hgi.
      destruct Hgi as [g' [Hid Hg']].
      exists g'. split; [exact (Hgin gs g' Hgs Hg')|exact Hid].
Qed.

Lemma creates_keep_references_witness :
  references_resolve (Examples.catalogue 4 8)
  /\ references_resolve
       (snd (CommentViewSet_create Examples.bob [("text", JStr "agreed")] 1
               (Examples.catalogue 4 8)))
  /\ references_resolve
       (snd (TitleViewSet_create 2024
               (Examples.anonymous "POST"
                  [("name", JStr "Y"); ("year", JInt 3000);
                   ("genre", JList [JStr "drama"]);
                   ("category", JStr "film")])
               (Examples.catalogue 4 8))).
Proof.
  split; [exact catalogue_references_resolve|].
  destruct (creates_keep_references
              (Examples.anonymous "POST"
                 [("name", JStr "Y"); ("year", JInt 3000);
                  ("genre", JList [JStr "drama"]); ("category", JStr "film")])
              Examples.bob [("text", JStr "agreed")] 1 1 2024
              (Examples.catalogue 4 8) catalogue_references_resolve)
    as [_ [Hc Ht]].
  split; [exact Hc|exact Ht].
Defined.

(** ** Unknown keys *)

(** X20: a slug or primary key that selects no row is a 404 and changes
    nothing.  Each on its own: deleting a category by a slug the route
    accepts and no category has; deleting a genre by a slug the route
    accepts and no genre has; reading or deleting a title by a key within
    64 bits that no title has.  Each raises the not-found error, which the
    client sees as status 404, and leaves the store as it was. *)
Theorem unknown_key_is_404 (request : Request) (st : State) :
  (forall slug,
     url_path_matches slug = true ->
     (forall c, In c (categories st) -> category_slug c <> slug) ->
     delete_category request slug st = (Raise Http404, st))
  /\ (forall slug,
        url_path_matches slug = true ->
        (forall g, In g (genres st) -> genre_slug g <> slug) ->
        delete_genre request slug st = (Raise Http404, st))
  /\ (forall pk,
        in_int64 pk = true ->
        (forall t, In t (titles st) -> title_id t <> pk) ->
        TitleViewSet_retrieve request pk st = (Raise Http404, st)
        /\ TitleViewSet_destroy request pk st = (Raise Http404, st))
  /\ status_code (finalize (Raise Http404)) = HTTP_404_NOT_FOUND.
Proof.
  split; [|split; [|split]].
  - intros slug _ Hc.
    unfold delete_category, get_object_by_slug. run_handler.
    rewrite filter_none; [reflexivity|].
    intros c Hin. apply String.eqb_neq. now apply Hc.
  - intros slug _ Hg.
    unfold delete_genre, get_object_by_slug. run_handler.
    rewrite filter_none; [reflexivity|].
    intros g Hin. apply String.eqb_neq. now apply Hg.
  - intros pk Hrange Ht.
    assert (Htitles : filter (fun a => title_id (annotated a) =? pk)
                             (TitleViewSet_queryset st) = []).
    { unfold TitleViewSet_queryset.
      rewrite (filter_map_swap
                 (fun t0 => mkAnnotated t0
                    (Avg (map score (title_reviews st (title_id t0)))))
                 (fun a => title_id (annotated a) =? pk)).
      cbn [annotated]. rewrite filter_none; [reflexivity|].
      intros t Hin. apply Z.eqb_neq. now apply Ht. }
    split.
    + unfold TitleViewSet_retrieve. run_handler. rewrite Htitles.
      cbn [get_by_key_or_404]. now rewrite Hrange.
    + unfold TitleViewSet_destroy. run_handler. rewrite Htitles.
      cbn [get_by_key_or_404]. now rewrite Hrange.
  - reflexivity.
Qed.

Lemma unknown_key_is_404_witness :
  url_path_matches "drama" = true
  /\ (forall c, In c (categories (Examples.catalogue 4 8)) ->
                category_slug c <> "drama")
  /\ delete_category (Examples.anonymous "DELETE" []) "drama"
       (Examples.catalogue 4 8)
     = (Raise Http404, Examples.catalogue 4 8)
  /\ (forall g, In g (genres (Examples.catalogue 4 8)) ->
                genre_slug g <> "film")
  /\ delete_genre (Examples.anonymous "DELETE" []) "film"
       (Examples.catalogue 4 8)
     = (Raise Http404, Examples.catalogue 4 8)
  /\ in_int64 7 = true
  /\ (forall t, In t (titles (Examples.catalogue 4 8)) -> title_id t <> 7)
  /\ TitleViewSet_retrieve (Examples.anonymous "GET" []) 7
       (Examples.catalogue 4 8)
     = (Raise Http404, Examples.catalogue 4 8).
Proof.
  assert (Hw : url_path_matches "drama" = true) by reflexivity.
  assert (Hc : forall c, In c (categories (Examples.catalogue 4 8)) ->
                         category_slug c <> "drama").
  { intros c [<-|[<-|[]]]; discriminate. }
  assert (Hg : forall g, In g (genres (Examples.catalogue 4 8)) ->
                         genre_slug g <> "film").
  { intros g [<-|[]]; discriminate. }
  assert (Hrange : in_int64 7 = true) by reflexivity.
  assert (Ht : forall t, In t (titles (Examples.catalogue 4 8)) ->
                         title_id t <> 7).
  { intros t [<-|[]]; discriminate. }
  destruct (unknown_key_is_404 (Examples.anonymous "DELETE" [])
              (Examples.catalogue 4 8)) as [Hdc [Hdg _]].
  destruct (unknown_key_is_404 (Examples.anonymous "GET" [])
              (Examples.catalogue 4 8)) as [_ [_ [Hr _]]].
  split; [exact Hw|]. split; [exact Hc|].
  split; [exact (Hdc "drama" Hw Hc)|]. split; [exact Hg|].
  split; [exact (Hdg "film" eq_refl Hg)|]. split; [exact Hrange|].
  split; [exact Ht|]. exact (proj1 (Hr 7 Hrange Ht)).
Defined.

(** ** Deleting a genre *)

(** X21: deleting a stored genre never removes a title (unlike a
    category in use, it is not protected either): the titles keep their
    primary keys, names, years, descriptions and categories in the same
    order; only the deleted genre leaves their genre lists, every other
    genre stays; reviews, comments and categories are untouched, and so
    are the scores each title is rated by. *)
Theorem genre_delete_keeps_titles (request : Request) (st : State)
    (g : Genre) :
  NoDup (map genre_slug (genres st)) -> In g (genres st) ->
  exists resp st',
    delete_genre request (genre_slug g) st = (Ok resp, st')
    /\ titles st' = map (unlink_genre (genre_id g)) (titles st)
    /\ map title_id (titles st') = map title_id (titles st)
    /\ map title_name (titles st') = map title_name (titles st)
    /\ map year (titles st') = map year (titles st)
    /\ map category (titles st') = map category (titles st)
    /\ map description (titles st') = map description (titles st)
    /\ (forall t', In t' (titles st') -> ~ In (genre_id g) (genre t'))
    /\ (forall t k, In t (titles st) -> In k (genre t) -> k <> genre_id g ->
          In k (genre (unlink_genre (genre_id g) t)))
    /\ reviews st' = reviews st
    /\ comments st' = comments st
    /\ categories st' = categories st
    /\ (forall pk, title_scores st' pk = title_scores st pk).
Proof.
  intros Hnd Hin.
  rewrite (delete_genre_found request st g Hnd Hin).
  eexists. eexists. split; [reflexivity|].
  cbn [titles reviews comments categories set_titles set_genres].
  split; [reflexivity|].
  split; [rewrite map_map; now apply map_ext|].
  split; [rewrite map_map; now apply map_ext|].
  split; [rewrite map_map; now apply map_ext|].
  split; [rewrite map_map; now apply map_ext|].
  split; [rewrite map_map; now apply map_ext|].
  split.
  { intros t' Ht' Hg. apply in_map_iff in Ht'. destruct Ht' as [t [<- _]].
    cbn [genre unlink_genre] in Hg. apply filter_In in Hg.
    destruct Hg as [_ Hg]. now rewrite Z.eqb_refl in Hg. }
  split.
  { intros t k _ Hk Hne. cbn [genre unlink_genre]. apply filter_In.
    split; [exact Hk|]. apply negb_true_iff. now apply Z.eqb_neq. }
  repeat split.
Qed.

Lemma genre_delete_keeps_titles_witness :
  NoDup (map genre_slug (genres (Examples.catalogue 4 8)))
  /\ In Examples.drama (genres (Examples.catalogue 4 8))
  /\ exists resp st',
       delete_genre (Examples.anonymous "DELETE" []) "drama"
         (Examples.catalogue 4 8) = (Ok resp, st')
       /\ map title_id (titles st') = [1]
       /\ reviews st' = reviews (Examples.catalogue 4 8).
Proof.
  assert (Hnd : NoDup (map genre_slug (genres (Examples.catalogue 4 8)))).
  { simpl. constructor; [intros []|constructor]. }
  assert (Hin : In Examples.drama (genres (Examples.catalogue 4 8)))
    by (simpl; now left).
  split; [exact Hnd|]. split; [exact Hin|].
  destruct (genre_delete_keeps_titles (Examples.anonymous "DELETE" [])
              (Examples.catalogue 4 8) Examples.drama Hnd Hin)
    as [resp [st' [Hrun [_ [Hids [_ [_ [_ [_ [_ [_ [Hrev _]]]]]]]]]]]].
  exists resp, st'. split; [exact Hrun|]. split; [exact Hids|exact Hrev].
Defined.

(** ** Surrounding white space *)

(** A character field sees a string only through its trimmed form. *)
Lemma charfield_sees_trimmed (partial : bool) (f : CharField)
    (s1 s2 : string) :
  Py.strip s1 = Py.strip s2 ->
  CharField_run_validation partial f (Some (JStr s1))
  = CharField_run_validation partial f (Some (JStr s2)).
Proof.
  intros Hs. unfold CharField_run_validation, is_blank,
    validate_empty_values, CharField_to_internal_value.
  now rewrite Hs.
Qed.

(** X22: the token endpoint reads the username and the confirmation code
    trimmed: two token requests whose usernames, and whose codes, differ
    only in surrounding white space have the same outcome on the same
    store. *)
Theorem token_ignores_padding (E : Externals) (r1 r2 : Request)
    (st : State) (n1 n2 c1 c2 : string) :
  get "username" (body r1) = Some (JStr n1) ->
  get "username" (body r2) = Some (JStr n2) ->
  get "confirmation_code" (body r1) = Some (JStr c1) ->
  get "confirmation_code" (body r2) = Some (JStr c2) ->
  Py.strip n1 = Py.strip n2 -> Py.strip c1 = Py.strip c2 ->
  Token_post E r1 st = Token_post E r2 st.
Proof.
  intros Hn1 Hn2 Hc1 Hc2 Hn Hc.
  unfold Token_post, TokenSerializer_is_valid.
  rewrite Hn1, Hn2, Hc1, Hc2.
  rewrite (charfield_sees_trimmed false token_username_field n1 n2 Hn).
  rewrite (charfield_sees_trimmed false token_code_field c1 c2 Hc).
  reflexivity.
Qed.

Lemma token_ignores_padding_witness :
  Py.strip " alice" = Py.strip "alice "
  /\ Py.strip "c0de-a " = Py.strip "c0de-a"
  /\ Token_post Examples.spec_externals
       (Examples.token_request " alice" "c0de-a ") (Examples.catalogue 4 8)
     = Token_post Examples.spec_externals
         (Examples.token_request "alice " "c0de-a") (Examples.catalogue 4 8).
Proof.
  split; [reflexivity|]. split; [reflexivity|].
  exact (token_ignores_padding Examples.spec_externals
           (Examples.token_request " alice" "c0de-a ")
           (Examples.token_request "alice " "c0de-a")
           (Examples.catalogue 4 8) " alice" "alice " "c0de-a " "c0de-a"
           eq_refl eq_refl eq_refl eq_refl eq_refl eq_refl).
Defined.

Lemma well_formed_trimmed (E : Externals) (n : string) :
  well_formed_username E n -> Py.strip n = n.
Proof.
  intros [Hwf _]. unfold CharField_run_validation in Hwf.
  destruct (is_blank (Some (JStr n))); [discriminate Hwf|].
  unfold validate_empty_values, CharField_to_internal_value, checked in Hwf.
  destruct (run_validators _ (Py.strip n)); [|discriminate Hwf].
  injection Hwf as Hstrip. exact Hstrip.
Qed.

(** X23: sign-up validates the trimmed username but looks the account up
    by the raw one.  For a new username sent with surrounding white space
    (well-formed once trimmed, and free in both forms) the account is
    created under the trimmed name, and the lookup that follows raises
    [DoesNotExist]: the call ends in that exception, with the account
    stored and no mail sent. *)
Theorem signup_padded_username (E : Externals) (request : Request)
    (st : State) (s n e : string) :
  get "username" (body request) = Some (JStr s) ->
  get "email" (body request) = Some (JStr e) ->
  Py.strip s = n -> s <> n ->
  well_formed_username E n -> well_formed_email E e ->
  (forall u, In u (users st) -> username u <> n) ->
  (forall u, In u (users st) -> username u <> s) ->
  exists u st',
    SignUpViewSet_create E request st = (Raise DoesNotExist, st')
    /\ users st' = users st ++ [u]
    /\ username u = n /\ email u = e
    /\ outbox st' = outbox st
    /\ status_code (finalize (Raise DoesNotExist))
       = HTTP_500_INTERNAL_SERVER_ERROR.
Proof.
  intros Hs He Hstrip Hne Hwu Hwe Hfree Hraw.
  exists (mkUser (next_id (map user_id (users st))) n e (default_role E)
                 "" "" "" (default_confirmation_code E st)).
  unfold SignUpViewSet_create. unfold bind at 1. unfold read at 1.
  rewrite Hs, He. unfold User_filter. cbn [lookup_text Py.str_of_scalar].
  rewrite filter_none.
  2:{ intros x Hx. apply andb_false_iff. left. apply String.eqb_neq.
      now apply Hraw. }
  unfold bind at 1. unfold ret at 1.
  unfold SignUpSerializer_to_internal_value. rewrite Hs, He.
  rewrite (charfield_sees_trimmed false (username_field E None (users st))
             s n) by (rewrite (well_formed_trimmed E n Hwu); exact Hstrip).
  rewrite (signup_username_field E None (users st) n Hwu).
  rewrite (username_free None (users st) n Hfree).
  unfold well_formed_email in Hwe. rewrite Hwe.
  cbn [field_errors app field_value].
  unfold SignUpSerializer_save, User_objects_create, User_save.
  cbn [vd_username vd_email or_keep].
  unfold User_by_username. cbn [lookup_text Py.str_of_scalar].
  run_handler. cbn [username user_id].
  rewrite (username_free (Some _) (users st) n Hfree).
  rewrite (no_row_with_next_id user_id (users st)).
  cbn [users set_users]. rewrite filter_app.
  rewrite (filter_username_free (users st) s Hraw).
  cbn [filter app username].
  replace (String.eqb n s) with false
    by (symmetry; apply String.eqb_neq; congruence).
  cbn [QuerySet_get].
  eexists. split; [reflexivity|]. repeat split.
Qed.

Lemma signup_padded_username_witness :
  Py.strip " carol" = "carol"
  /\ well_formed_username Examples.spec_externals "carol"
  /\ well_formed_email Examples.spec_externals "carol@example.com"
  /\ exists u st',
       SignUpViewSet_create Examples.spec_externals
         (Examples.signup_request " carol" "carol@example.com")
         (Examples.catalogue 4 8) = (Raise DoesNotExist, st')
       /\ users st' = users (Examples.catalogue 4 8) ++ [u]
       /\ username u = "carol"
       /\ outbox st' = outbox (Examples.catalogue 4 8).
Proof.
  assert (Hwu : well_formed_username Examples.spec_externals "carol")
    by (split; [reflexivity|discriminate]).
  assert (Hwe : well_formed_email Examples.spec_externals "carol@example.com")
    by reflexivity.
  split; [reflexivity|]. split; [exact Hwu|]. split; [exact Hwe|].
  destruct (signup_padded_username Examples.spec_externals
              (Examples.signup_request " carol" "carol@example.com")
              (Examples.catalogue 4 8) " carol" "carol" "carol@example.com"
              eq_refl eq_refl eq_refl)
    as [u [st' [Hrun [Hus [Hn [_ [Hout _]]]]]]];
    try assumption; try discriminate.
  - intros u [<-|[<-|[<-|[]]]]; discriminate.
  - intros u [<-|[<-|[<-|[]]]]; discriminate.
  - exists u, st'. repeat split; assumption.
Defined.

(** ** The review list of a title *)

Lemma insert_by_pub_date_perm (r : Review) (l : list Review) :
  Permutation (insert_by_pub_date r l) (r :: l).
Proof.
  induction l as [|a l IH]; simpl.
  - apply Permutation_refl.
  - destruct (review_pub_date a <? review_pub_date r).
    + apply Permutation_refl.
    + apply perm_trans with (a :: r :: l).
      * now apply perm_skip.
      * apply perm_swap.
Qed.

Lemma order_by_pub_date_desc_perm (l : list Review) :
  Permutation (order_by_pub_date_desc l) l.
Proof.
  induction l as [|a l IH]; simpl.
  - apply Permutation_refl.
  - apply perm_trans with (a :: order_by_pub_date_desc l).
    + apply insert_by_pub_date_perm.
    + now apply perm_skip.
Qed.

Lemma insert_by_pub_date_sorted (r : Review) (l : list Review) :
  StronglySorted newer_first l ->
  StronglySorted newer_first (insert_by_pub_date r l).
Proof.
  induction l as [|a l IH]; simpl; intros Hs.
  - constructor; constructor.
  - inversion Hs as [|? ? Hl Ha]; subst.
    destruct (review_pub_date a <? review_pub_date r) eqn:Hlt.
    + apply Z.ltb_lt in Hlt. constructor; [exact Hs|].
      constructor; [unfold newer_first; lia|].
      rewrite Forall_forall in *. intros x Hx.
      specialize (Ha x Hx). unfold newer_first in *. lia.
    + apply Z.ltb_ge in Hlt. constructor; [now apply IH|].
      rewrite Forall_forall in *. intros x Hx.
      apply insert_by_pub_date_In in Hx. destruct Hx as [->|Hx].
      * exact Hlt.
      * now apply Ha.
Qed.

Lemma order_by_pub_date_desc_sorted (l : list Review) :
  StronglySorted newer_first (order_by_pub_date_desc l).
Proof.
  induction l as [|a l IH]; simpl.
  - constructor.
  - now apply insert_by_pub_date_sorted.
Qed.

(** X24: the query set of the reviews of a stored title holds exactly
    the stored reviews of that title, each as often as it is stored, and
    lists them newest first; building it changes nothing. *)
Theorem reviews_listed_newest_first (st : State) (t : Title) :
  NoDup (map title_id (titles st)) -> In t (titles st) ->
  exists l,
    ReviewViewSet_get_queryset (title_id t) st = (Ok l, st)
    /\ Permutation l (title_reviews st (title_id t))
    /\ StronglySorted newer_first l
    /\ (forall r, In r l
                  <-> In r (reviews st) /\ review_title r = title_id t).
Proof.
  intros Hnd Hin. unfold ReviewViewSet_get_queryset. run_handler.
  rewrite (filter_unique_key title_id Z.eqb _ t Zeqb_iff Hnd Hin).
  cbn [get_object_or_404 QuerySet_get].
  eexists. split; [reflexivity|]. split; [|split].
  - apply order_by_pub_date_desc_perm.
  - apply order_by_pub_date_desc_sorted.
  - intros r. rewrite order_by_pub_date_desc_In. unfold title_reviews.
    rewrite filter_In, Z.eqb_eq. reflexivity.
Qed.

Lemma reviews_listed_newest_first_witness :
  NoDup (map title_id (titles (Examples.catalogue 4 8)))
  /\ In Examples.title_x (titles (Examples.catalogue 4 8))
  /\ exists l,
       ReviewViewSet_get_queryset 1 (Examples.catalogue 4 8)
       = (Ok l, Examples.catalogue 4 8)
       /\ StronglySorted newer_first l
       /\ In Examples.first_review l.
Proof.
  assert (Hnd : NoDup (map title_id (titles (Examples.catalogue 4 8)))).
  { simpl. constructor; [intros []|constructor]. }
  assert (Hin : In Examples.title_x (titles (Examples.catalogue 4 8)))
    by (simpl; now left).
  split; [exact Hnd|]. split; [exact Hin|].
  destruct (reviews_listed_newest_first (Examples.catalogue 4 8)
              Examples.title_x Hnd Hin) as [l [Hrun [_ [Hs Hl]]]].
  exists l. split; [exact Hrun|]. split; [exact Hs|].
  apply Hl. split; [simpl; now left|reflexivity].
Defined.

(** ** Creating a title, then reading it *)

(** X25: on a store whose reviews all point at stored titles, a title
    just created reads back under its new primary key: the read answers
    200 with a null rating and the same id, name, year, description, genre
    and category that the create answered. *)
Theorem created_title_reads_unrated (current_year : Z)
    (request reader : Request) (st st' : State) (resp : Response) :
  references_resolve st ->
  TitleViewSet_create current_year request st = (Ok resp, st') ->
  exists t shown,
    titles st' = titles st ++ [t]
    /\ field "id" (data resp) = Some (JInt (title_id t))
    /\ TitleViewSet_retrieve reader (title_id t) st'
       = (Ok (mkResponse HTTP_200_OK shown), st')
    /\ field "rating" shown = Some JNull
    /\ field "id" shown = field "id" (data resp)
    /\ field "name" shown = field "name" (data resp)
    /\ field "year" shown = field "year" (data resp)
    /\ field "description" shown = field "description" (data resp)
    /\ field "genre" shown = field "genre" (data resp)
    /\ field "category" shown = field "category" (data resp).
Proof.
  intros [Hr _] Hrun.
  destruct (title_create_outcome current_year request st st' (Ok resp) Hrun)
    as [[_ [e He]]|Hok]; [discriminate He|].
  destruct Hok as [data [name [y [gs [cat [_ [_ [_ [_ [_ [Hst Hout]]]]]]]]]]].
  set (t := mkTitle (next_id (map title_id (titles st)))
              (Some (category_id cat))
              (match vd_description data with Some s => s | None => "" end)
              (nodup Z.eq_dec (map genre_id gs)) name y) in *.
  inversion Hout; subst resp. clear Hout.
  assert (Hts : titles st' = titles st ++ [t]) by (rewrite Hst; reflexivity).
  assert (Hsingle : filter (fun x => title_id x =? title_id t) (titles st')
                    = [t]).
  { rewrite Hts, filter_app. rewrite filter_none.
    - simpl. now rewrite Z.eqb_refl.
    - intros x Hx. apply Z.eqb_neq.
      pose proof (next_id_fresh _ _ (in_map title_id _ x Hx)).
      subst t. cbn [title_id]. lia. }
  assert (Hnone : title_scores st' (title_id t) = []).
  { unfold title_scores, title_reviews. rewrite Hst.
    cbn [reviews set_titles]. rewrite filter_none; [reflexivity|].
    intros r Hrin. apply Z.eqb_neq. destruct (Hr r Hrin) as [x [Hx Hid]].
    pose proof (next_id_fresh _ _ (in_map title_id _ x Hx)).
    subst t. cbn [title_id]. lia. }
  exists t. eexists. split; [exact Hts|]. split; [reflexivity|].
  split.
  { rewrite (retrieve_single reader st' (title_id t) t Hsingle), Hnone.
    reflexivity. }
  repeat split.
Qed.

Lemma created_title_reads_unrated_witness :
  references_resolve (Examples.catalogue 4 8)
  /\ exists resp st' t shown,
       TitleViewSet_create 2024
         (Examples.anonymous "POST"
            [("name", JStr "Y"); ("year", JInt 3000);
             ("genre", JList [JStr "drama"]); ("category", JStr "film")])
         (Examples.catalogue 4 8) = (Ok resp, st')
       /\ TitleViewSet_retrieve (Examples.anonymous "GET" []) (title_id t) st'
          = (Ok (mkResponse HTTP_200_OK shown), st')
       /\ field "rating" shown = Some JNull.
Proof.
  split; [exact catalogue_references_resolve|].
  destruct (TitleViewSet_create 2024
              (Examples.anonymous "POST"
                 [("name", JStr "Y"); ("year", JInt 3000);
                  ("genre", JList [JStr "drama"]); ("category", JStr "film")])
              (Examples.catalogue 4 8)) as [[resp|e] st'] eqn:Hrun.
  - destruct (created_title_reads_unrated 2024 _
                (Examples.anonymous "GET" []) _ _ _
                catalogue_references_resolve Hrun)
      as [t [shown [_ [_ [Hread [Hrating _]]]]]].
    exists resp, st', t, shown. split; [reflexivity|].
    split; [exact Hread|exact Hrating].
  - vm_compute in Hrun. discriminate Hrun.
Defined.
